(** * DataVizStream: layout engines and data sources

    A shallow embedding of the five layout engines under
    [DataVizStream/visualizations/] and, from
    [DataVizStream/utils/data_sources.py], of
    [generate_large_realistic_dataset], of the simulated sources
    [get_random_data], [get_market_data] and [get_weather_stations_data],
    and of [get_real_time_data], which assembles the live dataset.

    Modelling conventions.
    - Python floats are idealised as real numbers ([R]); a NaN is the
      [None] of [float := option R] and appears wherever pandas/numpy can
      produce one (a missing cell, the square root of a negative number,
      an uninterpolable grid node).
    - A record is a Python dict: [gmap string value].
    - A pandas DataFrame is a set of column names and a list of rows, each
      row carrying its index label.
    - The interpreter's [random] module, numpy's global generator, the
      seeded sampler behind [DataFrame.sample(random_state=42)], the sort
      behind [sort_values], scipy's [griddata] and float formatting are
      external to the repository: they are the methods of the classes
      [PyRandom] and [Library], with the contracts their documentation
      gives.
    - The four sources that query a server ([get_crypto_data],
      [get_earthquake_data], [get_nyc_open_data],
      [get_github_activity_data]) catch every exception and return a
      list of records or [None]; what the servers answer is not modelled,
      so they are the methods of the class [Network].
    - A plotly figure keeps its traces (coordinates, marker size and
      colour, texts, name, mode), its animation frames and its title;
      pure styling constants are left out. Of plotly's validation only
      the one that the engines' data can trip is kept: a NaN in a
      [marker.size] array.
    - Each engine is [try: body except Exception: error figure]: the body
      is a computation in the monad [Eng.E] (generator state and
      exceptions), the engine is [Eng.guarded] applied to it. *)

From Stdlib Require Import Reals Lra Lia Ascii.
From stdpp Require Import gmap strings list fin_maps pretty sorting.

Open Scope R_scope.

(** ** Python values and dicts *)

Inductive value :=
| VNum (r : R)
| VStr (s : string).

Abbreviation dict := (gmap string value).

(** Column names used throughout the repository. *)
Definition COMPANY : string := "Company".
Definition VALUATION : string := "Valuation ($B)".
Definition IMPACT : string := "AI Impact Score".
Definition GROWTH : string := "Growth Rate (%)".
Definition STATUS : string := "Status".

(** ** The interpreter's [random] module

    CPython implements [uniform(a, b)] as [a + (b-a) * random()],
    [choice(seq)] as [seq[_randbelow(len(seq))]] and [randint(a, b)] as
    [a + _randbelow(b - a + 1)]; [random()] and [_randbelow] are the two
    primitives. *)

Class PyRandom := {
  pystate : Type;
  py_random : pystate -> R * pystate;
  py_randbelow : nat -> pystate -> nat * pystate;
  py_random_range : forall s, 0 <= (py_random s).1 < 1;
  py_randbelow_lt : forall n s, (0 < n)%nat -> ((py_randbelow n s).1 < n)%nat
}.

Module Gen.
Section WithRandom.
Context {RS : PyRandom}.

(** State passing over the generator state. *)
Definition M (A : Type) : Type := pystate -> A * pystate.
Definition ret {A} (a : A) : M A := fun s => (a, s).
Definition bind {A B} (k : A -> M B) (m : M A) : M B :=
  fun s => let (a, s') := m s in k a s'.

Definition uniform (a b : R) : M R :=
  fun s => let (u, s') := py_random s in (a + (b - a) * u, s').

Definition choice (xs : list string) : M string :=
  fun s => let (k, s') := py_randbelow (length xs) s in (nth k xs "", s').

Definition randint (a b : nat) : M nat :=
  fun s => let (k, s') := py_randbelow (b - a + 1) s in ((a + k)%nat, s').

End WithRandom.
End Gen.

#[global] Instance gen_ret {RS : PyRandom} : MRet Gen.M := @Gen.ret RS.
#[global] Instance gen_bind {RS : PyRandom} : MBind Gen.M := @Gen.bind RS.

(** ** [generate_large_realistic_dataset] (data_sources.py, 549-624)

    The body of the [try]; nothing in it raises, so the handler that
    falls back to [get_unicorn_data()] is never entered. *)

Definition sectors : list string :=
  ["Fintech"; "Healthtech"; "AI/ML"; "E-commerce"; "SaaS"; "Edtech";
   "Gaming"; "Aerospace"; "Cybersecurity"; "Biotech"; "Cleantech";
   "Mobility"; "Foodtech"; "Proptech"; "Adtech"; "Logistics"].

Definition countries : list string :=
  ["USA"; "China"; "India"; "UK"; "Germany"; "Israel"; "Canada";
   "Sweden"; "Singapore"; "Australia"; "France"; "Netherlands";
   "South Korea"].

Definition statuses : list string :=
  ["Unicorn"; "Soonicorn"; "Decacorn"; "Hectocorn"].

Section Generator.
Context {RS : PyRandom}.

(** The sector-conditioned draws of lines 575-594. *)
Definition sector_bases (sector : string) : Gen.M (R * R * R) :=
  if decide (sector = "AI/ML") then
    v ← Gen.uniform 1 300 ; a ← Gen.uniform 70 95 ;
    g ← Gen.uniform 200 2000 ; mret (v, a, g)
  else if decide (sector = "Fintech") then
    v ← Gen.uniform 1 150 ; a ← Gen.uniform 40 80 ;
    g ← Gen.uniform 100 800 ; mret (v, a, g)
  else if decide (sector = "Healthtech" \/ sector = "Biotech") then
    v ← Gen.uniform 0.5 100 ; a ← Gen.uniform 60 90 ;
    g ← Gen.uniform 80 500 ; mret (v, a, g)
  else if decide (sector = "E-commerce") then
    v ← Gen.uniform 1 200 ; a ← Gen.uniform 30 70 ;
    g ← Gen.uniform 150 1000 ; mret (v, a, g)
  else
    v ← Gen.uniform 0.5 80 ; a ← Gen.uniform 20 70 ;
    g ← Gen.uniform 50 400 ; mret (v, a, g).

(** Lines 596-602: the status adjusts the base valuation. *)
Definition adjust_status (status : string) (valuation_base : R) : R :=
  if decide (status = "Decacorn") then Rmax 10 valuation_base
  else if decide (status = "Hectocorn") then Rmax 100 valuation_base
  else if decide (status = "Soonicorn") then Rmin 1 valuation_base
  else valuation_base.

(** The dict literal of lines 607-618; its values are evaluated in the
    order in which they are written. *)
Definition make_record (i : nat) (sector country status : string)
    (valuation_base ai_impact_base growth_base correlation_factor : R)
    (jitter : R) (year : nat) (lon lat : R) : dict :=
  <[ COMPANY := VStr (sector +:+ " Startup " +:+ pretty (i + 1)%nat) ]>
  (<[ VALUATION := VNum (valuation_base * correlation_factor) ]>
  (<[ IMPACT := VNum (Rmin 95 (Rmax 1 (ai_impact_base + jitter))) ]>
  (<[ GROWTH := VNum (growth_base * correlation_factor) ]>
  (<[ "Sector" := VStr sector ]>
  (<[ "Founded Year" := VNum (INR year) ]>
  (<[ "Country" := VStr country ]>
  (<[ STATUS := VStr status ]>
  (<[ "longitude" := VNum lon ]>
  (<[ "latitude" := VNum lat ]> ∅))))))))).

(** One iteration of the loop at line 569. *)
Definition generate_record (i : nat) : Gen.M dict :=
  sector ← Gen.choice sectors ;
  country ← Gen.choice countries ;
  status ← Gen.choice statuses ;
  '(valuation_base, ai_impact_base, growth_base) ← sector_bases sector ;
  let valuation_base := adjust_status status valuation_base in
  correlation_factor ← Gen.uniform 0.8 1.2 ;
  jitter ← Gen.uniform (-10) 10 ;
  year ← Gen.randint 2010 2024 ;
  lon ← Gen.uniform (-180) 180 ;
  lat ← Gen.uniform (-90) 90 ;
  mret (make_record i sector country status valuation_base ai_impact_base
          growth_base correlation_factor jitter year lon lat).

(** [for i in range(size)], the records appended in order. *)
Fixpoint generate_loop (n i : nat) : Gen.M (list dict) :=
  match n with
  | O => mret []
  | S n' =>
      r ← generate_record i ;
      rs ← generate_loop n' (S i) ;
      mret (r :: rs)
  end.

Definition generate_large_realistic_dataset (size : nat) : Gen.M (list dict) :=
  generate_loop size 0.

End Generator.

(** ** Floats with NaN, pandas Series *)

(** The guard [1e-9] added to every [max - min] denominator. *)
Definition EPSILON : R := 1e-9.
Arguments EPSILON : simpl never.

Lemma EPSILON_pos : 0 < EPSILON.
Proof. unfold EPSILON. lra. Qed.

Abbreviation float := (option R).
Definition NaN : float := None.

Definition flift (f : R -> R) (a : float) : float := f <$> a.
Definition flift2 (f : R -> R -> R) (a b : float) : float :=
  match a, b with
  | Some x, Some y => Some (f x y)
  | _, _ => NaN
  end.

Definition fadd := flift2 Rplus.
Definition fsub := flift2 Rminus.
Definition fmul := flift2 Rmult.
(** Every divisor in the engines is positive ([max - min + 1e-9], a
    length, a constant), so the lifted real quotient is the float one. *)
Definition fdiv := flift2 Rdiv.

Definition isnan (a : float) : bool := if a is None then true else false.

(** [np.sqrt]: NaN on a negative argument. *)
Definition np_sqrt (a : float) : float :=
  match a with
  | Some x => if Rlt_dec x 0 then NaN else Some (sqrt x)
  | None => NaN
  end.

(** [np.clip(a, lo, hi)] is [minimum(maximum(a, lo), hi)]; NaN stays. *)
Definition np_clip (lo hi : R) (a : float) : float :=
  flift (fun x => Rmin (Rmax x lo) hi) a.

Definition dropna (xs : list float) : list R := omap (fun a : float => a) xs.

(** [Series.min()] and [Series.max()] skip NaN; on nothing they are NaN. *)
Definition series_min (xs : list float) : float :=
  match dropna xs with
  | [] => NaN
  | x :: l => Some (foldr Rmin x l)
  end.

Definition series_max (xs : list float) : float :=
  match dropna xs with
  | [] => NaN
  | x :: l => Some (foldr Rmax x l)
  end.

(** [np.nanmean] over the nodes of a grid. *)
Definition nanmean (xs : list float) : float :=
  match dropna xs with
  | [] => NaN
  | l => Some (foldr Rplus 0 l / INR (length l))
  end.

(** [np.linspace(start, stop, num)]: [arange(num) * step + start] with
    [step = (stop - start) / (num - 1)]; numpy then stores [stop] in the
    last slot, which over the reals is already its value. *)
Definition linspace (start stop : R) (num : nat) : list R :=
  match num with
  | O => []
  | 1%nat => [start]
  | _ => (fun i => INR i * ((stop - start) / INR (num - 1)) + start) <$> seq 0 num
  end.

Definition flinspace (start stop : float) (num : nat) : list float :=
  match start, stop with
  | Some a, Some b => Some <$> linspace a b num
  | _, _ => replicate num NaN
  end.

(** [np.meshgrid(x, y)]: [X[i][j] = x[j]] and [Y[i][j] = y[i]]. *)
Definition meshgrid {A} (x y : list A) : list (list A) * list (list A) :=
  ((fun _ => x) <$> y, (fun yi => (fun _ => yi) <$> x) <$> y).

(** ** Exceptions *)

Inductive result (A : Type) :=
| Ok (a : A)
| Raise.
Arguments Ok {A} a.
Arguments Raise {A}.

#[global] Instance result_ret : MRet result := fun _ a => Ok a.
#[global] Instance result_bind : MBind result := fun _ _ k m =>
  match m with
  | Ok a => k a
  | Raise => Raise
  end.

#[global] Instance result_fmap : FMap result := fun _ _ f m =>
  match m with
  | Ok a => Ok (f a)
  | Raise => Raise
  end.

Fixpoint result_mapM {A B} (f : A -> result B) (l : list A) : result (list B) :=
  match l with
  | [] => Ok []
  | a :: l' => b ← f a; bs ← result_mapM f l'; Ok (b :: bs)
  end.

(** ** The libraries the engines call *)

Class Library := {
  (** numpy's global generator: [np.random.seed(n)] installs [np_seed n];
      [random_sample(n)] draws [n] numbers from [[0, 1)]. *)
  rng : Type;
  np_seed : nat -> rng;
  np_random_sample : nat -> rng -> list R * rng;
  np_random_sample_length : forall n g,
    length (np_random_sample n g).1 = n;
  np_random_sample_range : forall n g,
    Forall (fun u => 0 <= u < 1) (np_random_sample n g).1;
  (** [RandomState(42).choice(N, size=k, replace=False)], the positions
      that [DataFrame.sample(n=k, random_state=42)] takes from a frame of
      [N] rows, in the order in which it takes them. *)
  sample_locs : nat -> nat -> list nat;
  sample_locs_length : forall N k, (k <= N)%nat ->
    length (sample_locs N k) = k;
  sample_locs_lt : forall N k, (k <= N)%nat ->
    Forall (fun i => (i < N)%nat) (sample_locs N k);
  sample_locs_NoDup : forall N k, (k <= N)%nat -> NoDup (sample_locs N k);
  (** The positions in sorted order behind [sort_values] (NaN last). *)
  argsort : list float -> list nat;
  argsort_perm : forall keys, argsort keys ≡ₚ seq 0 (length keys);
  (** [scipy.interpolate.griddata(points, values, (XI, YI), 'cubic')]:
      it raises or returns an array of the shape of [XI]. *)
  griddata_cubic : list (float * float) -> list float ->
    list (list float) * list (list float) -> result (list (list float));
  griddata_cubic_shape : forall points values XI YI ZI,
    griddata_cubic points values (XI, YI) = Ok ZI ->
    Forall2 (fun zrow xrow => length zrow = length xrow) ZI XI;
  (** [str(x)] and [format(x, '.1f')] of a float. *)
  str_float : R -> string;
  format_1f : R -> string
}.

(** ** DataFrames *)

Record DataFrame := {
  columns : gset string;
  rows : list (nat * dict)
}.

(** [pd.DataFrame(data)] for a list of dicts: the columns are the keys
    seen, the index is [0 .. len-1], a key a dict lacks is a NaN cell. *)
Definition from_records (data : list dict) : DataFrame :=
  {| columns := ⋃ (dom <$> data); rows := imap (fun i r => (i, r)) data |}.

Definition len (df : DataFrame) : nat := length (rows df).

Definition has_column (k : string) (df : DataFrame) : bool :=
  bool_decide (k ∈ columns df).

(** [df[k]] as cells; [None] is NaN. *)
Definition column (k : string) (df : DataFrame) : list (option value) :=
  (fun row => row.2 !! k) <$> rows df.

(** A cell in arithmetic: a string raises [TypeError]. *)
Definition to_float (c : option value) : result float :=
  match c with
  | None => Ok NaN
  | Some (VNum x) => Ok (Some x)
  | Some (VStr _) => Raise
  end.

Definition numeric_column (k : string) (df : DataFrame) : result (list float) :=
  result_mapM to_float (column k df).

(** [df.take(locs)]: rows by position, each keeping its label; a position
    out of range raises [IndexError]. *)
Definition take (locs : list nat) (df : DataFrame) : result DataFrame :=
  rs ← result_mapM (fun l => if rows df !! l is Some row then Ok row else Raise) locs;
  Ok {| columns := columns df; rows := rs |}.

(** [df.reset_index(drop=True)] *)
Definition reset_index (df : DataFrame) : DataFrame :=
  {| columns := columns df; rows := imap (fun i row => (i, row.2)) (rows df) |}.

(** ** Figures *)

Inductive marker_attr :=
| AttrDefault
| AttrConst (x : R)
| AttrNamed (s : string)
| AttrArray (l : list float).

Record Scatter3d := {
  sc_x : list float;
  sc_y : list float;
  sc_z : list float;
  sc_mode : string;
  sc_size : marker_attr;
  sc_color : marker_attr;
  sc_text : list string;
  sc_hovertext : list string;
  sc_name : string
}.

Inductive array :=
| Arr1 (l : list float)
| Arr2 (l : list (list float)).

Record Surface := {
  su_x : array;
  su_y : array;
  su_z : list (list float);
  su_name : string
}.

Inductive trace :=
| TScatter3d (s : Scatter3d)
| TSurface (s : Surface).

Record Figure := {
  fig_data : list trace;
  fig_frames : list (list trace);
  fig_title : string
}.

(** The figure every [except Exception] handler builds:
    [Scatter3d(x=[0], y=[0], z=[0], mode='markers')] under an error title. *)
Definition error_figure (title : string) : Figure :=
  {| fig_data := [TScatter3d {| sc_x := [Some 0]; sc_y := [Some 0]; sc_z := [Some 0];
                                sc_mode := "markers";
                                sc_size := AttrDefault; sc_color := AttrDefault;
                                sc_text := []; sc_hovertext := []; sc_name := "" |}];
     fig_frames := [];
     fig_title := title |}.

(** plotly validates [marker.size] when a trace is built: an array with a
    NaN entry raises [ValueError]. (So does a negative entry; the sizes
    the engines pass are clipped from below at 6 or 8, or are 8 plus 12
    times a normalised value.) *)
Definition validate_marker_size (sizes : list float) : result unit :=
  if forallb (fun s => negb (isnan s)) sizes then Ok tt else Raise.

(** ** The engine monad: numpy's global generator and exceptions *)

Module Eng.
Section WithLibrary.
Context {L : Library}.

(** A raise keeps the generator state reached so far. *)
Definition E (A : Type) : Type := rng -> result A * rng.
Definition ret {A} (a : A) : E A := fun g => (Ok a, g).
Definition bind {A B} (k : A -> E B) (m : E A) : E B :=
  fun g => match m g with
           | (Ok a, g') => k a g'
           | (Raise, g') => (Raise, g')
           end.
Definition lift {A} (r : result A) : E A := fun g => (r, g).
Definition raise {A} : E A := fun g => (Raise, g).

(** [np.random.seed(n)] *)
Definition seed (n : nat) : E unit := fun _ => (Ok tt, np_seed n).

(** [np.random.uniform(low, high, n)] is [low + (high-low) * random_sample(n)]. *)
Definition uniform (low high : float) (n : nat) : E (list float) :=
  fun g => let (us, g') := np_random_sample n g in
           (Ok ((fun u => fadd low (fmul (fsub high low) (Some u))) <$> us), g').

(** [try: body  except Exception: return the error figure]. *)
Definition guarded (title : string) (body : E Figure) : rng -> Figure * rng :=
  fun g => match body g with
           | (Ok fig, g') => (fig, g')
           | (Raise, g') => (error_figure title, g')
           end.

End WithLibrary.
End Eng.

#[global] Instance eng_ret {L : Library} : MRet Eng.E := @Eng.ret L.
#[global] Instance eng_bind {L : Library} : MBind Eng.E := @Eng.bind L.

Section Engines.
Context {L : Library}.

(** *** Pieces shared by the five engines *)

(** [df.sample(n=n, random_state=42)]; pandas raises [ValueError] when
    [n] exceeds the population. *)
Definition sample (n : nat) (df : DataFrame) : result DataFrame :=
  if decide (n <= len df)%nat then take (sample_locs (len df) n) df else Raise.

(** [if len(df) > cap: df = df.sample(n=cap, random_state=42)], the
    first statement of every engine. *)
Definition downsample (cap : nat) (df : DataFrame) : result DataFrame :=
  if decide (cap < len df)%nat then sample cap df else Ok df.

(** [df[k] = xs] for an array of floats. *)
Definition assign (k : string) (xs : list float) (df : DataFrame) : DataFrame :=
  {| columns := {[ k ]} ∪ columns df;
     rows := zip_with (fun row x =>
                         (row.1, match x with
                                 | Some r => <[ k := VNum r ]> row.2
                                 | None => delete k row.2
                                 end)) (rows df) xs |}.

(** [if k not in df.columns: df[k] = np.random.uniform(lo, hi, len(df))] *)
Definition ensure_column (k : string) (lo hi : R) (df : DataFrame) : Eng.E DataFrame :=
  if has_column k df then mret df
  else xs ← Eng.uniform (Some lo) (Some hi) (len df); mret (assign k xs df).

(** [(s - s.min()) / (s.max() - s.min() + 1e-9)] *)
Definition normalize (s : list float) : list float :=
  (fun x => fdiv (fsub x (series_min s))
                 (fadd (fsub (series_max s) (series_min s)) (Some EPSILON))) <$> s.

(** A cell inside an f-string. *)
Definition fmt_cell (c : option value) : string :=
  match c with
  | None => "nan"
  | Some (VNum x) => str_float x
  | Some (VStr s) => s
  end.

(** [row.get('Company', f'Company {i}')] on a row of [df]. *)
Definition company_name (df : DataFrame) (i : nat) (row : dict) : string :=
  if has_column COMPANY df then fmt_cell (row !! COMPANY)
  else "Company " +:+ pretty i.

Definition hover_label (df : DataFrame) (i : nat) (row : dict) : string :=
  "<b>" +:+ company_name df i row +:+ "</b><br>Valuation: $"
  +:+ fmt_cell (row !! VALUATION) +:+ "B<br>AI Impact Score: "
  +:+ fmt_cell (row !! IMPACT) +:+ "<br>Growth Rate: "
  +:+ fmt_cell (row !! GROWTH) +:+ "%".

(** [[f"..." for i, (_, row) in enumerate(df.iterrows())]] *)
Definition hover_text (df : DataFrame) : list string :=
  imap (fun i row => hover_label df i row.2) (rows df).

(** *** spiral_tunnel.py *)

(** Lines 27-65: the trace, from the frame and its growth column. *)
Definition spiral_tunnel_figure (df : DataFrame) (growth : list float) : Figure :=
  let growth_norm := normalize growth in
  let num_points := len df in
  let num_turns := 6 in
  let z := linspace 0 100 num_points in
  let theta := linspace 0 (num_turns * 2 * PI) num_points in
  let r_base := 40 in
  let r_variation := fmul (Some 20) <$> growth_norm in
  let r := fadd (Some r_base) <$> r_variation in
  let x := zip_with (fun r t => fmul r (Some (cos t))) r theta in
  let y := zip_with (fun r t => fmul r (Some (sin t))) r theta in
  {| fig_data :=
       [TScatter3d {| sc_x := x; sc_y := y; sc_z := Some <$> z;
                      sc_mode := "lines+markers";
                      sc_size := AttrConst 7;
                      sc_color := AttrArray (Some <$> z);
                      sc_text := hover_text df; sc_hovertext := [];
                      sc_name := "Tunnel Trajectory" |}];
     fig_frames := [];
     fig_title := "Unicorn Companies Tunnel Spiral Spectrum" |}.

Definition spiral_tunnel_body (data : list dict) : Eng.E Figure :=
  if data is [] then Eng.raise else
  df ← Eng.lift (downsample 1000 (from_records data));
  df ← ensure_column GROWTH 50 200 df;
  df ← ensure_column VALUATION 1 50 df;
  df ← ensure_column IMPACT 20 90 df;
  growth ← Eng.lift (numeric_column GROWTH df);
  mret (spiral_tunnel_figure df growth).

Definition create_spiral_tunnel_visualization (data : list dict)
  : rng -> Figure * rng :=
  Eng.guarded "Error in Spiral Tunnel Visualization" (spiral_tunnel_body data).

(** *** wave_surface.py *)

(** [ZI + wave_amplitude * (np.sin(fx * XI) + np.cos(fy * YI))] at a node. *)
Definition wave_effect (zi xi yi : float) : float :=
  fadd zi (fmul (Some 1.5) (fadd (flift sin (fmul (Some 0.2) xi))
                                 (flift cos (fmul (Some 0.1) yi)))).

Definition grid_zip3 {A B C D} (f : A -> B -> C -> D)
    (a : list (list A)) (b : list (list B)) (c : list (list C)) : list (list D) :=
  zip_with (fun ab crow => zip_with (fun p z => f p.1 p.2 z) ab crow)
           (zip_with zip a b) c.

(** [Z[np.isnan(Z)] = np.nanmean(Z)] *)
Definition fillna_mean (Z : list (list float)) : list (list float) :=
  let m := nanmean (concat Z) in
  (fun zrow : list float => (fun z : float => if isnan z then m else z) <$> zrow) <$> Z.

(** Lines 33-41: the 100 x 100 grid over the growth and valuation ranges. *)
Definition wave_surface_grid (growth valuation : list float)
  : list (list float) * list (list float) :=
  let x_min := series_min growth in
  let x_max := series_max growth in
  let y_min := series_min valuation in
  let y_max := series_max valuation in
  let num_points := 100%nat in
  let xi := flinspace x_min x_max num_points in
  let yi := flinspace y_min y_max num_points in
  meshgrid xi yi.

(** Line 84: [8 + 12 * growth_norm]. *)
Definition wave_marker_size (growth : list float) : list float :=
  (fun gn => fadd (Some 8) (fmul (Some 12) gn)) <$> normalize growth.

(** Lines 52-130: the two traces, from the frame, its three columns and
    the interpolated grid. *)
Definition wave_surface_figure (df : DataFrame)
    (growth valuation impact : list float) (ZI : list (list float)) : Figure :=
  let '(XI, YI) := wave_surface_grid growth valuation in
  let ZI_wave_effect :=
    fillna_mean (grid_zip3 (fun x y z => wave_effect z x y) XI YI ZI) in
  {| fig_data :=
       [TSurface {| su_x := Arr2 XI; su_y := Arr2 YI; su_z := ZI_wave_effect;
                    su_name := "AI Impact Surface" |};
        TScatter3d {| sc_x := growth; sc_y := valuation;
                      sc_z := (fun a => fadd a (Some 0.5)) <$> impact;
                      sc_mode := "markers+text";
                      sc_size := AttrArray (wave_marker_size growth);
                      sc_color := AttrArray impact;
                      sc_text := imap (fun i row => company_name df i row.2) (rows df);
                      sc_hovertext := hover_text df;
                      sc_name := "Unicorn Companies" |}];
     fig_frames := [];
     fig_title := "Unicorn Wave: Growth, Valuation & AI Impact" |}.

Definition wave_surface_body (data : list dict) : Eng.E Figure :=
  if data is [] then Eng.raise else
  df ← Eng.lift (downsample 1500 (from_records data));
  df ← ensure_column GROWTH 50 200 df;
  df ← ensure_column VALUATION 1 50 df;
  df ← ensure_column IMPACT 20 90 df;
  growth ← Eng.lift (numeric_column GROWTH df);
  valuation ← Eng.lift (numeric_column VALUATION df);
  impact ← Eng.lift (numeric_column IMPACT df);
  let points := zip growth valuation in
  let values := impact in
  ZI ← Eng.lift (griddata_cubic points values (wave_surface_grid growth valuation));
  _ ← Eng.lift (validate_marker_size (wave_marker_size growth));
  mret (wave_surface_figure df growth valuation impact ZI).

Definition create_wave_surface_visualization (data : list dict)
  : rng -> Figure * rng :=
  Eng.guarded "Error in Wave Surface Visualization" (wave_surface_body data).

(** *** ripple_bubbles.py *)

(** Line 76: [0.5 + 0.4 * np.sin(2 * np.pi * frame / num_frames + i * 0.2)],
    [i] the index label that [iterrows] yields. *)
Definition ripple_z (num_frames frame i : nat) : R :=
  0.5 + 0.4 * sin (2 * PI * INR frame / INR num_frames + INR i * 0.2).

Definition frame_bubble_z (num_frames frame : nat) (df : DataFrame) : list float :=
  (fun row => Some (ripple_z num_frames frame row.1)) <$> rows df.

(** Line 42: [np.clip(valuation * 0.7, 6, 30)]. *)
Definition ripple_bubble_size (valuation : list float) : list float :=
  (fun v => np_clip 6 30 (fmul v (Some 0.7))) <$> valuation.

(** Lines 42-116: the trace and its 60 frames. *)
Definition ripple_bubbles_figure (unicorn_df : DataFrame)
    (valuation impact bubble_x bubble_y bubble_z : list float) : Figure :=
  let bubble_size := ripple_bubble_size valuation in
  let bubble_color := impact in
  let bubble_text := hover_text unicorn_df in
  let scatter z :=
    TScatter3d {| sc_x := bubble_x; sc_y := bubble_y; sc_z := z;
                  sc_mode := "markers";
                  sc_size := AttrArray bubble_size;
                  sc_color := AttrArray bubble_color;
                  sc_text := []; sc_hovertext := bubble_text;
                  sc_name := "Unicorn Companies" |} in
  let num_frames := 60%nat in
  let frames :=
    (fun frame => [scatter (frame_bubble_z num_frames frame unicorn_df)])
      <$> seq 0 num_frames in
  {| fig_data := [scatter bubble_z];
     fig_frames := frames;
     fig_title := "3D Unicorn Companies Bubble Map" |}.

Definition ripple_bubbles_body (data : list dict) : Eng.E Figure :=
  if data is [] then Eng.raise else
  unicorn_df ← Eng.lift (downsample 800 (from_records data));
  unicorn_df ← ensure_column GROWTH 50 200 unicorn_df;
  unicorn_df ← ensure_column VALUATION 1 50 unicorn_df;
  unicorn_df ← ensure_column IMPACT 20 90 unicorn_df;
  (* the three [_Norm] columns: arithmetic on each column, results unused *)
  valuation ← Eng.lift (numeric_column VALUATION unicorn_df);
  _ ← Eng.lift (numeric_column GROWTH unicorn_df);
  impact ← Eng.lift (numeric_column IMPACT unicorn_df);
  _ ← Eng.seed 42;
  let n := len unicorn_df in
  bubble_x ← Eng.uniform (Some 0) (Some 1) n;
  bubble_y ← Eng.uniform (Some 0) (Some 1) n;
  bubble_z ← Eng.uniform (Some 0) (Some 1) n;
  _ ← Eng.lift (validate_marker_size (ripple_bubble_size valuation));
  mret (ripple_bubbles_figure unicorn_df valuation impact bubble_x bubble_y bubble_z).

Definition create_ripple_bubbles_visualization (data : list dict)
  : rng -> Figure * rng :=
  Eng.guarded "Error in Ripple Bubbles Visualization" (ripple_bubbles_body data).

(** *** undulating_wave.py *)

(** Lines 42 and 68 as Python parses them: [**] binds tighter than [/],
    so each quotient is [(x - x_min) / ((x_max - x_min + 1e-9) ** 2)]. *)
Definition wave_height (x_min x_max y_min y_max : float) (x y : float) : float :=
  flift sin
    (fmul (Some 10)
       (np_sqrt
          (fadd (fdiv (fsub x x_min)
                      (flift (fun d => d ^ 2) (fadd (fsub x_max x_min) (Some EPSILON))))
                (fdiv (fsub y y_min)
                      (flift (fun d => d ^ 2) (fadd (fsub y_max y_min) (Some EPSILON))))))).

(** The padded range of a column: [(min - pad, max + pad)] with
    [pad = (max - min) * 0.1]. *)
Definition padded_range (s : list float) : float * float :=
  let s_min := series_min s in
  let s_max := series_max s in
  let pad := fmul (fsub s_max s_min) (Some 0.1) in
  (fsub s_min pad, fadd s_max pad).

(** Lines 27-42: the 50 x 50 surface. *)
Definition undulating_surface (valuation growth : list float)
  : list float * list float * list (list float) :=
  let grid_size := 50%nat in
  let x_min := series_min valuation in
  let x_max := series_max valuation in
  let y_min := series_min growth in
  let y_max := series_max growth in
  let x := flinspace (padded_range valuation).1 (padded_range valuation).2 grid_size in
  let y := flinspace (padded_range growth).1 (padded_range growth).2 grid_size in
  let '(x_grid, y_grid) := meshgrid x y in
  let z := zip_with (zip_with (wave_height x_min x_max y_min y_max)) x_grid y_grid in
  (x, y, z).

(** Lines 45-93: the two traces. *)
Definition undulating_wave_figure (df : DataFrame)
    (valuation growth company_x company_y : list float) : Figure :=
  let '(x, y, z) := undulating_surface valuation growth in
  let company_z :=
    zip_with (wave_height (series_min valuation) (series_max valuation)
                          (series_min growth) (series_max growth))
             company_x company_y in
  let company_text := hover_text df in
  {| fig_data :=
       [TSurface {| su_x := Arr1 x; su_y := Arr1 y; su_z := z; su_name := "" |};
        TScatter3d {| sc_x := company_x; sc_y := company_y; sc_z := company_z;
                      sc_mode := "markers";
                      sc_size := AttrConst 5; sc_color := AttrNamed "black";
                      sc_text := company_text; sc_hovertext := [];
                      sc_name := "Companies" |}];
     fig_frames := [];
     fig_title := "Undulating Wave Surface with Multiple Oscillations" |}.

Definition undulating_wave_body (data : list dict) : Eng.E Figure :=
  if data is [] then Eng.raise else
  df ← Eng.lift (downsample 1200 (from_records data));
  df ← ensure_column GROWTH 50 200 df;
  df ← ensure_column VALUATION 1 50 df;
  df ← ensure_column IMPACT 20 90 df;
  valuation ← Eng.lift (numeric_column VALUATION df);
  growth ← Eng.lift (numeric_column GROWTH df);
  _ ← Eng.seed 42;
  company_x ← Eng.uniform (padded_range valuation).1 (padded_range valuation).2 (len df);
  company_y ← Eng.uniform (padded_range growth).1 (padded_range growth).2 (len df);
  mret (undulating_wave_figure df valuation growth company_x company_y).

Definition create_undulating_wave_visualization (data : list dict)
  : rng -> Figure * rng :=
  Eng.guarded "Error in Undulating Wave Visualization" (undulating_wave_body data).

(** *** geolocation_bubble.py *)

(** [f"{x:.1f}"]: a string cell has been rejected before. *)
Definition fmt_1f (a : float) : string :=
  match a with
  | Some x => format_1f x
  | None => "nan"
  end.

(** [df.sort_values(k, ascending=True).reset_index(drop=True)] *)
Definition sort_values (k : string) (df : DataFrame) : result DataFrame :=
  keys ← numeric_column k df;
  reset_index <$> take (argsort keys) df.

(** [radius_base + radius_growth * i/n_points * 8] of lines 50 and 128. *)
Definition spiral_radius (n_points i : nat) : R :=
  2 + 0.3 * INR i / INR n_points * 8.

(** Lines 73-76: [(valuation * 1.2 + min_size).clip(min_size, max_size)]. *)
Definition geolocation_bubble_sizes (valuation : list float) : list float :=
  let min_size := 8 in
  let max_size := 40 in
  (fun v => np_clip min_size max_size (fadd (fmul v (Some 1.2)) (Some min_size)))
    <$> valuation.

(** Lines 34-205: the bubbles and the 200-sample guide curve. *)
Definition geolocation_figure (df_sorted : DataFrame)
    (valuation impact : list float) : Figure :=
  let n_points := len df_sorted in
  let t := linspace 0 (6 * PI) n_points in
  let height_multiplier := 0.5 in
  let x_coords := imap (fun i angle => Some (spiral_radius n_points i * cos angle)) t in
  let y_coords := imap (fun i angle => Some (spiral_radius n_points i * sin angle)) t in
  let z_coords :=
    imap (fun i v => fadd (Some (height_multiplier * INR i)) (fmul v (Some 0.1)))
         valuation in
  let bubble_sizes := geolocation_bubble_sizes valuation in
  (* [for i, row in df_sorted.iterrows()]: [i] is the (reset) label *)
  let hover_text :=
    (fun '(v, (i, row), a) =>
       "<b>" +:+ company_name df_sorted i row +:+ "</b><br>"
       +:+ "Valuation: $" +:+ fmt_1f v +:+ "B<br>"
       +:+ "AI Impact Score: " +:+ fmt_1f a +:+ "/100<br>")
      <$> zip (zip valuation (rows df_sorted)) impact in
  let t_smooth := linspace 0 (6 * PI) 200 in
  let x_line := imap (fun i angle => Some (spiral_radius 200 i * cos angle)) t_smooth in
  let y_line := imap (fun i angle => Some (spiral_radius 200 i * sin angle)) t_smooth in
  let z_line :=
    imap (fun i (_ : R) => Some (height_multiplier * INR i / 200 * INR n_points))
         t_smooth in
  {| fig_data :=
       [TScatter3d {| sc_x := x_coords; sc_y := y_coords; sc_z := z_coords;
                      sc_mode := "markers";
                      sc_size := AttrArray bubble_sizes;
                      sc_color := AttrArray impact;
                      sc_text := hover_text; sc_hovertext := [];
                      sc_name := "AI Startups" |};
        TScatter3d {| sc_x := x_line; sc_y := y_line; sc_z := z_line;
                      sc_mode := "lines";
                      sc_size := AttrDefault; sc_color := AttrDefault;
                      sc_text := []; sc_hovertext := [];
                      sc_name := "Growth Trajectory" |}];
     fig_frames := [];
     fig_title := "3D AI Startup Growth Tsunami<br><sub>Interactive Spiral Visualization of AI Company Valuations & Impact</sub>" |}.

Definition geolocation_body (data : list dict) : Eng.E Figure :=
  if data is [] then Eng.raise else
  df ← Eng.lift (downsample 2000 (from_records data));
  df ← ensure_column VALUATION 1 50 df;
  df ← ensure_column IMPACT 20 90 df;
  df_sorted ← Eng.lift (sort_values VALUATION df);
  valuation ← Eng.lift (numeric_column VALUATION df_sorted);
  impact ← Eng.lift (numeric_column IMPACT df_sorted);
  _ ← Eng.lift (validate_marker_size (geolocation_bubble_sizes valuation));
  mret (geolocation_figure df_sorted valuation impact).

Definition create_geolocation_visualization (data : list dict)
  : rng -> Figure * rng :=
  Eng.guarded "Error in Spiraling Tsunami Visualization" (geolocation_body data).

End Engines.

(** ** The simulated sources of data_sources.py

    [get_random_data] (278-298), [get_market_data] (300-341) and
    [get_weather_stations_data] (385-424) draw every number from the
    [random] module; none of them opens a connection. *)

(** [int(x)] of a float: truncation towards zero. *)
Definition py_int (x : R) : Z :=
  if Rle_dec 0 x then Int_part x else (- Int_part (- x))%Z.

(** [s.split(sep)] for a one-character separator. *)
Fixpoint split_on (sep : ascii) (s : string) : list string :=
  match s with
  | EmptyString => [EmptyString]
  | String c s' =>
      if decide (c = sep) then EmptyString :: split_on sep s'
      else match split_on sep s' with
           | [] => [String c EmptyString]
           | w :: ws => String c w :: ws
           end
  end.

(** [sep in s] for a one-character [sep]. *)
Fixpoint contains (sep : ascii) (s : string) : bool :=
  match s with
  | EmptyString => false
  | String c s' => if decide (c = sep) then true else contains sep s'
  end.

(** [l[i]]: [IndexError] out of range. *)
Definition index {A} (l : list A) (i : nat) : result A :=
  match l !! i with
  | Some a => Ok a
  | None => Raise
  end.

Definition companies : list string :=
  ["TechCorp"; "InnovateLabs"; "FutureAI"; "DataWorks"; "CloudTech";
   "SmartSolutions"; "NextGen"; "DeepTech"; "AlgoCompany"; "ByteForce"].

Definition symbols : list string :=
  ["AAPL"; "MSFT"; "GOOGL"; "AMZN"; "TSLA"; "META"; "NVDA"; "NFLX"; "ORCL"; "CRM";
   "UBER"; "LYFT"; "SNAP"; "TWTR"; "ZOOM"; "SHOP"; "SQ"; "PYPL"; "ROKU"; "DOCU";
   "ZM"; "SLACK"; "OKTA"; "SNOW"; "PLTR"; "COIN"; "HOOD"; "RBLX"; "AI"; "C3AI"].

Definition cities : list string :=
  ["London,UK"; "Tokyo,JP"; "New York,US"; "Paris,FR"; "Sydney,AU";
   "Mumbai,IN"; "Dubai,AE"; "Singapore,SG"; "Toronto,CA"; "Berlin,DE";
   "Seoul,KR"; "São Paulo,BR"; "Cairo,EG"; "Moscow,RU"; "Lagos,NG"].

Section Sources.
Context {RS : PyRandom}.

(** [for i, x in enumerate(xs): out.append(body)] *)
Fixpoint for_enumerate {A B} (body : nat -> A -> Gen.M B) (i : nat) (xs : list A)
  : Gen.M (list B) :=
  match xs with
  | [] => mret []
  | x :: xs' =>
      r ← body i x ;
      rs ← for_enumerate body (S i) xs' ;
      mret (r :: rs)
  end.

(** The same loop around [try: out.append(body) except: continue]: an
    iteration that raises appends nothing and keeps its draws. *)
Fixpoint for_enumerate_try {A B} (body : nat -> A -> Gen.M (result B))
    (i : nat) (xs : list A) : Gen.M (list B) :=
  match xs with
  | [] => mret []
  | x :: xs' =>
      r ← body i x ;
      rs ← for_enumerate_try body (S i) xs' ;
      mret (if r is Ok b then b :: rs else rs)
  end.

(** The dict literal of lines 287-296. *)
Definition random_record (i : nat) (company : string) : Gen.M dict :=
  valuation ← Gen.uniform 1 100 ;
  impact ← Gen.randint 50 95 ;
  growth ← Gen.randint 80 500 ;
  lon ← Gen.uniform (-180) 180 ;
  lat ← Gen.uniform (-90) 90 ;
  mret (<[ COMPANY := VStr company ]>
       (<[ VALUATION := VNum valuation ]>
       (<[ IMPACT := VNum (INR impact) ]>
       (<[ GROWTH := VNum (INR growth) ]>
       (<[ "longitude" := VNum lon ]>
       (<[ "latitude" := VNum lat ]>
       (<[ "city" := VStr ("City_" +:+ pretty (i + 1)%nat) ]>
       (<[ "country" := VStr "Global" ]> ∅)))))))).

Definition get_random_data : Gen.M (list dict) :=
  for_enumerate random_record 0 companies.

(** Lines 317-333; the arithmetic cannot raise, so the inner handler is
    never entered. *)
Definition market_record (i : nat) (symbol : string) : Gen.M dict :=
  price ← Gen.uniform 10 1000 ;
  change ← Gen.uniform (-10) 10 ;
  volume ← Gen.randint (Z.to_nat 100000) (Z.to_nat 10000000) ;
  impact ← Gen.randint 40 95 ;
  lon ← Gen.uniform (-180) 180 ;
  lat ← Gen.uniform (-90) 90 ;
  mret (<[ COMPANY := VStr symbol ]>
       (<[ VALUATION := VNum (price / 10) ]>
       (<[ IMPACT := VNum (INR impact) ]>
       (<[ GROWTH := VNum (change * 10 + 100) ]>
       (<[ "longitude" := VNum lon ]>
       (<[ "latitude" := VNum lat ]>
       (<[ "city" := VStr ("Market_" +:+ pretty i) ]>
       (<[ "country" := VStr "Global" ]>
       (<[ "type" := VStr "stock" ]>
       (<[ "volume" := VNum (INR volume) ]>
       (<[ "price" := VNum price ]> ∅))))))))))).

Definition get_market_data : Gen.M (list dict) :=
  for_enumerate market_record 0 (firstn 50 symbols).

(** Lines 399-416: the three readings, the two coordinates, then the two
    halves of the city name. *)
Definition weather_record (i : nat) (city : string) : Gen.M (result dict) :=
  temp ← Gen.uniform (-20) 45 ;
  humidity ← Gen.uniform 20 100 ;
  pressure ← Gen.uniform 980 1030 ;
  lon ← Gen.uniform (-180) 180 ;
  lat ← Gen.uniform (-90) 90 ;
  mret (name ← index (split_on ","%char city) 0 ;
        country ← (if contains ","%char city then index (split_on ","%char city) 1
                   else Ok "Unknown") ;
        Ok (<[ COMPANY := VStr ("Weather Station " +:+ city) ]>
           (<[ VALUATION := VNum (temp / 10 + 5) ]>
           (<[ IMPACT := VNum (IZR (py_int humidity)) ]>
           (<[ GROWTH := VNum (pressure / 10) ]>
           (<[ "longitude" := VNum lon ]>
           (<[ "latitude" := VNum lat ]>
           (<[ "city" := VStr name ]>
           (<[ "country" := VStr country ]>
           (<[ "type" := VStr "weather" ]>
           (<[ "temperature" := VNum temp ]>
           (<[ "humidity" := VNum humidity ]>
           (<[ "pressure" := VNum pressure ]> ∅))))))))))))).

Definition get_weather_stations_data : Gen.M (list dict) :=
  for_enumerate_try weather_record 0 cities.

End Sources.

(** ** [get_real_time_data] (data_sources.py, 121-171)

    The four sources that query a server ([get_crypto_data], 343-383;
    [get_earthquake_data], 426-465; [get_nyc_open_data], 467-507;
    [get_github_activity_data], 509-547) answer with what the server
    sent. Each is [try: if status == 200: ... return records
    except Exception: return []]: it returns a list, or [None] on any
    other status, raises nothing, and may draw from [random] for every
    record it builds. *)

Class Network {RS : PyRandom} := {
  get_crypto_data : Gen.M (option (list dict));
  get_earthquake_data : Gen.M (option (list dict));
  get_nyc_open_data : Gen.M (option (list dict));
  get_github_activity_data : Gen.M (option (list dict))
}.

(** [if fetched: datasets.extend(fetched[:k])]; [None] and the empty list
    are both false. *)
Definition extend_if (datasets : list dict) (fetched : option (list dict))
    (k : nat) : list dict :=
  match fetched with
  | Some (r :: rs) => datasets ++ firstn k (r :: rs)
  | _ => datasets
  end.

Section RealTime.
Context {RS : PyRandom} {NW : Network}.

(** The body of the [try]; with sources that raise nothing, nothing in it
    raises, and the handler that generates 3000 records is never entered. *)
Definition get_real_time_data : Gen.M (list dict) :=
  let datasets := [] in
  market_data ← get_market_data ;
  let datasets := extend_if datasets (Some market_data) 1000 in
  crypto_data ← get_crypto_data ;
  let datasets := extend_if datasets crypto_data 500 in
  weather_data ← get_weather_stations_data ;
  let datasets := extend_if datasets (Some weather_data) 300 in
  earthquake_data ← get_earthquake_data ;
  let datasets := extend_if datasets earthquake_data 200 in
  nyc_data ← get_nyc_open_data ;
  let datasets := extend_if datasets nyc_data 500 in
  github_data ← get_github_activity_data ;
  let datasets := extend_if datasets github_data 300 in
  if decide (100 < length datasets)%nat then mret datasets
  else generate_large_realistic_dataset 5000.

End RealTime.

(** ** Reference instances of the external libraries

    Scripted generators: the state is the list of the draws still to come,
    a draw [k] standing for the number [k / (k + 1)] of [[0, 1)]; an
    exhausted script draws [0]. They make every execution path of the
    code reachable by choosing the script. *)

Module Scripted.

Definition unit_draw (k : nat) : R := INR k / (INR k + 1).

Lemma unit_draw_range k : 0 <= unit_draw k < 1.
Proof.
  unfold unit_draw. pose proof (pos_INR k) as Hk.
  split.
  - apply Rmult_le_pos; [lra|]. left. apply Rinv_0_lt_compat. lra.
  - apply Rmult_lt_reg_r with (INR k + 1); [lra|].
    unfold Rdiv. rewrite Rmult_assoc, Rinv_l by lra. lra.
Qed.

(** *** The [random] module *)

Definition s_pystate : Type := list nat * list nat.

Definition s_py_random (s : s_pystate) : R * s_pystate :=
  match s.1 with
  | [] => (0, s)
  | k :: ks => (unit_draw k, (ks, s.2))
  end.

Definition s_py_randbelow (n : nat) (s : s_pystate) : nat * s_pystate :=
  match s.2 with
  | [] => (O, s)
  | k :: ks => ((k mod n)%nat, (s.1, ks))
  end.

Lemma s_py_random_range s : 0 <= (s_py_random s).1 < 1.
Proof.
  unfold s_py_random. destruct s as [[|k ks] bs]; simpl; [lra|].
  apply unit_draw_range.
Qed.

Lemma s_py_randbelow_lt n s : (0 < n)%nat -> ((s_py_randbelow n s).1 < n)%nat.
Proof.
  intros Hn. unfold s_py_randbelow. destruct s as [us [|k ks]]; simpl; [lia|].
  apply Nat.mod_upper_bound. lia.
Qed.

Definition random : PyRandom :=
  {| pystate := s_pystate;
     py_random := s_py_random;
     py_randbelow := s_py_randbelow;
     py_random_range := s_py_random_range;
     py_randbelow_lt := s_py_randbelow_lt |}.

(** *** numpy's global generator *)

Definition s_rng : Type := list nat.

(** The script that [np.random.seed(n)] installs. *)
Definition s_np_seed (n : nat) : s_rng := [1; 3; 0; 7; 2; n]%nat.

Definition s_np_random_sample (n : nat) (g : s_rng) : list R * s_rng :=
  (unit_draw <$> firstn n (g ++ replicate n O), skipn n g).

Lemma s_np_random_sample_length n g : length (s_np_random_sample n g).1 = n.
Proof.
  unfold s_np_random_sample. simpl.
  rewrite length_fmap, length_take, length_app, length_replicate. lia.
Qed.

Lemma s_np_random_sample_range n g :
  Forall (fun u => 0 <= u < 1) (s_np_random_sample n g).1.
Proof.
  unfold s_np_random_sample. simpl. apply Forall_fmap, Forall_forall.
  intros k _. apply unit_draw_range.
Qed.

(** *** The seeded sampler: the last [k] positions, last first *)

Definition s_sample_locs (N k : nat) : list nat := reverse (seq (N - k) k).

Lemma s_sample_locs_length N k : (k <= N)%nat -> length (s_sample_locs N k) = k.
Proof. intros _. unfold s_sample_locs. by rewrite length_reverse, length_seq. Qed.

Lemma s_sample_locs_lt N k :
  (k <= N)%nat -> Forall (fun i => (i < N)%nat) (s_sample_locs N k).
Proof.
  intros Hk. unfold s_sample_locs. apply Forall_forall. intros i Hi.
  apply elem_of_reverse, elem_of_seq in Hi. lia.
Qed.

Lemma s_sample_locs_NoDup N k : (k <= N)%nat -> NoDup (s_sample_locs N k).
Proof. intros _. unfold s_sample_locs. rewrite reverse_Permutation. apply NoDup_seq. Qed.

(** *** [s_argsort]: insertion sort on (key, position), NaN last *)

Definition key_le (a b : float) : bool :=
  match a, b with
  | Some x, Some y => if Rle_dec x y then true else false
  | _, None => true
  | None, Some _ => false
  end.

Fixpoint insert_key (p : float * nat) (l : list (float * nat)) : list (float * nat) :=
  match l with
  | [] => [p]
  | q :: l' => if key_le p.1 q.1 then p :: q :: l' else q :: insert_key p l'
  end.

Definition s_argsort (keys : list float) : list nat :=
  snd <$> foldr insert_key [] (zip keys (seq 0 (length keys))).

Lemma insert_key_perm p l : insert_key p l ≡ₚ p :: l.
Proof.
  induction l as [|q l IH]; simpl; [done|].
  destruct (key_le p.1 q.1); [done|].
  rewrite IH. apply Permutation_swap.
Qed.

Lemma s_argsort_perm keys : s_argsort keys ≡ₚ seq 0 (length keys).
Proof.
  unfold s_argsort.
  assert (Hs : forall l : list (float * nat), foldr insert_key [] l ≡ₚ l).
  { induction l as [|p l IH]; simpl; [done|]. by rewrite insert_key_perm, IH. }
  rewrite Hs. rewrite snd_zip; [done|]. by rewrite length_seq.
Qed.

(** *** [griddata]: Qhull needs [qhull_min] input points to build its
    initial simplex and raises [QhullError] below that; above, the
    stand-in interpolant is the mean of the values at every node. *)

Definition s_griddata_cubic (qhull_min : nat)
    (points : list (float * float)) (values : list float)
    (grid : list (list float) * list (list float)) : result (list (list float)) :=
  if decide (length points < qhull_min)%nat then Raise
  else Ok ((fun xrow : list float => (fun _ => nanmean values) <$> xrow) <$> grid.1).

Lemma s_griddata_cubic_shape qhull_min points values XI YI ZI :
  s_griddata_cubic qhull_min points values (XI, YI) = Ok ZI ->
  Forall2 (fun zrow xrow => length zrow = length xrow) ZI XI.
Proof.
  unfold s_griddata_cubic. case_decide; [done|]. intros [= <-]. simpl.
  apply Forall2_fmap_l, Forall_Forall2_diag, Forall_forall.
  intros xrow _. simpl. apply length_fmap.
Qed.

(** *** Float formatting: the integer part, in decimal *)

Definition s_str_float (x : R) : string := pretty (Int_part x).

Definition library (qhull_min : nat) : Library :=
  {| rng := s_rng;
     np_seed := s_np_seed;
     np_random_sample := s_np_random_sample;
     np_random_sample_length := s_np_random_sample_length;
     np_random_sample_range := s_np_random_sample_range;
     sample_locs := s_sample_locs;
     sample_locs_length := s_sample_locs_length;
     sample_locs_lt := s_sample_locs_lt;
     sample_locs_NoDup := s_sample_locs_NoDup;
     argsort := s_argsort;
     argsort_perm := s_argsort_perm;
     griddata_cubic := s_griddata_cubic qhull_min;
     griddata_cubic_shape := s_griddata_cubic_shape qhull_min;
     str_float := s_str_float;
     format_1f := s_str_float |}.

End Scripted.

(** ** Predicates and example inputs used by the properties *)

(** A figure that is one marker at the origin. *)
Definition single_origin_point (fig : Figure) : Prop :=
  exists s, fig_data fig = [TScatter3d s]
            /\ sc_x s = [Some 0] /\ sc_y s = [Some 0] /\ sc_z s = [Some 0]
            /\ fig_frames fig = [].

(** The floor as the claim states it, on an emitted record. *)
Definition status_floor_respected (r : dict) : Prop :=
  forall status v,
    r !! STATUS = Some (VStr status) -> r !! VALUATION = Some (VNum v) ->
    (status = "Decacorn" -> 10 <= v)
    /\ (status = "Hectocorn" -> 100 <= v)
    /\ (status = "Soonicorn" -> v <= 1).

(** The draws of one iteration that decide the valuation and the growth
    rate, taken from the state at which the iteration starts and in the
    order of the loop body: the status (line 572), the two bases of the
    sector drawn (575-594), the correlation factor (605). *)
Definition valuation_draws `{RS : PyRandom} : Gen.M (string * R * R * R) :=
  sector ← Gen.choice sectors ;
  _ ← Gen.choice countries ;
  status ← Gen.choice statuses ;
  '(valuation_base, _, growth_base) ← sector_bases sector ;
  correlation_factor ← Gen.uniform 0.8 1.2 ;
  mret (status, valuation_base, growth_base, correlation_factor).

(** What the code guarantees for the record [r] of the iteration that
    starts in state [s]: the status clamp is applied to the base the
    sector drew, the floor holds for the clamped base, and the emitted
    valuation and growth rate are the clamped base and the growth base
    times the one factor drawn, a number of [[0.8, 1.2]]. *)
Definition clamped_then_jittered `{RS : PyRandom} (s : pystate) (r : dict) : Prop :=
  let '(status, valuation_base, growth_base, correlation_factor) :=
    (valuation_draws s).1 in
  let clamped := adjust_status status valuation_base in
  r !! STATUS = Some (VStr status)
  /\ r !! VALUATION = Some (VNum (clamped * correlation_factor))
  /\ r !! GROWTH = Some (VNum (growth_base * correlation_factor))
  /\ 0.8 <= correlation_factor <= 1.2
  /\ (status = "Decacorn" -> 10 <= clamped /\ 8 <= clamped * correlation_factor)
  /\ (status = "Hectocorn" -> 100 <= clamped /\ 80 <= clamped * correlation_factor)
  /\ (status = "Soonicorn" -> clamped <= 1 /\ clamped * correlation_factor <= 1.2).

(** The states in which the [n] iterations of the loop start. *)
Fixpoint iteration_states `{RS : PyRandom} (n i : nat) (s : pystate) : list pystate :=
  match n with
  | O => []
  | S n' => s :: iteration_states n' (S i) (generate_record i s).2
  end.

(** [df'] is [df] with columns added: same labels, same cells in the
    columns of [df]. *)
Definition frame_extends (df df' : DataFrame) : Prop :=
  columns df ⊆ columns df'
  /\ Forall2 (fun r r' => r'.1 = r.1
                          /\ forall key, key ∈ columns df -> r'.2 !! key = r.2 !! key)
             (rows df) (rows df').

(** [40 + 20 * growth_norm] for a growth cell [gk] of the column [growth]. *)
Definition tunnel_radius (growth : list float) (gk : float) : float :=
  fadd (Some 40)
       (fmul (Some 20)
             (fdiv (fsub gk (series_min growth))
                   (fadd (fsub (series_max growth) (series_min growth)) (Some EPSILON)))).

(** A record with the three numeric columns filled by numbers. *)
Definition numeric_record (r : dict) : Prop :=
  (exists x, r !! GROWTH = Some (VNum x))
  /\ (exists x, r !! VALUATION = Some (VNum x))
  /\ (exists x, r !! IMPACT = Some (VNum x)).

(** The order claim: the trace is the one the engine draws from a frame
    that holds surviving records in insertion order, that is, from the
    rows at input positions [ps] picked in increasing order, with the
    columns the engine had to fill. *)
Definition insertion_order_kept `{L : Library} (data : list dict) (fig : Figure) : Prop :=
  exists ps df0 df growth,
    StronglySorted lt ps
    /\ take ps (from_records data) = Ok df0
    /\ frame_extends df0 df
    /\ numeric_column GROWTH df = Ok growth
    /\ fig = spiral_tunnel_figure df growth.

(** [n] records named ["0"], ["1"], ... with growth rates 0, 1, ... *)
Definition numbered_record (i : nat) : dict :=
  {[ COMPANY := VStr (pretty i); GROWTH := VNum (INR i);
     VALUATION := VNum 1; IMPACT := VNum 1 ]}.

Definition numbered_data (n : nat) : list dict := numbered_record <$> seq 0 n.

(** The height as the specification words it:
    [sin(10 * sqrt(normX^2 + normY^2))] with
    [normX = (x - x_min) / (x_max - x_min + 1e-9)] and [normY] alike. *)
Definition spec_wave_height (x_min x_max y_min y_max : float) (x y : float) : float :=
  let normX := fdiv (fsub x x_min) (fadd (fsub x_max x_min) (Some EPSILON)) in
  let normY := fdiv (fsub y y_min) (fadd (fsub y_max y_min) (Some EPSILON)) in
  flift sin
    (fmul (Some 10)
       (np_sqrt (fadd (flift (fun d => d ^ 2) normX) (flift (fun d => d ^ 2) normY)))).

(** Two records: valuations 1 and 3, growth rates 100 and 300. *)
Definition undulating_example : list dict :=
  [ {[ VALUATION := VNum 1; GROWTH := VNum 100; IMPACT := VNum 50 ]};
    {[ VALUATION := VNum 3; GROWTH := VNum 300; IMPACT := VNum 50 ]} ].

(** The figure opens with a 100 x 100 surface without NaN. *)
Definition finite_surface_100 (fig : Figure) : Prop :=
  exists surf rest,
    fig_data fig = TSurface surf :: rest
    /\ length (su_z surf) = 100%nat
    /\ Forall (fun zrow => length zrow = 100%nat /\ Forall is_Some zrow) (su_z surf).

(** The example of the specification: growth 100, valuation 10, impact
    scores 50 and 75. *)
Definition wave_example : list dict :=
  [ {[ GROWTH := VNum 100; VALUATION := VNum 10; IMPACT := VNum 50 ]};
    {[ GROWTH := VNum 100; VALUATION := VNum 10; IMPACT := VNum 75 ]} ].

(** The size of the first marker of the first trace. *)
Definition first_marker_size (fig : Figure) : float :=
  match fig_data fig with
  | TScatter3d sc :: _ =>
      match sc_size sc with
      | AttrArray (s :: _) => s
      | _ => NaN
      end
  | _ => NaN
  end.

(** One record without a valuation. *)
Definition no_valuation_example : list dict :=
  [ {[ COMPANY := VStr "Acme"; GROWTH := VNum 100; IMPACT := VNum 50 ]} ].

(** The [z] array of frame [f], when the frame is one scatter trace. *)
Definition frame_z (fig : Figure) (f : nat) : option (list float) :=
  match fig_frames fig !! f with
  | Some [TScatter3d sc] => Some (sc_z sc)
  | _ => None
  end.

(** One record with the three numeric columns. *)
Definition single_example : list dict :=
  [ {[ GROWTH := VNum 100; VALUATION := VNum 10; IMPACT := VNum 50 ]} ].




(** ** Shapes of the records the sources emit *)

(** Record [i] of the generator: its ten keys, the names drawn from the
    three catalogs, the numbers within the bounds that hold for every
    sector and status. *)
Definition generated_record (i : nat) (r : dict) : Prop :=
  exists sector country status valuation impact growth year lon lat,
    r = <[ COMPANY := VStr (sector +:+ " Startup " +:+ pretty (i + 1)%nat) ]>
        (<[ VALUATION := VNum valuation ]>
        (<[ IMPACT := VNum impact ]>
        (<[ GROWTH := VNum growth ]>
        (<[ "Sector" := VStr sector ]>
        (<[ "Founded Year" := VNum (INR year) ]>
        (<[ "Country" := VStr country ]>
        (<[ STATUS := VStr status ]>
        (<[ "longitude" := VNum lon ]>
        (<[ "latitude" := VNum lat ]> ∅)))))))))
    /\ sector ∈ sectors /\ country ∈ countries /\ status ∈ statuses
    /\ 0.4 <= valuation < 360 /\ 10 <= impact <= 95 /\ 40 <= growth < 2400
    /\ (2010 <= year <= 2024)%nat
    /\ -180 <= lon < 180 /\ -90 <= lat < 90.

(** [enumerate(xs)] *)
Definition enumerate {A} (xs : list A) : list (nat * A) := imap (fun i x => (i, x)) xs.

(** Entry [(i, company)] of [get_random_data]. *)
Definition random_data_record (entry : nat * string) (r : dict) : Prop :=
  exists valuation impact growth lon lat,
    r = <[ COMPANY := VStr entry.2 ]>
        (<[ VALUATION := VNum valuation ]>
        (<[ IMPACT := VNum (INR impact) ]>
        (<[ GROWTH := VNum (INR growth) ]>
        (<[ "longitude" := VNum lon ]>
        (<[ "latitude" := VNum lat ]>
        (<[ "city" := VStr ("City_" +:+ pretty (entry.1 + 1)%nat) ]>
        (<[ "country" := VStr "Global" ]> ∅)))))))
    /\ 1 <= valuation < 100 /\ (50 <= impact <= 95)%nat /\ (80 <= growth <= 500)%nat
    /\ -180 <= lon < 180 /\ -90 <= lat < 90.

(** Entry [(i, symbol)] of [get_market_data]: the valuation is a tenth
    of the price the record also carries. *)
Definition market_data_record (entry : nat * string) (r : dict) : Prop :=
  exists price growth volume impact lon lat,
    r = <[ COMPANY := VStr entry.2 ]>
        (<[ VALUATION := VNum (price / 10) ]>
        (<[ IMPACT := VNum (INR impact) ]>
        (<[ GROWTH := VNum growth ]>
        (<[ "longitude" := VNum lon ]>
        (<[ "latitude" := VNum lat ]>
        (<[ "city" := VStr ("Market_" +:+ pretty entry.1) ]>
        (<[ "country" := VStr "Global" ]>
        (<[ "type" := VStr "stock" ]>
        (<[ "volume" := VNum (INR volume) ]>
        (<[ "price" := VNum price ]> ∅))))))))))
    /\ 1 <= price / 10 < 100 /\ (40 <= impact <= 95)%nat /\ 0 <= growth < 200
    /\ 100000 <= INR volume <= 10000000
    /\ -180 <= lon < 180 /\ -90 <= lat < 90.

(** Entry [(i, city)] of [get_weather_stations_data]: the station is named
    after the whole catalog entry, which splits at its only comma into
    the city and the country; the impact score is the humidity truncated. *)
Definition weather_station_record (entry : nat * string) (r : dict) : Prop :=
  exists name country temp humidity pressure lon lat,
    entry.2 = name +:+ "," +:+ country /\ contains ","%char name = false
    /\ r = <[ COMPANY := VStr ("Weather Station " +:+ entry.2) ]>
           (<[ VALUATION := VNum (temp / 10 + 5) ]>
           (<[ IMPACT := VNum (IZR (py_int humidity)) ]>
           (<[ GROWTH := VNum (pressure / 10) ]>
           (<[ "longitude" := VNum lon ]>
           (<[ "latitude" := VNum lat ]>
           (<[ "city" := VStr name ]>
           (<[ "country" := VStr country ]>
           (<[ "type" := VStr "weather" ]>
           (<[ "temperature" := VNum temp ]>
           (<[ "humidity" := VNum humidity ]>
           (<[ "pressure" := VNum pressure ]> ∅)))))))))))
    /\ 3 <= temp / 10 + 5 < 9.5
    /\ (20 <= py_int humidity <= 99)%Z
    /\ IZR (py_int humidity) <= humidity < IZR (py_int humidity) + 1
    /\ 98 <= pressure / 10 <= 103
    /\ -180 <= lon < 180 /\ -90 <= lat < 90.

(** ** The live source without a network *)

(** A source that brought nothing: [None] (a status other than 200) or
    the empty list (its handler's answer to a failed request). *)
Definition brought_nothing (fetched : option (list dict)) : Prop :=
  fetched = None \/ fetched = Some [].

(** No server is reachable. *)
Definition offline `{RS : PyRandom} (NW : Network) : Prop :=
  forall s,
    brought_nothing (get_crypto_data s).1
    /\ brought_nothing (get_earthquake_data s).1
    /\ brought_nothing (get_nyc_open_data s).1
    /\ brought_nothing (get_github_activity_data s).1.

(** Every request fails and every handler answers with the empty list. *)
Definition unreachable_network : Network (RS := Scripted.random) :=
  {| get_crypto_data := mret (Some []);
     get_earthquake_data := mret (Some []);
     get_nyc_open_data := mret (Some []);
     get_github_activity_data := mret (Some []) |}.

(** Row [row'] is [row] with a number of [[lo, hi)] in column [k]. *)
Definition filled_row (k : string) (lo hi : R) (row row' : nat * dict) : Prop :=
  row'.1 = row.1
  /\ (exists x, row'.2 !! k = Some (VNum x) /\ lo <= x < hi)
  /\ forall key, key <> k -> row'.2 !! key = row.2 !! key.

(** Three records that lack the impact score. *)
Definition no_impact_example : list dict :=
  [ {[ GROWTH := VNum 100; VALUATION := VNum 10 ]};
    {[ GROWTH := VNum 150; VALUATION := VNum 20 ]};
    {[ GROWTH := VNum 120; VALUATION := VNum 15 ]} ].

(** A point on a turn of the tunnel: radius in [[40, 60)], angle within
    the six turns, height within [[0, 100]]. *)
Definition tunnel_point (p : float * float * float) : Prop :=
  exists r theta h,
    p = (Some (r * cos theta), Some (r * sin theta), Some h)
    /\ 40 <= r < 60 /\ 0 <= theta <= 12 * PI /\ 0 <= h <= 100.

(** The same with the outer radius included: [40 <= r <= 60]. *)
Definition tunnel_wall_point (p : float * float * float) : Prop :=
  exists r theta h,
    p = (Some (r * cos theta), Some (r * sin theta), Some h)
    /\ 40 <= r <= 60 /\ 0 <= theta <= 12 * PI /\ 0 <= h <= 100.

(** Three records with the same growth rate. *)
Definition flat_growth_example : list dict :=
  [ {[ GROWTH := VNum 120; VALUATION := VNum 10; IMPACT := VNum 50 ]};
    {[ GROWTH := VNum 120; VALUATION := VNum 20; IMPACT := VNum 60 ]};
    {[ GROWTH := VNum 120; VALUATION := VNum 15; IMPACT := VNum 70 ]} ].

(** One record whose growth rate is a text. *)
Definition text_growth_example : list dict :=
  [ {[ COMPANY := VStr "Acme"; GROWTH := VStr "fast";
       VALUATION := VNum 10; IMPACT := VNum 50 ]} ].

(** A float that is a number of [[lo, hi]]. *)
Definition within (lo hi : R) (a : float) : Prop :=
  exists x, a = Some x /\ lo <= x <= hi.

(** A point of the half-open unit cube. *)
Definition unit_cube_point (p : float * float * float) : Prop :=
  exists x y z,
    p = (Some x, Some y, Some z) /\ 0 <= x < 1 /\ 0 <= y < 1 /\ 0 <= z < 1.

(** [k] successive draws of [n] numbers from numpy's global generator. *)
Fixpoint after_draws `{L : Library} (k n : nat) (g : rng) : rng :=
  match k with
  | O => g
  | S k' => after_draws k' n (np_random_sample n g).2
  end.

(** The height of the undulating wave is a sine, or NaN. *)
Definition wave_height_ok (z : float) : Prop := forall h, z = Some h -> -1 <= h <= 1.

(** A point of the expanding spiral, seen from above: radius in
    [[2, 4.4)], angle within the three turns. *)
Definition spiral_point (p : float * float) : Prop :=
  exists rho t,
    p = (Some (rho * cos t), Some (rho * sin t))
    /\ 2 <= rho < 4.4 /\ 0 <= t <= 6 * PI.

(** Column [k] exists, and some record lacks it. *)
Definition ragged (k : string) (data : list dict) : Prop :=
  (exists r, r ∈ data /\ is_Some (r !! k)) /\ (exists r, r ∈ data /\ r !! k = None).

(** Two records, the second without growth rate and valuation. *)
Definition ragged_example : list dict :=
  [ {[ GROWTH := VNum 100; VALUATION := VNum 10; IMPACT := VNum 50 ]};
    {[ IMPACT := VNum 75 ]} ].

(** The number of points of each scatter trace of a figure. *)
Definition scatter_points (fig : Figure) : list nat :=
  omap (fun t => if t is TScatter3d sc then Some (length (sc_x sc)) else None)
       (fig_data fig).

(** The contract of [sort_values] on a column of numbers: the positions
    come in ascending order of their keys. *)
Definition argsort_sorts (L : Library) : Prop :=
  forall keys : list R,
    StronglySorted Rle (omap (fun i => keys !! i) (argsort (Some <$> keys))).

(** The heights of a trace never descend. *)
Definition never_descends (z : list float) : Prop :=
  forall i j zi zj,
    (i <= j)%nat -> z !! i = Some (Some zi) -> z !! j = Some (Some zj) -> zi <= zj.

(** The sector conditions the impact score and the growth rate. *)
Definition sector_pattern (r : dict) : Prop :=
  exists sector impact growth,
    r !! "Sector" = Some (VStr sector)
    /\ r !! IMPACT = Some (VNum impact) /\ r !! GROWTH = Some (VNum growth)
    /\ (sector = "AI/ML" -> 60 <= impact <= 95 /\ 160 <= growth < 2400)
    /\ (sector = "Fintech" -> 30 <= impact <= 90 /\ 80 <= growth < 960)
    /\ (sector = "Healthtech" \/ sector = "Biotech" ->
        50 <= impact <= 95 /\ 64 <= growth < 600)
    /\ (sector = "E-commerce" -> 20 <= impact <= 80 /\ 120 <= growth < 1200)
    /\ (sector ∉ ["AI/ML"; "Fintech"; "Healthtech"; "Biotech"; "E-commerce"] ->
        10 <= impact <= 80 /\ 40 <= growth < 480).

(** A record without any of the three numbers. *)
Definition bare_record (r : dict) : Prop :=
  r !! GROWTH = None /\ r !! VALUATION = None /\ r !! IMPACT = None.

(** Two records that only name their company. *)
Definition names_only_example : list dict :=
  [ {[ COMPANY := VStr "Acme" ]}; {[ COMPANY := VStr "Globex" ]} ].

(** * Properties *)

(** ** Helper lemmas on the exception monad and on frames *)

Lemma result_mapM_length {A B} (f : A -> result B) l l' :
  result_mapM f l = Ok l' -> length l' = length l.
Proof.
  revert l'. induction l as [|a l IH]; intros l'; simpl.
  - by intros [= <-].
  - destruct (f a) as [b|]; simpl; [|done].
    destruct (result_mapM f l) as [bs|]; simpl; [|done].
    intros [= <-]. simpl. f_equal. by apply IH.
Qed.

Lemma result_mapM_lookup {A B} (f : A -> result B) l l' i a :
  result_mapM f l = Ok l' -> l !! i = Some a ->
  exists b, l' !! i = Some b /\ f a = Ok b.
Proof.
  revert l' i. induction l as [|a0 l IH]; intros l' i; simpl; [done|].
  destruct (f a0) as [b0|] eqn:Hf; simpl; [|done].
  destruct (result_mapM f l) as [bs|]; simpl; [|done].
  intros [= <-]. destruct i as [|i]; simpl.
  - intros [= ->]. eauto.
  - intros Hi. by apply IH.
Qed.

Lemma result_mapM_ok {A B} (f : A -> result B) l :
  Forall (fun a => exists b, f a = Ok b) l -> exists l', result_mapM f l = Ok l'.
Proof.
  induction 1 as [|a l [b Hb] _ [l' IH]]; simpl; [by eexists|].
  rewrite Hb, IH. simpl. by eexists.
Qed.

Section FrameLemmas.
Context {L : Library}.

Lemma take_ok locs df :
  Forall (fun i => (i < len df)%nat) locs ->
  exists rs, take locs df = Ok {| columns := columns df; rows := rs |}
             /\ length rs = length locs.
Proof.
  intros Hlocs. unfold take.
  destruct (result_mapM_ok
              (fun l => if rows df !! l is Some row then Ok row else Raise) locs)
    as [rs Hrs].
  { eapply Forall_impl; [exact Hlocs|]. intros i Hi. simpl.
    destruct (lookup_lt_is_Some_2 (rows df) i Hi) as [row ->]. by eexists. }
  exists rs. rewrite Hrs. split; [done|]. by eapply result_mapM_length.
Qed.

Lemma sample_ok n df :
  (n <= len df)%nat -> exists df', sample n df = Ok df' /\ len df' = n.
Proof.
  intros Hn. unfold sample. rewrite decide_True by done.
  destruct (take_ok (sample_locs (len df) n) df) as (rs & Hrs & Hlen).
  { by apply sample_locs_lt. }
  eexists. split; [exact Hrs|]. unfold len. simpl.
  by rewrite Hlen, sample_locs_length.
Qed.

Lemma downsample_small cap df : (len df <= cap)%nat -> downsample cap df = Ok df.
Proof. intros H. unfold downsample. rewrite decide_False; [done|lia]. Qed.

Lemma downsample_large cap df :
  (cap < len df)%nat -> exists df', downsample cap df = Ok df' /\ len df' = cap.
Proof.
  intros H. unfold downsample. rewrite decide_True by done.
  apply sample_ok. lia.
Qed.

Lemma len_from_records data : len (from_records data) = length data.
Proof. unfold len, from_records. simpl. apply length_imap. Qed.

End FrameLemmas.

(** ** C2: an empty input gives the error scene *)

(** C2. Each of the five engines, called on the empty list, returns its
    error figure, whose only trace is a single marker at (0, 0, 0); the
    call is a total function of the input and the generator state, so no
    exception reaches the caller, and the generator state is unchanged. *)
Theorem empty_input_error_scene `{L : Library} (g : rng) :
  let engines :=
    [create_wave_surface_visualization; create_spiral_tunnel_visualization;
     create_ripple_bubbles_visualization; create_undulating_wave_visualization;
     create_geolocation_visualization] in
  (fun create => create [] g) <$> engines
  = [(error_figure "Error in Wave Surface Visualization", g);
     (error_figure "Error in Spiral Tunnel Visualization", g);
     (error_figure "Error in Ripple Bubbles Visualization", g);
     (error_figure "Error in Undulating Wave Visualization", g);
     (error_figure "Error in Spiraling Tsunami Visualization", g)]
  /\ Forall (fun create => single_origin_point (create [] g).1) engines.
Proof.
  simpl. split; [reflexivity|].
  repeat constructor; simpl; by eexists.
Qed.

(** ** C7: down-sampling twice is down-sampling once *)

(** C7. For every frame and cap, the sample-to-cap applied to its own
    result returns that result; above the cap the result has exactly [cap]
    rows, and at or below the cap the frame is returned unchanged. *)
Theorem downsample_idempotent `{L : Library} (ds : DataFrame) (cap : nat) :
  (downsample cap ds ≫= downsample cap) = downsample cap ds
  /\ ((cap < len ds)%nat ->
      exists ds', downsample cap ds = Ok ds' /\ len ds' = cap
                  /\ downsample cap ds' = Ok ds')
  /\ ((len ds <= cap)%nat -> downsample cap ds = Ok ds).
Proof.
  assert (Hlarge : (cap < len ds)%nat ->
            exists ds', downsample cap ds = Ok ds' /\ len ds' = cap
                        /\ downsample cap ds' = Ok ds').
  { intros H. destruct (downsample_large cap ds H) as (ds' & Hds' & Hlen).
    exists ds'. repeat split; [done..|]. apply downsample_small. lia. }
  split; [|split; [done|apply downsample_small]].
  destruct (decide (cap < len ds)%nat) as [H|H].
  - destruct (Hlarge H) as (ds' & -> & _ & Hagain). exact Hagain.
  - rewrite downsample_small by lia. simpl. apply downsample_small. lia.
Qed.

Lemma downsample_idempotent_witness :
  let ds := from_records (wave_example ++ single_example) in
  (2 < len ds)%nat
  /\ exists ds', downsample (L := Scripted.library 3) 2 ds = Ok ds'
                 /\ len ds' = 2%nat
                 /\ downsample (L := Scripted.library 3) 2 ds' = Ok ds'.
Proof.
  intros ds.
  assert (Hlen : (2 < len ds)%nat) by (unfold ds; rewrite len_from_records; simpl; lia).
  split; [exact Hlen|].
  exact (proj1 (proj2 (downsample_idempotent (L := Scripted.library 3) ds 2)) Hlen).
Defined.

(** ** C1: the generator's valuation and the status floor *)

Section GeneratorLemmas.
Context {RS : PyRandom}.

Lemma uniform_range a b s :
  a <= b -> a <= (Gen.uniform a b s).1 <= b.
Proof.
  intros Hab. unfold Gen.uniform.
  pose proof (py_random_range s) as Hu.
  destruct (py_random s) as [u s']. simpl in *. nra.
Qed.

Lemma uniform_range_strict a b s :
  a < b -> a <= (Gen.uniform a b s).1 < b.
Proof.
  intros Hab. unfold Gen.uniform.
  pose proof (py_random_range s) as Hu.
  destruct (py_random s) as [u s']. simpl in *. nra.
Qed.

Lemma sector_bases_valuation sector s :
  0.5 <= (sector_bases sector s).1.1.1.
Proof.
  unfold sector_bases.
  repeat case_decide;
    unfold mbind, mret, gen_bind, gen_ret, Gen.bind, Gen.ret;
    match goal with
    | |- context [Gen.uniform ?a ?b s] =>
        pose proof (uniform_range a b s ltac:(lra)) as Hv;
        destruct (Gen.uniform a b s) as [v s1]
    end;
    repeat match goal with
           | |- context [Gen.uniform ?a ?b ?s0] =>
               destruct (Gen.uniform a b s0) as [? ?]
           end; simpl in *; lra.
Qed.

Lemma adjust_status_spec status v :
  (status = "Decacorn" -> 10 <= adjust_status status v)
  /\ (status = "Hectocorn" -> 100 <= adjust_status status v)
  /\ (status = "Soonicorn" -> adjust_status status v <= 1)
  /\ (0.5 <= v -> 0.5 <= adjust_status status v).
Proof.
  unfold adjust_status.
  repeat split; intros H; repeat case_decide; subst; try done;
    try apply Rmax_l; try apply Rmin_l;
    try (etrans; [exact H|apply Rmax_r]);
    try (apply Rmin_glb; lra).
Qed.

Lemma generate_record_clamped i s :
  clamped_then_jittered s (generate_record i s).1.
Proof.
  unfold clamped_then_jittered, valuation_draws, generate_record,
    mbind, mret, gen_bind, gen_ret, Gen.bind, Gen.ret.
  destruct (Gen.choice sectors s) as [sector s1].
  destruct (Gen.choice countries s1) as [country s2].
  destruct (Gen.choice statuses s2) as [status s3].
  destruct (sector_bases sector s3) as [[[v a] gb] s4].
  pose proof (uniform_range 0.8 1.2 s4 ltac:(lra)) as Hc.
  destruct (Gen.uniform 0.8 1.2 s4) as [c s5]. simpl in Hc.
  destruct (Gen.uniform (-10) 10 s5) as [jit s6].
  destruct (Gen.randint 2010 2024 s6) as [year s7].
  destruct (Gen.uniform (-180) 180 s7) as [lon s8].
  destruct (Gen.uniform (-90) 90 s8) as [lat s9]. cbn [fst snd].
  destruct (adjust_status_spec status v) as (Hd & Hh & Hs & _).
  unfold make_record, COMPANY, VALUATION, IMPACT, GROWTH, STATUS.
  split; [by simplify_map_eq|]. split; [by simplify_map_eq|].
  split; [by simplify_map_eq|]. split; [exact Hc|].
  split; [intros E; specialize (Hd E); split; [done|nra]|].
  split; [intros E; specialize (Hh E); split; [done|nra]|].
  intros E. specialize (Hs E). split; [done|].
  assert (0.5 <= adjust_status status v \/ adjust_status status v < 0.5) as [?|?] by lra;
    nra.
Qed.

Lemma generate_loop_states n i s :
  Forall2 clamped_then_jittered (iteration_states n i s) (generate_loop n i s).1.
Proof.
  revert i s. induction n as [|n IH]; intros i s;
    cbn [iteration_states generate_loop]; [constructor|].
  unfold mbind, mret, gen_bind, gen_ret, Gen.bind, Gen.ret.
  pose proof (generate_record_clamped i s) as Hr.
  pose proof (IH (S i) (generate_record i s).2) as Hrs.
  destruct (generate_record i s) as [r s1]. cbn [fst snd] in *.
  destruct (generate_loop n (S i) s1) as [rs s2]. cbn [fst snd] in *.
  by constructor.
Qed.

Lemma generate_loop_Forall (P : dict -> Prop) :
  (forall i s, P (generate_record i s).1) ->
  forall n i s, Forall P (generate_loop n i s).1.
Proof.
  intros HP. induction n as [|n IH]; intros i s; simpl.
  - constructor.
  - unfold mbind, mret, gen_bind, gen_ret, Gen.bind, Gen.ret.
    pose proof (HP i s) as Hr.
    destruct (generate_record i s) as [r s1].
    pose proof (IH (S i) s1) as Hrs.
    destruct (generate_loop n (S i) s1) as [rs s2]. simpl in *.
    by constructor.
Qed.

Lemma generate_loop_length n i s : length (generate_loop n i s).1 = n.
Proof.
  revert i s. induction n as [|n IH]; intros i s; simpl; [done|].
  unfold mbind, mret, gen_bind, gen_ret, Gen.bind, Gen.ret.
  destruct (generate_record i s) as [r s1].
  pose proof (IH (S i) s1) as Hrs.
  destruct (generate_loop n (S i) s1) as [rs s2]. simpl in *. lia.
Qed.

End GeneratorLemmas.

(** C1 (as the code has it). For every behaviour of the random source,
    record [i] of [generate(count)] is built from the draws of iteration
    [i]: the status clamp is applied to the base that the sector drew,
    and only then are this clamped base and the growth base multiplied by
    the one correlation factor drawn, a number of [[0.8, 1.2]]. The floor
    therefore holds for the clamped base; the emitted valuation is only
    bounded by 8 (Decacorn), 80 (Hectocorn) and 1.2 (Soonicorn). *)
Theorem generated_valuation_floor_before_jitter `{RS : PyRandom}
    (count : nat) (s : pystate) :
  length (generate_large_realistic_dataset count s).1 = count
  /\ Forall2 clamped_then_jittered
       (iteration_states count 0 s) (generate_large_realistic_dataset count s).1.
Proof.
  split.
  - apply generate_loop_length.
  - apply generate_loop_states.
Qed.

(** C1 (as stated) fails: with a Decacorn status, a sector draw below 10
    and the jitter draw at its lower end, the emitted valuation is 8. *)
Lemma generated_valuation_below_floor :
  ~ Forall status_floor_respected
      (generate_large_realistic_dataset (RS := Scripted.random) 1 ([], [0; 0; 2]%nat)).1.
Proof.
  intros H. apply Forall_inv in H.
  destruct (H "Decacorn" (Rmax 10 (1 + (150 - 1) * 0) * (0.8 + (1.2 - 0.8) * 0)))
    as (Hd & _ & _).
  - reflexivity.
  - reflexivity.
  - specialize (Hd eq_refl). rewrite Rmax_left in Hd by lra. lra.
Qed.

(** ** Running the engine monad *)

Section EngineLemmas.
Context {L : Library}.

Lemma bind_run {A B} (m : Eng.E A) (k : A -> Eng.E B) g :
  (m ≫= k) g = match m g with
                | (Ok a, g') => k a g'
                | (Raise, g') => (Raise, g')
                end.
Proof. reflexivity. Qed.

Lemma bind_ok {A B} (m : Eng.E A) (k : A -> Eng.E B) g b g' :
  (m ≫= k) g = (Ok b, g') ->
  exists a g1, m g = (Ok a, g1) /\ k a g1 = (Ok b, g').
Proof.
  rewrite bind_run. destruct (m g) as [[a|] g1]; [|done]. eauto.
Qed.

Lemma bind_lift {A B} (r : result A) (k : A -> Eng.E B) g :
  (Eng.lift r ≫= k) g = match r with
                         | Ok a => k a g
                         | Raise => (Raise, g)
                         end.
Proof. by destruct r. Qed.

Lemma lift_ok {A} (r : result A) g a g' :
  Eng.lift r g = (Ok a, g') -> r = Ok a /\ g' = g.
Proof. unfold Eng.lift. by intros [= -> ->]. Qed.

Lemma frame_extends_refl df : frame_extends df df.
Proof. split; [done|]. apply Forall_Forall2_diag, Forall_forall. done. Qed.

Lemma frame_extends_trans df1 df2 df3 :
  frame_extends df1 df2 -> frame_extends df2 df3 -> frame_extends df1 df3.
Proof.
  intros [Hc1 Hr1] [Hc2 Hr2]. split; [set_solver|].
  revert Hr2. generalize (rows df3). induction Hr1 as [|r r' l l' [Hl Hk] _ IH];
    intros l3 Hr2; inversion Hr2 as [|? r3 ? l3' [Hl' Hk'] Hr2']; subst;
    constructor; [|by apply IH].
  split; [congruence|]. intros key Hkey. rewrite Hk' by set_solver. by apply Hk.
Qed.

Lemma frame_extends_labels df df' :
  frame_extends df df' -> (rows df').*1 = (rows df).*1.
Proof.
  intros [_ Hr]. induction Hr as [|r r' l l' [Hl _] _ IH]; [done|].
  rewrite !fmap_cons. congruence.
Qed.

Lemma has_column_true k df : has_column k df = true <-> k ∈ columns df.
Proof. unfold has_column. apply bool_decide_eq_true. Qed.

Lemma frame_extends_has_column k df df' :
  frame_extends df df' -> has_column k df = true -> has_column k df' = true.
Proof. rewrite !has_column_true. intros [Hc _]. set_solver. Qed.

Lemma uniform_run low high n g :
  exists xs g', Eng.uniform low high n g = (Ok xs, g') /\ length xs = n.
Proof.
  unfold Eng.uniform. pose proof (np_random_sample_length n g) as Hlen.
  destruct (np_random_sample n g) as [us g']. simpl in Hlen.
  eexists _, _. split; [done|]. by rewrite length_fmap.
Qed.

Lemma assign_extends k xs df :
  k ∉ columns df -> length xs = len df -> frame_extends df (assign k xs df).
Proof.
  intros Hk Hlen. split; [simpl; set_solver|]. simpl.
  unfold len in Hlen. revert xs Hlen.
  induction (rows df) as [|r l IH]; intros [|x xs] Hlen; simpl in *; try done.
  constructor; [|apply IH; lia].
  split; [done|]. intros key Hkey. simpl.
  destruct x; [rewrite lookup_insert_ne|rewrite lookup_delete_ne]; set_solver.
Qed.

(** The fallback fill never raises; when the column is there it changes
    nothing and draws nothing. *)
Lemma ensure_column_run k lo hi df g :
  exists df' g', ensure_column k lo hi df g = (Ok df', g')
                 /\ frame_extends df df'
                 /\ has_column k df' = true
                 /\ (has_column k df = true -> df' = df /\ g' = g).
Proof.
  unfold ensure_column. destruct (has_column k df) eqn:Hk.
  - exists df, g. split; [done|]. split; [apply frame_extends_refl|]. by split.
  - rewrite bind_run.
    destruct (uniform_run (Some lo) (Some hi) (len df) g) as (xs & g' & -> & Hlen).
    exists (assign k xs df), g'. split; [done|]. split; [|split; [|done]].
    + apply assign_extends; [|done].
      intros Hin. apply has_column_true in Hin. congruence.
    + apply has_column_true. simpl. set_solver.
Qed.

End EngineLemmas.

(** ** Frames after down-sampling *)

Section SamplingLemmas.
Context {L : Library}.

Lemma take_rows locs df df' :
  take locs df = Ok df' ->
  columns df' = columns df
  /\ Forall2 (fun l row => rows df !! l = Some row) locs (rows df').
Proof.
  unfold take.
  destruct (result_mapM _ locs) as [rs|] eqn:Hrs; simpl; [|done].
  intros [= <-]. simpl. split; [done|].
  revert rs Hrs. induction locs as [|l locs IH]; intros rs; simpl.
  - intros [= <-]. constructor.
  - destruct (rows df !! l) as [row|] eqn:Hl; simpl; [|done].
    destruct (result_mapM _ locs) as [rs'|]; simpl; [|done].
    intros [= <-]. constructor; [done|]. by apply IH.
Qed.

Lemma rows_from_records_lookup data i :
  rows (from_records data) !! i = (fun r => (i, r)) <$> data !! i.
Proof. unfold from_records. simpl. by rewrite list_lookup_imap. Qed.

Lemma labels_from_records data :
  (rows (from_records data)).*1 = seq 0 (length data).
Proof.
  unfold from_records. simpl.
  rewrite fmap_imap. change (fun n => _) with (fun (n : nat) (_ : dict) => n).
  apply list_eq. intros i. rewrite list_lookup_imap.
  destruct (data !! i) as [r|] eqn:Hi; simpl.
  - symmetry. apply lookup_seq. split; [done|]. by eapply lookup_lt_Some.
  - symmetry. apply lookup_seq_ge. simpl. by apply lookup_ge_None.
Qed.

Lemma downsample_ok cap df : exists df', downsample cap df = Ok df'.
Proof.
  destruct (decide (cap < len df)%nat) as [H|H].
  - destruct (downsample_large cap df H) as (df' & -> & _). by eexists.
  - exists df. apply downsample_small. lia.
Qed.

(** The surviving frame: the sampled positions in the sampler's order
    above the cap, all positions in input order otherwise; every row is
    the input record its label names. *)
Lemma downsample_from_records cap data df :
  downsample cap (from_records data) = Ok df ->
  columns df = columns (from_records data)
  /\ (rows df).*1 = (if decide (cap < length data)%nat
                     then sample_locs (length data) cap
                     else seq 0 (length data))
  /\ Forall (fun row => data !! row.1 = Some row.2) (rows df).
Proof.
  unfold downsample, sample. rewrite len_from_records.
  case_decide as Hcap.
  - rewrite decide_True by lia. intros Htake.
    apply take_rows in Htake as [Hcols Hrows]. split; [done|].
    split.
    + induction Hrows as [|l row locs rs Hl _ IH]; [done|].
      rewrite fmap_cons, IH. f_equal.
      rewrite rows_from_records_lookup in Hl.
      destruct (data !! l); simpl in Hl; [|done]. by injection Hl as <-.
    + induction Hrows as [|l row locs rs Hl _ IH]; constructor; [|done].
      rewrite rows_from_records_lookup in Hl.
      destruct (data !! l) eqn:Hd; simpl in Hl; [|done]. by injection Hl as <-.
  - intros [= <-]. split; [done|]. split; [apply labels_from_records|].
    apply Forall_forall. intros row Hrow.
    apply list_elem_of_lookup in Hrow as [i Hi].
    rewrite rows_from_records_lookup in Hi.
    destruct (data !! i) eqn:Hd; simpl in Hi; [|done]. by injection Hi as <-.
Qed.

Lemma elem_of_columns_from_records k data :
  k ∈ columns (from_records data) <-> exists r, r ∈ data /\ is_Some (r !! k).
Proof.
  unfold from_records. simpl. rewrite elem_of_union_list. split.
  - intros (X & HX & Hk). apply list_elem_of_fmap in HX as (r & -> & Hr).
    exists r. split; [done|]. by apply elem_of_dom.
  - intros (r & Hr & Hk). exists (dom r). split.
    + apply list_elem_of_fmap. eauto.
    + by apply elem_of_dom.
Qed.

End SamplingLemmas.

(** ** Numeric helpers *)

Lemma length_linspace a b n : length (linspace a b n) = n.
Proof.
  destruct n as [|[|n]]; simpl; [done..|].
  by rewrite length_fmap, length_seq.
Qed.

Lemma linspace_lookup a b n k :
  (k < n)%nat ->
  linspace a b n !! k = Some (INR k * ((b - a) / INR (n - 1)) + a).
Proof.
  intros Hk. destruct n as [|[|n]]; [lia| |].
  - assert (k = 0%nat) as -> by lia. simpl. f_equal. lra.
  - unfold linspace. rewrite list_lookup_fmap, lookup_seq_lt by done. done.
Qed.

(** Every sample of [linspace a b n] lies between the end points. *)
Lemma linspace_between a b n z :
  a <= b -> z ∈ linspace a b n -> a <= z <= b.
Proof.
  intros Hab Hz. apply list_elem_of_lookup in Hz as [k Hk].
  assert (Hlt : (k < n)%nat).
  { apply lookup_lt_Some in Hk. by rewrite length_linspace in Hk. }
  rewrite linspace_lookup in Hk by done. injection Hk as <-.
  destruct (decide (n = 1%nat)) as [->|Hn].
  - assert (k = 0%nat) as -> by lia. simpl. lra.
  - assert (Hd : 0 < INR (n - 1)) by (apply lt_0_INR; lia).
    assert (Hkn : INR k <= INR (n - 1)) by (apply le_INR; lia).
    pose proof (pos_INR k) as Hk0.
    assert (Hq : 0 <= INR k / INR (n - 1) <= 1).
    { split.
      - apply Rmult_le_pos; [done|]. left. by apply Rinv_0_lt_compat.
      - apply Rmult_le_reg_r with (INR (n - 1)); [done|].
        unfold Rdiv. rewrite Rmult_assoc, Rinv_l by lra. lra. }
    replace (INR k * ((b - a) / INR (n - 1)) + a)
      with (a + (b - a) * (INR k / INR (n - 1))) by (field; lra).
    nra.
Qed.

Lemma dropna_Some xs : dropna (Some <$> xs) = xs.
Proof. unfold dropna. induction xs as [|x xs IH]; csimpl; [done|]. by rewrite IH. Qed.

Lemma series_min_Some x xs :
  series_min (Some <$> (x :: xs)) = Some (foldr Rmin x xs).
Proof. unfold series_min. by rewrite dropna_Some. Qed.

Lemma series_max_Some x xs :
  series_max (Some <$> (x :: xs)) = Some (foldr Rmax x xs).
Proof. unfold series_max. by rewrite dropna_Some. Qed.

Lemma length_normalize s : length (normalize s) = length s.
Proof. unfold normalize. by rewrite length_fmap. Qed.

Section ColumnLemmas.
Context {L : Library}.

Lemma length_column k df : length (column k df) = len df.
Proof. unfold column, len. by rewrite length_fmap. Qed.

Lemma numeric_column_length k df xs :
  numeric_column k df = Ok xs -> length xs = len df.
Proof.
  intros H. apply result_mapM_length in H. by rewrite length_column in H.
Qed.

Lemma numeric_column_lookup k df xs i row :
  numeric_column k df = Ok xs -> rows df !! i = Some row ->
  exists x, xs !! i = Some x /\ to_float (row.2 !! k) = Ok x.
Proof.
  intros H Hi.
  eapply (result_mapM_lookup _ _ _ i (row.2 !! k)) in H; [done|].
  unfold column. by rewrite list_lookup_fmap, Hi.
Qed.

(** A column whose every cell is a number converts without NaN. *)
Lemma numeric_column_all_numbers k df :
  Forall (fun row => exists x, row.2 !! k = Some (VNum x)) (rows df) ->
  exists xs, numeric_column k df = Ok (Some <$> xs) /\ length xs = len df.
Proof.
  unfold numeric_column, column, len.
  induction 1 as [|row l [x Hx] _ (xs & IH & Hlen)].
  - by exists [].
  - exists (x :: xs). rewrite fmap_cons. cbn [result_mapM]. rewrite Hx, IH.
    split; [done|]. simpl. by rewrite Hlen.
Qed.

End ColumnLemmas.

(** ** The spiral tunnel engine *)

Section SpiralTunnelLemmas.
Context {L : Library}.

(** A successful run: the frame is the down-sampled input with columns
    added, and the figure is built from it and from its growth column. *)
Lemma spiral_tunnel_body_ok data g fig g' :
  spiral_tunnel_body data g = (Ok fig, g') ->
  data <> []
  /\ exists df0 df growth,
       downsample 1000 (from_records data) = Ok df0
       /\ frame_extends df0 df
       /\ numeric_column GROWTH df = Ok growth
       /\ fig = spiral_tunnel_figure df growth.
Proof.
  unfold spiral_tunnel_body. destruct data as [|r data]; [done|].
  intros H. split; [done|].
  apply bind_ok in H as (df0 & g0 & H0 & H). apply lift_ok in H0 as [H0 ->].
  apply bind_ok in H as (df1 & g1 & H1 & H).
  apply bind_ok in H as (df2 & g2 & H2 & H).
  apply bind_ok in H as (df3 & g3 & H3 & H).
  apply bind_ok in H as (growth & g4 & H4 & H). apply lift_ok in H4 as [H4 ->].
  injection H as <- <-.
  destruct (ensure_column_run GROWTH 50 200 df0 g) as (? & ? & E1 & X1 & _).
  destruct (ensure_column_run VALUATION 1 50 df1 g1) as (? & ? & E2 & X2 & _).
  destruct (ensure_column_run IMPACT 20 90 df2 g2) as (? & ? & E3 & X3 & _).
  rewrite H1 in E1. rewrite H2 in E2. rewrite H3 in E3.
  injection E1 as <- <-. injection E2 as <- <-. injection E3 as <- <-.
  exists df0, df3, growth. eauto 10 using frame_extends_trans.
Qed.

(** With the three columns present nothing is drawn and the frame is the
    down-sampled input itself. *)
Lemma spiral_tunnel_body_present data g df :
  data <> [] ->
  downsample 1000 (from_records data) = Ok df ->
  has_column GROWTH df = true -> has_column VALUATION df = true ->
  has_column IMPACT df = true ->
  spiral_tunnel_body data g
  = match numeric_column GROWTH df with
    | Ok growth => (Ok (spiral_tunnel_figure df growth), g)
    | Raise => (Raise, g)
    end.
Proof.
  intros Hne Hdf Hg Hv Hi. unfold spiral_tunnel_body.
  destruct data as [|r data]; [done|].
  rewrite bind_run. unfold Eng.lift at 1. rewrite Hdf.
  unfold ensure_column. rewrite Hg, bind_run. simpl.
  rewrite Hv, bind_run. simpl. rewrite Hi, bind_run. simpl.
  rewrite bind_run. unfold Eng.lift. by destruct (numeric_column GROWTH df).
Qed.

(** The trace of [spiral_tunnel_figure], point by point: the [k]-th point
    is computed from the [k]-th row of the frame. *)
Lemma spiral_tunnel_figure_points df growth :
  numeric_column GROWTH df = Ok growth ->
  exists sc,
    fig_data (spiral_tunnel_figure df growth) = [TScatter3d sc]
    /\ length (sc_x sc) = len df /\ length (sc_y sc) = len df
    /\ sc_z sc = Some <$> linspace 0 100 (len df)
    /\ forall k row, rows df !! k = Some row ->
         exists gk theta zk,
           to_float (row.2 !! GROWTH) = Ok gk
           /\ linspace 0 (6 * 2 * PI) (len df) !! k = Some theta
           /\ linspace 0 100 (len df) !! k = Some zk
           /\ sc_x sc !! k = Some (fmul (tunnel_radius growth gk) (Some (cos theta)))
           /\ sc_y sc !! k = Some (fmul (tunnel_radius growth gk) (Some (sin theta)))
           /\ sc_z sc !! k = Some (Some zk)
           /\ sc_text sc !! k = Some (hover_label df k row.2).
Proof.
  intros Hgrowth. pose proof (numeric_column_length _ _ _ Hgrowth) as Hlen.
  eexists. split; [reflexivity|]. simpl.
  rewrite !length_zip_with, !length_fmap, length_normalize, length_linspace, Hlen.
  split; [lia|]. split; [lia|]. split; [done|].
  intros k row Hrow.
  destruct (numeric_column_lookup _ _ _ _ _ Hgrowth Hrow) as (gk & Hgk & Hcell).
  assert (Hk : (k < len df)%nat) by (by eapply lookup_lt_Some).
  exists gk, (INR k * ((6 * 2 * PI - 0) / INR (len df - 1)) + 0),
         (INR k * ((100 - 0) / INR (len df - 1)) + 0).
  rewrite !linspace_lookup by done.
  split; [done|]. split; [done|]. split; [done|].
  rewrite !lookup_zip_with, !list_lookup_fmap.
  unfold normalize. rewrite !list_lookup_fmap, Hgk, !linspace_lookup by done.
  simpl. split; [done|]. split; [done|]. split; [done|].
  unfold hover_text. by rewrite list_lookup_imap, Hrow.
Qed.

End SpiralTunnelLemmas.

(** ** C9: generator, then spiral tunnel *)

Lemma generate_record_numeric `{RS : PyRandom} i s :
  numeric_record (generate_record i s).1.
Proof.
  unfold generate_record, mbind, mret, gen_bind, gen_ret, Gen.bind, Gen.ret.
  destruct (Gen.choice sectors s) as [sector s1].
  destruct (Gen.choice countries s1) as [country s2].
  destruct (Gen.choice statuses s2) as [status s3].
  destruct (sector_bases sector s3) as [[[v a] gb] s4].
  destruct (Gen.uniform 0.8 1.2 s4) as [c s5].
  destruct (Gen.uniform (-10) 10 s5) as [jit s6].
  destruct (Gen.randint 2010 2024 s6) as [year s7].
  destruct (Gen.uniform (-180) 180 s7) as [lon s8].
  destruct (Gen.uniform (-90) 90 s8) as [lat s9]. simpl.
  unfold numeric_record, make_record, COMPANY, VALUATION, IMPACT, GROWTH, STATUS.
  repeat split; eexists; by simplify_map_eq.
Qed.

Section NumericData.
Context {L : Library}.

(** On numeric records the three columns exist however the frame is
    sampled, and the growth column converts without NaN. *)
Lemma numeric_data_frame cap data df :
  data <> [] -> Forall numeric_record data ->
  downsample cap (from_records data) = Ok df ->
  has_column GROWTH df = true /\ has_column VALUATION df = true
  /\ has_column IMPACT df = true
  /\ Forall (fun row => numeric_record row.2) (rows df).
Proof.
  intros Hne Hnum Hdf.
  apply downsample_from_records in Hdf as (Hcols & _ & Hrows).
  destruct data as [|r data]; [done|].
  pose proof (Forall_inv Hnum) as ((xg & Hxg) & (xv & Hxv) & (xi & Hxi)).
  rewrite !has_column_true, Hcols, !elem_of_columns_from_records.
  split; [exists r; split; [left|by rewrite Hxg]|].
  split; [exists r; split; [left|by rewrite Hxv]|].
  split; [exists r; split; [left|by rewrite Hxi]|].
  eapply Forall_impl; [exact Hrows|]. intros row Hrow. simpl in Hrow.
  rewrite Forall_forall in Hnum. apply Hnum.
  eapply list_elem_of_lookup_2. exact Hrow.
Qed.

End NumericData.

(** C9. Whatever the random source and the generator state, the 100
    records of [generate(100)], passed to the spiral tunnel engine, give
    one trace of exactly 100 points whose [z] is [linspace(0, 100, 100)],
    every [z] between 0 and 100 and every [x], [y] a number. *)
Theorem generator_into_spiral_tunnel `{RS : PyRandom} `{L : Library}
    (s : pystate) (g : rng) :
  let data := (generate_large_realistic_dataset 100 s).1 in
  exists sc,
    fig_data (create_spiral_tunnel_visualization data g).1 = [TScatter3d sc]
    /\ length (sc_x sc) = 100%nat /\ length (sc_y sc) = 100%nat
    /\ length (sc_z sc) = 100%nat
    /\ sc_z sc = Some <$> linspace 0 100 100
    /\ Forall (fun z => exists r, z = Some r /\ 0 <= r <= 100) (sc_z sc)
    /\ Forall is_Some (sc_x sc) /\ Forall is_Some (sc_y sc).
Proof.
  intros data.
  assert (Hlen : length data = 100%nat) by apply generate_loop_length.
  assert (Hnum : Forall numeric_record data).
  { apply generate_loop_Forall. intros i s0. apply generate_record_numeric. }
  clearbody data.
  assert (Hne : data <> []) by (intros E; by rewrite E in Hlen).
  assert (Hdf : downsample 1000 (from_records data) = Ok (from_records data)).
  { apply downsample_small. rewrite len_from_records. lia. }
  destruct (numeric_data_frame _ _ _ Hne Hnum Hdf) as (Hg & Hv & Hi & Hrows).
  destruct (numeric_column_all_numbers GROWTH (from_records data))
    as (xs & Hgrowth & Hxs).
  { eapply Forall_impl; [exact Hrows|]. by intros row (Hx & _). }
  unfold create_spiral_tunnel_visualization, Eng.guarded.
  rewrite (spiral_tunnel_body_present _ _ _ Hne Hdf Hg Hv Hi), Hgrowth.
  destruct (spiral_tunnel_figure_points _ _ Hgrowth)
    as (sc & Hsc & Hx & Hy & Hz & Hpoints).
  rewrite len_from_records, Hlen in Hx, Hy, Hz.
  exists sc. split; [exact Hsc|]. split; [done|]. split; [done|].
  split; [by rewrite Hz, length_fmap, length_linspace|]. split; [done|].
  split.
  { rewrite Hz. apply Forall_fmap, Forall_forall. intros z Hin. exists z.
    split; [done|]. apply (linspace_between 0 100 100); [lra|done]. }
  assert (Hcoord : forall k row, rows (from_records data) !! k = Some row ->
            exists x y, sc_x sc !! k = Some (Some x) /\ sc_y sc !! k = Some (Some y)).
  { intros k row Hrow.
    destruct (Hpoints k row Hrow) as (gk & theta & zk & Hgk & _ & _ & Hxk & Hyk & _).
    rewrite Forall_forall in Hrows.
    destruct (Hrows row) as ((x & Hcell) & _); [by eapply list_elem_of_lookup_2|].
    rewrite Hcell in Hgk. injection Hgk as <-.
    destruct xs as [|x0 xs]; [by rewrite len_from_records, Hlen in Hxs|].
    unfold tunnel_radius in Hxk, Hyk.
    rewrite series_min_Some, series_max_Some in Hxk, Hyk. simpl in Hxk, Hyk.
    eauto. }
  split; apply Forall_lookup; intros k c Hc.
  - destruct (lookup_lt_is_Some_2 (rows (from_records data)) k) as [row Hrow].
    { apply lookup_lt_Some in Hc. fold (len (from_records data)).
      rewrite len_from_records. lia. }
    destruct (Hcoord k row Hrow) as (x & y & Hxk & _). rewrite Hxk in Hc.
    injection Hc as <-. by eexists.
  - destruct (lookup_lt_is_Some_2 (rows (from_records data)) k) as [row Hrow].
    { apply lookup_lt_Some in Hc. fold (len (from_records data)).
      rewrite len_from_records. lia. }
    destruct (Hcoord k row Hrow) as (x & y & _ & Hyk). rewrite Hyk in Hc.
    injection Hc as <-. by eexists.
Qed.

(** ** C3: the spiral tunnel keeps the order of its frame *)

Lemma numbered_record_numeric i : numeric_record (numbered_record i).
Proof.
  unfold numeric_record, numbered_record, COMPANY, GROWTH, VALUATION, IMPACT.
  repeat split; eexists; by simplify_map_eq.
Qed.

Lemma numbered_data_lookup n i :
  (i < n)%nat -> numbered_data n !! i = Some (numbered_record i).
Proof.
  intros Hi. unfold numbered_data. by rewrite list_lookup_fmap, lookup_seq_lt.
Qed.

Section OrderLemmas.
Context {L : Library}.

(** Taking every position in order gives the frame back. *)
Lemma take_all df : take (seq 0 (len df)) df = Ok df.
Proof.
  unfold take, len.
  assert (H : forall l1 l2 : list (nat * dict),
            result_mapM (fun l => if (l1 ++ l2) !! l is Some row then Ok row else Raise)
                        (seq (length l1) (length l2)) = Ok l2).
  { intros l1 l2. revert l1. induction l2 as [|row l2 IH]; intros l1; [done|].
    cbn [length seq result_mapM]. rewrite list_lookup_middle by done.
    cbn [mbind result_bind].
    specialize (IH (l1 ++ [row])). rewrite <- app_assoc, length_app in IH.
    cbn [length app] in IH. rewrite Nat.add_1_r in IH. by rewrite IH. }
  specialize (H [] (rows df)). cbn [app length] in H. rewrite H.
  cbn [mbind result_bind]. by destruct df.
Qed.

Lemma sorted_seq i n : StronglySorted lt (seq i n).
Proof.
  revert i. induction n as [|n IH]; intros i; cbn [seq]; constructor; [apply IH|].
  apply Forall_forall. intros j Hj. apply elem_of_seq in Hj. lia.
Qed.

(** In an increasing list, entry [k] is at least [k] above the first. *)
Lemma sorted_lt_gap ps p0 k b :
  StronglySorted lt ps -> ps !! 0%nat = Some p0 -> ps !! k = Some b -> (p0 + k <= b)%nat.
Proof.
  intros Hs. revert p0 k b. induction Hs as [|a l Hs IH Ha]; intros p0 k b H0 Hk; [done|].
  injection H0 as ->. destruct k as [|k]; [injection Hk as ->; lia|].
  cbn in Hk. destruct l as [|a' l']; [done|].
  rewrite Forall_forall in Ha. pose proof (Ha a' ltac:(left)) as Hlt.
  specialize (IH a' k b eq_refl Hk). lia.
Qed.

(** Below the cap, and above it when the sampler returns the positions in
    increasing order, the order is kept. *)
Lemma spiral_tunnel_order_kept data g g' fig :
  spiral_tunnel_body data g = (Ok fig, g') ->
  (length data <= 1000)%nat \/ StronglySorted lt (sample_locs (length data) 1000) ->
  insertion_order_kept data fig.
Proof.
  intros Hrun Hsorted.
  apply spiral_tunnel_body_ok in Hrun
    as (Hne & df0 & df & growth & Hdf0 & Hext & Hgrowth & ->).
  assert (Hps : exists ps, StronglySorted lt ps /\ take ps (from_records data) = Ok df0).
  { unfold downsample, sample in Hdf0. rewrite len_from_records in Hdf0.
    case_decide as Hcap.
    - rewrite decide_True in Hdf0 by lia. destruct Hsorted as [?|Hsorted]; [lia|].
      by eexists.
    - injection Hdf0 as <-. exists (seq 0 (len (from_records data))).
      split; [apply sorted_seq|apply take_all]. }
  destruct Hps as (ps & Hps & Htake).
  by exists ps, df0, df, growth.
Qed.

End OrderLemmas.

Lemma numbered_record_company i :
  numbered_record i !! COMPANY = Some (VStr (pretty i)).
Proof. unfold numbered_record. apply lookup_insert_eq. Qed.

Lemma numbered_label_0 (rest1 rest2 : string) :
  "<b>" +:+ pretty 1000%nat +:+ rest1 <> "<b>" +:+ pretty 0%nat +:+ "</b><br>Valuation: $" +:+ rest2.
Proof. vm_compute. discriminate. Qed.

Lemma numbered_label_1 (rest1 rest2 : string) :
  "<b>" +:+ pretty 1000%nat +:+ rest1 <> "<b>" +:+ pretty 1%nat +:+ "</b><br>Valuation: $" +:+ rest2.
Proof. vm_compute. discriminate. Qed.


(** C3 (as the code has it). On a successful run the trace is aligned with
    the rows of the engine's frame: point [k] takes its [z] from
    [linspace(0, 100, n)], its hover label and its growth-derived radius
    from row [k]; every row is the input record its label names, the
    engine sorts nothing, and the labels are [0 .. n-1] in input order up
    to the cap of 1000 records and, above it, the sampled positions in the
    order in which the seeded sampler returns them. So the insertion
    order is kept below the cap, and above it whenever the sampler
    returns its positions in increasing order. *)
Theorem spiral_tunnel_order_of_frame `{L : Library}
    (data : list dict) (g g' : rng) (fig : Figure) :
  spiral_tunnel_body data g = (Ok fig, g') ->
  create_spiral_tunnel_visualization data g = (fig, g')
  /\ (exists df growth sc,
       fig_data fig = [TScatter3d sc]
       /\ numeric_column GROWTH df = Ok growth
       /\ (rows df).*1 = (if decide (1000 < length data)%nat
                          then sample_locs (length data) 1000
                          else seq 0 (length data))
       /\ Forall (fun row => exists r,
                    data !! row.1 = Some r
                    /\ forall key, is_Some (r !! key) -> row.2 !! key = r !! key)
                 (rows df)
       /\ length (sc_x sc) = len df /\ length (sc_y sc) = len df
       /\ sc_z sc = Some <$> linspace 0 100 (len df)
       /\ forall k row, rows df !! k = Some row ->
            exists gk theta zk,
              to_float (row.2 !! GROWTH) = Ok gk
              /\ linspace 0 (6 * 2 * PI) (len df) !! k = Some theta
              /\ linspace 0 100 (len df) !! k = Some zk
              /\ sc_x sc !! k = Some (fmul (tunnel_radius growth gk) (Some (cos theta)))
              /\ sc_y sc !! k = Some (fmul (tunnel_radius growth gk) (Some (sin theta)))
              /\ sc_z sc !! k = Some (Some zk)
              /\ sc_text sc !! k = Some (hover_label df k row.2))
  /\ ((length data <= 1000)%nat
      \/ StronglySorted lt (sample_locs (length data) 1000) ->
      insertion_order_kept data fig).
Proof.
  intros Hrun. split.
  { unfold create_spiral_tunnel_visualization, Eng.guarded. by rewrite Hrun. }
  split; [|by apply (spiral_tunnel_order_kept data g g')].
  apply spiral_tunnel_body_ok in Hrun
    as (Hne & df0 & df & growth & Hdf0 & Hext & Hgrowth & ->).
  destruct (spiral_tunnel_figure_points df growth Hgrowth)
    as (sc & Hsc & Hx & Hy & Hz & Hpoints).
  exists df, growth, sc.
  apply downsample_from_records in Hdf0 as (Hcols & Hlabels & Hrows).
  split; [done|]. split; [done|].
  split; [by rewrite (frame_extends_labels _ _ Hext)|].
  split; [|done].
  destruct Hext as [_ Hext]. clear -Hext Hrows Hcols.
  induction Hext as [|r0 r l l' [Hl Hk] _ IH]; [constructor|].
  apply Forall_cons in Hrows as [Hr0 Hrows]. constructor; [|by apply IH].
  exists r0.2. rewrite Hl. split; [done|]. intros key Hkey. apply Hk.
  rewrite Hcols. apply elem_of_columns_from_records.
  exists r0.2. split; [|done]. by eapply list_elem_of_lookup_2.
Qed.

Lemma spiral_tunnel_order_of_frame_witness :
  exists fig,
    spiral_tunnel_body (L := Scripted.library 3) (numbered_data 2) [] = (Ok fig, [])
    /\ create_spiral_tunnel_visualization (L := Scripted.library 3)
         (numbered_data 2) [] = (fig, []).
Proof.
  eexists. assert (Hrun : spiral_tunnel_body (L := Scripted.library 3)
                            (numbered_data 2) [] = (Ok _, [])) by reflexivity.
  split; [exact Hrun|].
  exact (proj1 (spiral_tunnel_order_of_frame (L := Scripted.library 3) _ _ _ _ Hrun)).
Defined.

Lemma numbered_data_length n : length (numbered_data n) = n.
Proof. unfold numbered_data. by rewrite length_fmap, length_seq. Qed.

(** C3 (as stated) fails above the cap. Of 1001 numbered records the
    reference sampler keeps records 1000, 999, ..., 1 in that order, and
    the engine labels its first point with record 1000; a frame of 1000
    records in insertion order starts with record 0 or record 1. *)
Lemma spiral_tunnel_sampling_reorders :
  ~ (forall (L : Library) (data : list dict) (g g' : rng) (fig : Figure),
       spiral_tunnel_body data g = (Ok fig, g') -> insertion_order_kept data fig).
Proof.
  intros Hclaim.
  pose (L := Scripted.library 3).
  assert (Hdata : exists data, data = numbered_data 1001) by by eexists.
  destruct Hdata as [data Hdata].
  assert (Hlen : length data = 1001%nat) by (subst; apply numbered_data_length).
  assert (Hlookup : forall i, (i < 1001)%nat -> data !! i = Some (numbered_record i)).
  { subst. apply numbered_data_lookup. }
  assert (Hne : data <> []) by (intros E; by rewrite E in Hlen).
  assert (Hnum : Forall numeric_record data).
  { subst. apply Forall_fmap, Forall_forall. intros i _. apply numbered_record_numeric. }
  clear Hdata.
  destruct (downsample_ok 1000 (from_records data)) as [df_e Hdf].
  destruct (numeric_data_frame _ _ _ Hne Hnum Hdf) as (Hg & Hv & Hi & Hrows).
  destruct (numeric_column_all_numbers GROWTH df_e) as (xs & Hgrowth & _).
  { eapply Forall_impl; [exact Hrows|]. by intros row (Hx & _). }
  specialize (Hclaim L data [] [] (spiral_tunnel_figure df_e (Some <$> xs))).
  destruct Hclaim as (ps & df0 & df & growth & Hsorted & Htake & Hext & _ & Hfig).
  { by rewrite (spiral_tunnel_body_present _ _ _ Hne Hdf Hg Hv Hi), Hgrowth. }
  (* the labels of the two frames *)
  assert (Htext : hover_text df_e = hover_text df).
  { unfold spiral_tunnel_figure in Hfig. by injection Hfig. }
  pose proof (downsample_from_records _ _ _ Hdf) as (Hcols & Hlabels & Hdata).
  rewrite Hlen, decide_True in Hlabels by lia.
  assert (Hcompany : COMPANY ∈ columns (from_records data)).
  { apply elem_of_columns_from_records.
    exists (numbered_record 0). split.
    - eapply list_elem_of_lookup_2. apply Hlookup. lia.
    - by eexists. }
  (* the engine shows record 1000 first *)
  assert (Hlen_e : len df_e = 1000%nat).
  { unfold len. rewrite <- (length_fmap fst), Hlabels. apply sample_locs_length. lia. }
  destruct (lookup_lt_is_Some_2 (rows df_e) 0) as [row_e Hrow_e];
    [fold (len df_e); lia|].
  assert (Hrow_e1 : row_e.2 = numbered_record 1000).
  { assert (H1 : row_e.1 = 1000%nat).
    { assert (H0 : (rows df_e).*1 !! 0%nat = Some row_e.1)
        by (by rewrite list_lookup_fmap, Hrow_e).
      rewrite Hlabels in H0. vm_compute in H0. by injection H0. }
    rewrite Forall_forall in Hdata.
    pose proof (Hdata row_e ltac:(by eapply list_elem_of_lookup_2)) as Hrec.
    rewrite H1, Hlookup in Hrec by lia. by injection Hrec. }
  (* the frame in insertion order starts with record 0 or record 1 *)
  apply take_rows in Htake as [Hcols0 Hrows0].
  assert (Hlen_df : len df = 1000%nat).
  { rewrite <- Hlen_e. unfold len.
    rewrite <- (length_imap (fun i row => hover_label df i row.2)).
    fold (hover_text df). rewrite <- Htext. unfold hover_text. by rewrite length_imap. }
  assert (Hlen0 : length (rows df0) = 1000%nat).
  { destruct Hext as [_ Hext]. rewrite (Forall2_length _ _ _ Hext). exact Hlen_df. }
  destruct (lookup_lt_is_Some_2 (rows df0) 0) as [row0 Hrow0]; [lia|].
  destruct (lookup_lt_is_Some_2 (rows df0) 999) as [row9 Hrow9]; [lia|].
  destruct (Forall2_lookup_r _ _ _ _ _ Hrows0 Hrow0) as (p0 & Hp0 & Hin0).
  destruct (Forall2_lookup_r _ _ _ _ _ Hrows0 Hrow9) as (p9 & Hp9 & Hin9).
  pose proof (sorted_lt_gap _ _ _ _ Hsorted Hp0 Hp9) as Hgap.
  rewrite rows_from_records_lookup in Hin0, Hin9.
  assert (Hp9lt : (p9 < 1001)%nat).
  { rewrite <- Hlen. apply lookup_lt_is_Some. by destruct (data !! p9). }
  assert (Hp0le : (p0 <= 1)%nat) by lia.
  rewrite Hlookup in Hin0 by lia. injection Hin0 as <-.
  destruct Hext as [Hsub Hext].
  destruct (Forall2_lookup_l _ _ _ _ _ Hext Hrow0) as (row & Hrow & _ & Hcells).
  assert (Hcell : row.2 !! COMPANY = Some (VStr (pretty p0))).
  { rewrite Hcells by (by rewrite Hcols0). apply numbered_record_company. }
  (* the two first labels differ *)
  assert (H0 : hover_text df_e !! 0%nat = hover_text df !! 0%nat) by (by rewrite Htext).
  unfold hover_text in H0. rewrite !list_lookup_imap, Hrow_e, Hrow in H0.
  cbn [fmap option_fmap option_map] in H0. apply (inj Some) in H0.
  assert (Hc_e : has_column COMPANY df_e = true).
  { apply has_column_true. by rewrite Hcols. }
  assert (Hc : has_column COMPANY df = true).
  { apply has_column_true, Hsub. by rewrite Hcols0. }
  unfold hover_label, company_name in H0.
  rewrite Hc_e, Hc, Hcell, Hrow_e1, numbered_record_company in H0.
  cbn [fmt_cell] in H0.
  assert (p0 = 0 \/ p0 = 1)%nat as [-> | ->] by lia.
  - by apply numbered_label_0 in H0.
  - by apply numbered_label_1 in H0.
Qed.

(** ** C4: the height formula of the undulating wave *)

(** Node [(i, j)] of the surface is the code's height at [(x[j], y[i])]. *)
Lemma undulating_surface_node valuation growth i j xj yi :
  (undulating_surface valuation growth).1.1 !! j = Some xj ->
  (undulating_surface valuation growth).1.2 !! i = Some yi ->
  (undulating_surface valuation growth).2 !! i ≫= (.!! j)
  = Some (wave_height (series_min valuation) (series_max valuation)
                      (series_min growth) (series_max growth) xj yi).
Proof.
  unfold undulating_surface. simpl. intros Hx Hy.
  rewrite lookup_zip_with, !list_lookup_fmap, Hy. simpl.
  by rewrite lookup_zip_with, list_lookup_fmap, Hx.
Qed.

(** Left of and below the data minimum the code's radicand is negative:
    the height is NaN, where the specified formula gives a number. *)
Lemma wave_height_below_min (x_min x_max y_min y_max x y : R) :
  x_min <= x_max -> y_min <= y_max -> x < x_min -> y < y_min ->
  wave_height (Some x_min) (Some x_max) (Some y_min) (Some y_max) (Some x) (Some y)
  = NaN
  /\ is_Some (spec_wave_height (Some x_min) (Some x_max) (Some y_min) (Some y_max)
                               (Some x) (Some y)).
Proof.
  intros Hx Hy Hxlt Hylt. pose proof EPSILON_pos as He. split.
  - unfold wave_height. cbn -[pow].
    assert (Hneg : forall a d, a < 0 -> 0 < d -> a / d ^ 2 < 0).
    { intros a d Ha Hd. unfold Rdiv.
      assert (0 < / d ^ 2) by (apply Rinv_0_lt_compat; nra). nra. }
    pose proof (Hneg (x - x_min) (x_max - x_min + EPSILON) ltac:(lra) ltac:(lra)).
    pose proof (Hneg (y - y_min) (y_max - y_min + EPSILON) ltac:(lra) ltac:(lra)).
    destruct (Rlt_dec _ 0) as [_|Hn]; [done|]. exfalso. apply Hn. lra.
  - unfold spec_wave_height. cbn -[pow].
    destruct (Rlt_dec _ 0) as [Hn|_]; [|by eexists]. exfalso.
    pose proof (pow2_ge_0 ((x - x_min) / (x_max - x_min + EPSILON))).
    pose proof (pow2_ge_0 ((y - y_min) / (y_max - y_min + EPSILON))).
    lra.
Qed.

Lemma length_flinspace a b n : length (flinspace a b n) = n.
Proof.
  unfold flinspace. destruct a, b; rewrite ?length_fmap, ?length_linspace,
    ?length_replicate; done.
Qed.

Lemma undulating_surface_length valuation growth :
  length (undulating_surface valuation growth).2 = 50%nat.
Proof.
  change ((undulating_surface valuation growth).2)
    with (let x := flinspace (padded_range valuation).1 (padded_range valuation).2 50 in
          let y := flinspace (padded_range growth).1 (padded_range growth).2 50 in
          zip_with (zip_with (wave_height (series_min valuation) (series_max valuation)
                                          (series_min growth) (series_max growth)))
                   (meshgrid x y).1 (meshgrid x y).2).
  cbv zeta. unfold meshgrid. cbn [fst snd].
  rewrite length_zip_with, !length_fmap, length_flinspace. lia.
Qed.

Section UndulatingLemmas.
Context {L : Library}.

(** With the three columns present the only draws are the seeded ones:
    the run does not depend on the generator state it starts from. *)
Lemma undulating_wave_body_present data g df :
  data <> [] ->
  downsample 1200 (from_records data) = Ok df ->
  has_column GROWTH df = true -> has_column VALUATION df = true ->
  has_column IMPACT df = true ->
  undulating_wave_body data g
  = match numeric_column VALUATION df, numeric_column GROWTH df with
    | Ok valuation, Ok growth =>
        (company_x ← Eng.uniform (padded_range valuation).1
                                 (padded_range valuation).2 (len df);
         company_y ← Eng.uniform (padded_range growth).1
                                 (padded_range growth).2 (len df);
         mret (undulating_wave_figure df valuation growth company_x company_y))
          (np_seed 42)
    | _, _ => (Raise, g)
    end.
Proof.
  intros Hne Hdf Hg Hv Hi. unfold undulating_wave_body.
  destruct data as [|r data]; [done|].
  rewrite bind_run. unfold Eng.lift at 1. rewrite Hdf.
  unfold ensure_column. rewrite Hg, bind_run. simpl.
  rewrite Hv, bind_run. simpl. rewrite Hi, bind_run. simpl.
  rewrite bind_run. unfold Eng.lift at 1.
  destruct (numeric_column VALUATION df) as [valuation|]; [|done].
  rewrite bind_run. unfold Eng.lift at 1.
  destruct (numeric_column GROWTH df) as [growth|]; [|done].
  by rewrite bind_run.
Qed.

(** The corner node [(0, 0)] of the surface lies in the padded margin,
    left of and below the data: there the code's height is NaN. *)
Lemma undulating_surface_corner valuation growth x_min x_max y_min y_max :
  series_min valuation = Some x_min -> series_max valuation = Some x_max ->
  series_min growth = Some y_min -> series_max growth = Some y_max ->
  x_min < x_max -> y_min < y_max ->
  (undulating_surface valuation growth).2 !! 0%nat ≫= (.!! 0%nat) = Some NaN.
Proof.
  intros Hxmin Hxmax Hymin Hymax Hx Hy.
  rewrite (undulating_surface_node valuation growth 0 0
             (Some (INR 0 * ((x_max + (x_max - x_min) * 0.1
                              - (x_min - (x_max - x_min) * 0.1)) / INR (50 - 1))
                    + (x_min - (x_max - x_min) * 0.1)))
             (Some (INR 0 * ((y_max + (y_max - y_min) * 0.1
                              - (y_min - (y_max - y_min) * 0.1)) / INR (50 - 1))
                    + (y_min - (y_max - y_min) * 0.1)))).
  - rewrite Hxmin, Hxmax, Hymin, Hymax. f_equal.
    apply wave_height_below_min; simpl INR; lra.
  - change ((undulating_surface valuation growth).1.1)
      with (flinspace (padded_range valuation).1 (padded_range valuation).2 50).
    unfold padded_range. rewrite Hxmin, Hxmax.
    cbn [fst snd fsub fadd fmul flift2 flinspace].
    by rewrite list_lookup_fmap, linspace_lookup by lia.
  - change ((undulating_surface valuation growth).1.2)
      with (flinspace (padded_range growth).1 (padded_range growth).2 50).
    unfold padded_range. rewrite Hymin, Hymax.
    cbn [fst snd fsub fadd fmul flift2 flinspace].
    by rewrite list_lookup_fmap, linspace_lookup by lia.
Qed.

End UndulatingLemmas.

(** C4 (the code at a failing input). On [undulating_example] the engine
    returns its surface and marker traces, and the surface node [(0, 0)],
    which lies in the 10% margin at [(0.8, 80)], is NaN: the code divides
    each offset by the squared range instead of squaring the quotient, so
    the radicand is negative there. The height the specification states is
    a number at the same node. *)
Theorem undulating_wave_corner_is_nan `{L : Library} (g : rng) :
  exists surf markers,
    fig_data (create_undulating_wave_visualization undulating_example g).1
    = [TSurface surf; TScatter3d markers]
    /\ length (su_z surf) = 50%nat
    /\ su_z surf !! 0%nat ≫= (.!! 0%nat) = Some NaN
    /\ wave_height (Some 1) (Some 3) (Some 100) (Some 300) (Some 0.8) (Some 80) = NaN
    /\ is_Some (spec_wave_height (Some 1) (Some 3) (Some 100) (Some 300)
                                 (Some 0.8) (Some 80)).
Proof.
  assert (Hdf : downsample 1200 (from_records undulating_example)
                = Ok (from_records undulating_example)).
  { apply downsample_small. rewrite len_from_records. simpl. lia. }
  unfold create_undulating_wave_visualization, Eng.guarded.
  assert (Hne : undulating_example <> []) by done.
  rewrite (undulating_wave_body_present _ _ _ Hne Hdf eq_refl eq_refl eq_refl).
  change (numeric_column VALUATION (from_records undulating_example))
    with (Ok [Some 1; Some 3]).
  change (numeric_column GROWTH (from_records undulating_example))
    with (Ok [Some 100; Some 300]).
  cbv beta iota. rewrite bind_run.
  destruct (uniform_run (padded_range [Some 1; Some 3]).1
              (padded_range [Some 1; Some 3]).2
              (len (from_records undulating_example)) (np_seed 42))
    as (cx & g1 & -> & _).
  rewrite bind_run.
  destruct (uniform_run (padded_range [Some 100; Some 300]).1
              (padded_range [Some 100; Some 300]).2
              (len (from_records undulating_example)) g1)
    as (cy & g2 & -> & _).
  cbn [mret eng_ret Eng.ret fst].
  unfold undulating_wave_figure.
  destruct (undulating_surface [Some 1; Some 3] [Some 100; Some 300])
    as [[x y] z] eqn:Hsurf.
  eexists _, _. split; [reflexivity|]. cbn [su_z].
  assert (Hz : z = (undulating_surface [Some 1; Some 3] [Some 100; Some 300]).2)
    by by rewrite Hsurf.
  split; [|split; [|apply wave_height_below_min; lra]].
  - rewrite Hz. apply undulating_surface_length.
  - rewrite Hz.
    apply (undulating_surface_corner _ _ 1 3 100 300); try lra.
    + unfold series_min. simpl. f_equal. apply Rmin_right. lra.
    + unfold series_max. simpl. f_equal. apply Rmax_left. lra.
    + unfold series_min. simpl. f_equal. apply Rmin_right. lra.
    + unfold series_max. simpl. f_equal. apply Rmax_left. lra.
Qed.

(** ** C5: the wave surface on two records at the same point *)

Lemma fillna_mean_shape Z :
  Forall2 (fun frow zrow => length frow = length zrow) (fillna_mean Z) Z.
Proof.
  unfold fillna_mean. apply Forall2_fmap_l, Forall_Forall2_diag, Forall_forall.
  intros zrow _. simpl. apply length_fmap.
Qed.

(** One node that is a number makes the mean a number, and then the fill
    leaves no NaN. *)
Lemma fillna_mean_finite Z zrow z :
  zrow ∈ Z -> z ∈ zrow -> is_Some z -> Forall (Forall is_Some) (fillna_mean Z).
Proof.
  intros Hrow Hz [x ->]. unfold fillna_mean.
  assert (Hm : is_Some (nanmean (concat Z))).
  { unfold nanmean. destruct (dropna (concat Z)) as [|y l] eqn:Hd; [|by eexists].
    assert (Hin : x ∈ dropna (concat Z)).
    { unfold dropna. apply list_elem_of_omap. exists (Some x). split; [|done].
      apply list_elem_of_In, in_concat. exists zrow.
      split; by apply list_elem_of_In. }
    rewrite Hd in Hin. by apply not_elem_of_nil in Hin. }
  apply Forall_fmap, Forall_forall. intros row _. simpl.
  apply Forall_fmap, Forall_forall. intros c _. simpl. by destruct c.
Qed.

Lemma wave_effect_number z x y :
  is_Some (wave_effect z (Some x) (Some y)) <-> is_Some z.
Proof. unfold wave_effect. destruct z; simpl; split; intros [? ?]; by eauto. Qed.

Section WaveSurfaceLemmas.
Context {L : Library}.

(** With the three columns present the run draws nothing. *)
Lemma wave_surface_body_present data g df :
  data <> [] ->
  downsample 1500 (from_records data) = Ok df ->
  has_column GROWTH df = true -> has_column VALUATION df = true ->
  has_column IMPACT df = true ->
  wave_surface_body data g
  = match numeric_column GROWTH df, numeric_column VALUATION df,
          numeric_column IMPACT df with
    | Ok growth, Ok valuation, Ok impact =>
        match griddata_cubic (zip growth valuation) impact
                (wave_surface_grid growth valuation),
              validate_marker_size (wave_marker_size growth) with
        | Ok ZI, Ok _ => (Ok (wave_surface_figure df growth valuation impact ZI), g)
        | _, _ => (Raise, g)
        end
    | _, _, _ => (Raise, g)
    end.
Proof.
  intros Hne Hdf Hg Hv Hi. unfold wave_surface_body.
  destruct data as [|r data]; [done|].
  rewrite bind_run. unfold Eng.lift at 1. rewrite Hdf.
  unfold ensure_column. rewrite Hg, bind_run. simpl.
  rewrite Hv, bind_run. simpl. rewrite Hi, bind_run. simpl.
  rewrite bind_run. unfold Eng.lift at 1.
  destruct (numeric_column GROWTH df) as [growth|]; [|done].
  rewrite bind_run. unfold Eng.lift at 1.
  destruct (numeric_column VALUATION df) as [valuation|]; [|done].
  rewrite bind_run. unfold Eng.lift at 1.
  destruct (numeric_column IMPACT df) as [impact|]; [|done].
  rewrite bind_lift.
  destruct (griddata_cubic _ _ _); [|done].
  rewrite bind_lift. by destruct (validate_marker_size _).
Qed.

End WaveSurfaceLemmas.

Lemma flinspace_numbers a b n : Forall is_Some (flinspace (Some a) (Some b) n).
Proof. simpl. apply Forall_fmap, Forall_forall. intros x _. by eexists. Qed.

(** The grid of the wave surface: 100 rows of 100 nodes, all numbers when
    the ranges are. *)
Lemma wave_surface_grid_rows growth valuation i xrow yrow :
  (wave_surface_grid growth valuation).1 !! i = Some xrow ->
  (wave_surface_grid growth valuation).2 !! i = Some yrow ->
  length xrow = 100%nat /\ length yrow = 100%nat
  /\ (is_Some (series_min growth) -> is_Some (series_max growth) ->
      is_Some (series_min valuation) -> is_Some (series_max valuation) ->
      Forall is_Some xrow /\ Forall is_Some yrow).
Proof.
  unfold wave_surface_grid, meshgrid. cbn [fst snd].
  rewrite !list_lookup_fmap.
  destruct (flinspace (series_min valuation) (series_max valuation) 100 !! i)
    as [yi|] eqn:Hyi; [|done].
  simpl. intros [= <-] [= <-]. rewrite length_fmap, !length_flinspace.
  split; [done|]. split; [done|].
  intros [a ->] [b ->] [c Hc] [d Hd]. rewrite Hc, Hd in Hyi.
  split; [apply flinspace_numbers|].
  apply Forall_fmap, Forall_forall. intros x _. simpl.
  pose proof (flinspace_numbers c d 100) as Hall.
  rewrite Forall_forall in Hall. apply Hall. by eapply list_elem_of_lookup_2.
Qed.

Lemma wave_surface_grid_length growth valuation :
  length (wave_surface_grid growth valuation).1 = 100%nat
  /\ length (wave_surface_grid growth valuation).2 = 100%nat.
Proof.
  unfold wave_surface_grid, meshgrid. cbn [fst snd].
  by rewrite !length_fmap, !length_flinspace.
Qed.

Lemma grid_zip3_lookup {A B C D} (f : A -> B -> C -> D) a b c i row :
  grid_zip3 f a b c !! i = Some row <->
  exists arow brow crow,
    a !! i = Some arow /\ b !! i = Some brow /\ c !! i = Some crow
    /\ row = zip_with (fun p z => f p.1 p.2 z) (zip arow brow) crow.
Proof.
  unfold grid_zip3. rewrite lookup_zip_with_Some. split.
  - intros (ab & crow & -> & Hab & Hc).
    apply lookup_zip_with_Some in Hab as (arow & brow & -> & Ha & Hb). eauto 10.
  - intros (arow & brow & crow & Ha & Hb & Hc & ->).
    exists (zip arow brow), crow. split; [done|]. split; [|done].
    apply lookup_zip_with_Some. eauto.
Qed.

(** The surface of [wave_surface_figure] for an interpolated grid of the
    shape of [XI]. *)
Lemma wave_surface_figure_surface `{L : Library} df growth valuation impact ZI :
  Forall2 (fun zrow xrow : list float => length zrow = length xrow)
          ZI (wave_surface_grid growth valuation).1 ->
  exists surf markers,
    fig_data (wave_surface_figure df growth valuation impact ZI)
    = [TSurface surf; TScatter3d markers]
    /\ length (su_z surf) = 100%nat
    /\ Forall (fun zrow => length zrow = 100%nat) (su_z surf)
    /\ (is_Some (series_min growth) -> is_Some (series_max growth) ->
        is_Some (series_min valuation) -> is_Some (series_max valuation) ->
        (exists zrow z, zrow ∈ ZI /\ z ∈ zrow /\ is_Some z) ->
        Forall (Forall is_Some) (su_z surf)).
Proof.
  intros Hshape. unfold wave_surface_figure.
  pose proof (wave_surface_grid_length growth valuation) as [HlenX HlenY].
  pose proof (wave_surface_grid_rows growth valuation) as Hgrid.
  destruct (wave_surface_grid growth valuation) as [XI YI]. cbn [fst snd] in *.
  pose proof (Forall2_length _ _ _ Hshape) as HlenZ.
  set (G := grid_zip3 (fun x y z => wave_effect z x y) XI YI ZI).
  assert (HlenG : length G = 100%nat).
  { unfold G, grid_zip3. rewrite !length_zip_with. lia. }
  assert (Hrow : forall i xrow yrow zrow,
            XI !! i = Some xrow -> YI !! i = Some yrow -> ZI !! i = Some zrow ->
            length xrow = 100%nat /\ length yrow = 100%nat /\ length zrow = 100%nat).
  { intros i xrow yrow zrow Hx Hy Hz.
    destruct (Hgrid i xrow yrow Hx Hy) as (Hlx & Hly & _).
    pose proof (Forall2_lookup_lr _ _ _ _ _ _ Hshape Hz Hx). simpl in *. lia. }
  assert (HrowsG : Forall (fun zrow => length zrow = 100%nat) G).
  { apply Forall_lookup. intros i row Hi.
    apply grid_zip3_lookup in Hi as (xrow & yrow & zrow & Hx & Hy & Hz & ->).
    destruct (Hrow i xrow yrow zrow Hx Hy Hz) as (Hlx & Hly & Hlz).
    rewrite length_zip_with, length_zip. lia. }
  eexists _, _. split; [reflexivity|]. cbn [su_z].
  pose proof (fillna_mean_shape G) as HF.
  split; [by rewrite (Forall2_length _ _ _ HF)|].
  split.
  { apply Forall_lookup. intros i frow Hi.
    destruct (Forall2_lookup_l _ _ _ _ _ HF Hi) as (grow & Hg & Hl).
    rewrite Forall_lookup in HrowsG. rewrite Hl. by eapply HrowsG. }
  intros H1 H2 H3 H4 (zrow & z & Hzrow & Hz & Hnum).
  apply list_elem_of_lookup in Hzrow as [i Hi].
  apply list_elem_of_lookup in Hz as [j Hj].
  destruct (lookup_lt_is_Some_2 XI i) as [xrow Hx].
  { apply lookup_lt_Some in Hi. lia. }
  destruct (lookup_lt_is_Some_2 YI i) as [yrow Hy].
  { apply lookup_lt_Some in Hi. lia. }
  destruct (Hrow i xrow yrow zrow Hx Hy Hi) as (Hlx & Hly & Hlz).
  destruct (Hgrid i xrow yrow Hx Hy) as (_ & _ & Hnums).
  destruct (Hnums H1 H2 H3 H4) as [Hxn Hyn].
  destruct (lookup_lt_is_Some_2 xrow j) as [x Hxj].
  { apply lookup_lt_Some in Hj. lia. }
  destruct (lookup_lt_is_Some_2 yrow j) as [y Hyj].
  { apply lookup_lt_Some in Hj. lia. }
  rewrite Forall_lookup in Hxn. destruct (Hxn j x Hxj) as [x' ->].
  rewrite Forall_lookup in Hyn. destruct (Hyn j y Hyj) as [y' ->].
  apply (fillna_mean_finite G
           (zip_with (fun p z0 => wave_effect z0 p.1 p.2) (zip xrow yrow) zrow)
           (wave_effect z (Some x') (Some y'))).
  - eapply list_elem_of_lookup_2. apply grid_zip3_lookup. eauto 10.
  - eapply list_elem_of_lookup_2.
    apply lookup_zip_with_Some. exists (Some x', Some y'), z.
    split; [done|]. split; [|done].
    apply lookup_zip_with_Some. eauto.
  - by apply wave_effect_number.
Qed.

(** C5 (as the code has it). On the two records of the example the engine
    does not fail on a division: the growth range is 0, the guarded
    denominator is [EPSILON > 0] and the normalised growth is 0 for both.
    The surface then depends on the interpolator: when [griddata] raises
    the handler returns the error figure; when it returns a grid, the
    figure has a 100 x 100 surface, and that surface has no NaN as soon
    as one interpolated node is a number. *)
Theorem wave_surface_two_identical_points `{L : Library} (g : rng) :
  let growth := [Some 100; Some 100] in
  let valuation := [Some 10; Some 10] in
  let impact := [Some 50; Some 75] in
  fadd (fsub (series_max growth) (series_min growth)) (Some EPSILON) = Some EPSILON
  /\ normalize growth = [Some 0; Some 0]
  /\ match griddata_cubic (zip growth valuation) impact
             (wave_surface_grid growth valuation) with
     | Raise =>
         create_wave_surface_visualization wave_example g
         = (error_figure "Error in Wave Surface Visualization", g)
     | Ok ZI =>
         exists fig surf markers,
           create_wave_surface_visualization wave_example g = (fig, g)
           /\ fig_data fig = [TSurface surf; TScatter3d markers]
           /\ length (su_z surf) = 100%nat
           /\ Forall (fun zrow => length zrow = 100%nat) (su_z surf)
           /\ ((exists zrow z, zrow ∈ ZI /\ z ∈ zrow /\ is_Some z) ->
               finite_surface_100 fig)
     end.
Proof.
  intros growth valuation impact.
  assert (Hmin : series_min growth = Some 100).
  { unfold series_min. simpl. f_equal. apply Rmin_left. lra. }
  assert (Hmax : series_max growth = Some 100).
  { unfold series_max. simpl. f_equal. apply Rmax_left. lra. }
  pose proof EPSILON_pos as He.
  split; [rewrite Hmin, Hmax; simpl; f_equal; lra|].
  split.
  { unfold normalize. rewrite Hmin, Hmax. simpl.
    assert (Hq : (100 - 100) / (100 - 100 + EPSILON) = 0) by (field; lra).
    by rewrite Hq. }
  assert (Hdf : downsample 1500 (from_records wave_example)
                = Ok (from_records wave_example)).
  { apply downsample_small. rewrite len_from_records. simpl. lia. }
  assert (Hne : wave_example <> []) by done.
  unfold create_wave_surface_visualization, Eng.guarded.
  rewrite (wave_surface_body_present _ _ _ Hne Hdf eq_refl eq_refl eq_refl).
  change (numeric_column GROWTH (from_records wave_example)) with (Ok growth).
  change (numeric_column VALUATION (from_records wave_example)) with (Ok valuation).
  change (numeric_column IMPACT (from_records wave_example)) with (Ok impact).
  cbv beta iota.
  destruct (griddata_cubic (zip growth valuation) impact
              (wave_surface_grid growth valuation)) as [ZI|] eqn:Hgrid; [|done].
  assert (Hshape : Forall2 (fun zrow xrow : list float => length zrow = length xrow)
                     ZI (wave_surface_grid growth valuation).1).
  { destruct (wave_surface_grid growth valuation) as [XI YI] eqn:HXY.
    by eapply griddata_cubic_shape. }
  destruct (wave_surface_figure_surface (from_records wave_example)
              growth valuation impact ZI Hshape)
    as (surf & markers & Hfig & Hlen & Hrows & Hfinite).
  eexists _, surf, markers. split; [reflexivity|].
  split; [done|]. split; [done|]. split; [done|].
  intros Hnode. exists surf, [TScatter3d markers].
  split; [done|]. split; [done|].
  assert (Hvmin : is_Some (series_min valuation)) by (by eexists).
  assert (Hvmax : is_Some (series_max valuation)) by (by eexists).
  specialize (Hfinite ltac:(by rewrite Hmin) ltac:(by rewrite Hmax) Hvmin Hvmax Hnode).
  apply Forall_forall. intros zrow Hin.
  rewrite Forall_forall in Hrows, Hfinite. split; auto.
Qed.

(** C5 (as stated) fails with an interpolator that, like Qhull, needs
    three points to triangulate: on the two records [griddata] raises and
    the output is the error figure, which has no surface at all. *)
Lemma wave_surface_two_points_error_scene :
  ~ (forall (L : Library) (g : rng),
       finite_surface_100 (create_wave_surface_visualization wave_example g).1).
Proof.
  intros Hclaim. specialize (Hclaim (Scripted.library 3) []).
  change (create_wave_surface_visualization (L := Scripted.library 3) wave_example []).1
    with (error_figure "Error in Wave Surface Visualization") in Hclaim.
  destruct Hclaim as (surf & rest & Hdata & _). discriminate Hdata.
Qed.

(** ** C6: reproducible rendering *)

Section Reproducibility.
Context {L : Library}.

Lemma ripple_bubbles_body_present data g df :
  data <> [] ->
  downsample 800 (from_records data) = Ok df ->
  has_column GROWTH df = true -> has_column VALUATION df = true ->
  has_column IMPACT df = true ->
  ripple_bubbles_body data g
  = match numeric_column VALUATION df, numeric_column GROWTH df,
          numeric_column IMPACT df with
    | Ok valuation, Ok _, Ok impact =>
        (bubble_x ← Eng.uniform (Some 0) (Some 1) (len df);
         bubble_y ← Eng.uniform (Some 0) (Some 1) (len df);
         bubble_z ← Eng.uniform (Some 0) (Some 1) (len df);
         _ ← Eng.lift (validate_marker_size (ripple_bubble_size valuation));
         mret (ripple_bubbles_figure df valuation impact bubble_x bubble_y bubble_z))
          (np_seed 42)
    | _, _, _ => (Raise, g)
    end.
Proof.
  intros Hne Hdf Hg Hv Hi. unfold ripple_bubbles_body.
  destruct data as [|r data]; [done|].
  rewrite bind_run. unfold Eng.lift at 1. rewrite Hdf.
  unfold ensure_column. rewrite Hg, bind_run. simpl.
  rewrite Hv, bind_run. simpl. rewrite Hi, bind_run. simpl.
  rewrite bind_run. unfold Eng.lift at 1.
  destruct (numeric_column VALUATION df) as [valuation|]; [|done].
  rewrite bind_run. unfold Eng.lift at 1.
  destruct (numeric_column GROWTH df) as [growth|]; [|done].
  rewrite bind_run. unfold Eng.lift at 1.
  destruct (numeric_column IMPACT df) as [impact|]; [|done].
  by rewrite bind_run.
Qed.

Lemma geolocation_body_present data g df :
  data <> [] ->
  downsample 2000 (from_records data) = Ok df ->
  has_column VALUATION df = true -> has_column IMPACT df = true ->
  geolocation_body data g
  = match sort_values VALUATION df with
    | Ok df_sorted =>
        match numeric_column VALUATION df_sorted, numeric_column IMPACT df_sorted with
        | Ok valuation, Ok impact =>
            match validate_marker_size (geolocation_bubble_sizes valuation) with
            | Ok _ => (Ok (geolocation_figure df_sorted valuation impact), g)
            | Raise => (Raise, g)
            end
        | _, _ => (Raise, g)
        end
    | Raise => (Raise, g)
    end.
Proof.
  intros Hne Hdf Hv Hi. unfold geolocation_body.
  destruct data as [|r data]; [done|].
  rewrite bind_run. unfold Eng.lift at 1. rewrite Hdf.
  unfold ensure_column. rewrite Hv, bind_run. simpl.
  rewrite Hi, bind_run. simpl.
  rewrite bind_run. unfold Eng.lift at 1.
  destruct (sort_values VALUATION df) as [df_sorted|]; [|done].
  rewrite bind_run. unfold Eng.lift at 1.
  destruct (numeric_column VALUATION df_sorted) as [valuation|]; [|done].
  rewrite bind_lift.
  destruct (numeric_column IMPACT df_sorted) as [impact|]; [|done].
  rewrite bind_lift. by destruct (validate_marker_size _).
Qed.

(** The columns of the input survive the down-sampling. *)
Lemma downsample_has_column cap data df k :
  downsample cap (from_records data) = Ok df ->
  has_column k df = has_column k (from_records data).
Proof.
  intros Hdf. apply downsample_from_records in Hdf as (Hcols & _).
  unfold has_column. by rewrite Hcols.
Qed.

Lemma has_column_nonempty k data :
  has_column k (from_records data) = true -> data <> [].
Proof.
  rewrite has_column_true, elem_of_columns_from_records.
  intros (r & Hr & _) ->. by apply not_elem_of_nil in Hr.
Qed.

End Reproducibility.

(** C6 (as the code has it). When the input carries the three numeric
    columns, the figure of each engine does not depend on the state of
    numpy's global generator: down-sampling uses its own generator seeded
    with 42, and the random marker positions of the ripple bubbles and
    undulating wave layouts are drawn right after [np.random.seed(42)].
    Two calls on the same input, whatever happened in between, return
    the same figure. *)
Theorem rendering_reproducible `{L : Library} (data : list dict) (g1 g2 : rng) :
  has_column GROWTH (from_records data) = true ->
  has_column VALUATION (from_records data) = true ->
  has_column IMPACT (from_records data) = true ->
  Forall (fun create : list dict -> rng -> Figure * rng =>
            (create data g1).1 = (create data g2).1
            /\ (create data (create data g1).2).1 = (create data g1).1)
    [create_wave_surface_visualization; create_spiral_tunnel_visualization;
     create_ripple_bubbles_visualization; create_undulating_wave_visualization;
     create_geolocation_visualization].
Proof.
  intros Hg Hv Hi.
  pose proof (has_column_nonempty _ _ Hg) as Hne.
  assert (Hall : forall create : list dict -> rng -> Figure * rng,
            (forall g g', (create data g).1 = (create data g').1) ->
            (create data g1).1 = (create data g2).1
            /\ (create data (create data g1).2).1 = (create data g1).1).
  { intros create Hc. split; apply Hc. }
  assert (Hwave : forall g g', (create_wave_surface_visualization data g).1
                               = (create_wave_surface_visualization data g').1).
  { intros g g'. destruct (downsample_ok 1500 (from_records data)) as [df Hdf].
    unfold create_wave_surface_visualization, Eng.guarded.
    rewrite !(wave_surface_body_present _ _ df Hne Hdf)
      by (by rewrite (downsample_has_column _ _ _ _ Hdf)).
    destruct (numeric_column GROWTH df); [|done].
    destruct (numeric_column VALUATION df); [|done].
    destruct (numeric_column IMPACT df); [|done].
    destruct (griddata_cubic _ _ _); [|done].
    by destruct (validate_marker_size _). }
  assert (Htunnel : forall g g', (create_spiral_tunnel_visualization data g).1
                                 = (create_spiral_tunnel_visualization data g').1).
  { intros g g'. destruct (downsample_ok 1000 (from_records data)) as [df Hdf].
    unfold create_spiral_tunnel_visualization, Eng.guarded.
    rewrite !(spiral_tunnel_body_present _ _ df Hne Hdf)
      by (by rewrite (downsample_has_column _ _ _ _ Hdf)).
    by destruct (numeric_column GROWTH df). }
  assert (Hripple : forall g g', (create_ripple_bubbles_visualization data g).1
                                 = (create_ripple_bubbles_visualization data g').1).
  { intros g g'. destruct (downsample_ok 800 (from_records data)) as [df Hdf].
    unfold create_ripple_bubbles_visualization, Eng.guarded.
    rewrite !(ripple_bubbles_body_present _ _ df Hne Hdf)
      by (by rewrite (downsample_has_column _ _ _ _ Hdf)).
    destruct (numeric_column VALUATION df); [|done].
    destruct (numeric_column GROWTH df); [|done].
    by destruct (numeric_column IMPACT df). }
  assert (Hundulating : forall g g', (create_undulating_wave_visualization data g).1
                                     = (create_undulating_wave_visualization data g').1).
  { intros g g'. destruct (downsample_ok 1200 (from_records data)) as [df Hdf].
    unfold create_undulating_wave_visualization, Eng.guarded.
    rewrite !(undulating_wave_body_present _ _ df Hne Hdf)
      by (by rewrite (downsample_has_column _ _ _ _ Hdf)).
    destruct (numeric_column VALUATION df); [|done].
    by destruct (numeric_column GROWTH df). }
  assert (Hgeo : forall g g', (create_geolocation_visualization data g).1
                              = (create_geolocation_visualization data g').1).
  { intros g g'. destruct (downsample_ok 2000 (from_records data)) as [df Hdf].
    unfold create_geolocation_visualization, Eng.guarded.
    rewrite !(geolocation_body_present _ _ df Hne Hdf)
      by (by rewrite (downsample_has_column _ _ _ _ Hdf)).
    destruct (sort_values VALUATION df) as [df_sorted|]; [|done].
    destruct (numeric_column VALUATION df_sorted); [|done].
    destruct (numeric_column IMPACT df_sorted); [|done].
    by destruct (validate_marker_size _). }
  repeat (apply Forall_cons_2; [by apply Hall|]). apply Forall_nil_2.
Qed.

Lemma rendering_reproducible_witness :
  Forall (fun create : list dict -> Scripted.s_rng -> Figure * Scripted.s_rng =>
            (create wave_example []).1 = (create wave_example [5%nat]).1
            /\ (create wave_example (create wave_example []).2).1
               = (create wave_example []).1)
    [create_wave_surface_visualization (L := Scripted.library 3);
     create_spiral_tunnel_visualization; create_ripple_bubbles_visualization;
     create_undulating_wave_visualization; create_geolocation_visualization].
Proof.
  exact (rendering_reproducible (L := Scripted.library 3) wave_example [] [5%nat]
           eq_refl eq_refl eq_refl).
Defined.

(** C6 (as stated) fails on an input that lacks a numeric column: the
    fallback fill draws from numpy's global generator before any seeding,
    so two successive calls fill different valuations; here the bubble of
    the ripple layout has size 6 in the first call and 30 in the second. *)
Lemma rendering_with_fallback_varies :
  ~ (forall (L : Library) (data : list dict) (g : rng),
       (create_ripple_bubbles_visualization data
          (create_ripple_bubbles_visualization data g).2).1
       = (create_ripple_bubbles_visualization data g).1).
Proof.
  intros Hclaim.
  specialize (Hclaim (Scripted.library 3) no_valuation_example [0%nat]).
  apply (f_equal first_marker_size) in Hclaim.
  change (Some (Rmin (Rmax ((1 + (50 - 1) * Scripted.unit_draw 7) * 0.7) 6) 30)
          = Some (Rmin (Rmax ((1 + (50 - 1) * Scripted.unit_draw 0) * 0.7) 6) 30))
    in Hclaim.
  injection Hclaim as Hclaim. unfold Scripted.unit_draw in Hclaim.
  simpl INR in Hclaim.
  rewrite (Rmax_left (_ * 0.7) 6), (Rmin_right _ 30) in Hclaim by lra.
  rewrite (Rmax_right (_ * 0.7) 6), (Rmin_left 6 30) in Hclaim by lra.
  lra.
Qed.

(** ** C8: the frames of the ripple bubbles *)

Lemma INR_60 : INR 60 = 60.
Proof. rewrite INR_IZR_INZ. reflexivity. Qed.

Lemma INR_lt_60 f : (f < 60)%nat -> 0 <= INR f <= 59.
Proof.
  intros Hf. split; [apply pos_INR|].
  replace 59 with (INR 59) by (rewrite INR_IZR_INZ; reflexivity).
  apply le_INR. lia.
Qed.

Lemma INR_gap i j : (i < j)%nat -> INR i + 1 <= INR j.
Proof. intros H. rewrite <- S_INR. apply le_INR. lia. Qed.

(** Two sines that agree at [a], [b] and at [a + d], [b + d], with
    [a - b] strictly inside [(-2 PI, 2 PI)] and [d] inside [(0, PI)],
    force [a = b]. *)
Lemma sin_pair_separates a b d :
  - (2 * PI) < a - b < 2 * PI -> a <> b -> 0 < d < PI ->
  sin a = sin b -> sin (a + d) = sin (b + d) -> False.
Proof.
  intros Hab Hne Hd H1 H2.
  assert (Hhalf : sin ((a - b) / 2) <> 0).
  { destruct (Rlt_dec 0 (a - b)) as [Hpos|Hneg].
    - apply Rgt_not_eq, sin_gt_0; lra.
    - assert (Hlt : 0 < sin (- ((a - b) / 2))) by (apply sin_gt_0; lra).
      rewrite sin_neg in Hlt. lra. }
  assert (Hc : cos ((a + b) / 2) = 0).
  { pose proof (form4 a b) as Hf. rewrite H1 in Hf.
    assert (Hz : 2 * cos ((a + b) / 2) * sin ((a - b) / 2) = 0) by lra.
    apply Rmult_integral in Hz as [Hz|Hz]; [lra|done]. }
  assert (Hcd : cos ((a + b) / 2 + d) = 0).
  { pose proof (form4 (a + d) (b + d)) as Hf. rewrite H2 in Hf.
    replace ((a + d + (b + d)) / 2) with ((a + b) / 2 + d) in Hf by lra.
    replace ((a + d - (b + d)) / 2) with ((a - b) / 2) in Hf by lra.
    assert (Hz : 2 * cos ((a + b) / 2 + d) * sin ((a - b) / 2) = 0) by lra.
    apply Rmult_integral in Hz as [Hz|Hz]; [lra|done]. }
  rewrite cos_plus, Hc in Hcd.
  assert (Hsd : 0 < sin d) by (apply sin_gt_0; lra).
  assert (Hs : sin ((a + b) / 2) = 0).
  { assert (Hz : sin ((a + b) / 2) * sin d = 0) by lra.
    apply Rmult_integral in Hz as [Hz|Hz]; [done|lra]. }
  pose proof (sin2_cos2 ((a + b) / 2)) as Hsc.
  rewrite Hs, Hc in Hsc. unfold Rsqr in Hsc. lra.
Qed.

(** Between two different frames the ripple separates two records whose
    index labels are at most 15 apart. *)
Lemma ripple_z_separates f1 f2 i j :
  (f1 < 60)%nat -> (f2 < 60)%nat -> f1 <> f2 -> (i < j <= i + 15)%nat ->
  ripple_z 60 f1 i = ripple_z 60 f2 i -> ripple_z 60 f1 j = ripple_z 60 f2 j ->
  False.
Proof.
  intros Hf1 Hf2 Hne Hij Hi Hj. unfold ripple_z in Hi, Hj. rewrite INR_60 in Hi, Hj.
  pose proof (INR_lt_60 f1 Hf1) as B1. pose proof (INR_lt_60 f2 Hf2) as B2.
  pose proof PI_RGT_0 as Hpi. pose proof PI2_3_2 as Hpi3.
  assert (Hd : 1 <= INR j - INR i <= 15).
  { split; [pose proof (INR_gap i j ltac:(lia)); lra|].
    assert (INR j <= INR (i + 15)) by (apply le_INR; lia).
    rewrite plus_INR in H.
    replace (INR 15) with 15 in H by (rewrite INR_IZR_INZ; reflexivity). lra. }
  assert (Hf : INR f1 <> INR f2) by (intros E; by apply INR_eq in E).
  apply (sin_pair_separates (2 * PI * INR f1 / 60 + INR i * 0.2)
           (2 * PI * INR f2 / 60 + INR i * 0.2) ((INR j - INR i) * 0.2)).
  - split; nra.
  - intros E. apply Hf. nra.
  - split; nra.
  - lra.
  - replace (2 * PI * INR f1 / 60 + INR i * 0.2 + (INR j - INR i) * 0.2)
      with (2 * PI * INR f1 / 60 + INR j * 0.2) by lra.
    replace (2 * PI * INR f2 / 60 + INR i * 0.2 + (INR j - INR i) * 0.2)
      with (2 * PI * INR f2 / 60 + INR j * 0.2) by lra.
    lra.
Qed.

Section RippleLemmas.
Context {L : Library}.

Lemma ripple_bubbles_body_ok data g fig g' :
  ripple_bubbles_body data g = (Ok fig, g') ->
  data <> []
  /\ exists df0 df valuation impact bubble_x bubble_y bubble_z,
       downsample 800 (from_records data) = Ok df0
       /\ frame_extends df0 df
       /\ length bubble_x = len df /\ length bubble_y = len df
       /\ fig = ripple_bubbles_figure df valuation impact bubble_x bubble_y bubble_z.
Proof.
  unfold ripple_bubbles_body. destruct data as [|r data]; [done|].
  intros H. split; [done|].
  apply bind_ok in H as (df0 & g0 & H0 & H). apply lift_ok in H0 as [H0 ->].
  apply bind_ok in H as (df1 & g1 & H1 & H).
  apply bind_ok in H as (df2 & g2 & H2 & H).
  apply bind_ok in H as (df3 & g3 & H3 & H).
  apply bind_ok in H as (valuation & g4 & H4 & H). apply lift_ok in H4 as [H4 ->].
  apply bind_ok in H as (growth & g5 & H5 & H). apply lift_ok in H5 as [H5 ->].
  apply bind_ok in H as (impact & g6 & H6 & H). apply lift_ok in H6 as [H6 ->].
  apply bind_ok in H as ([] & g7 & H7 & H).
  apply bind_ok in H as (bx & g8 & H8 & H).
  apply bind_ok in H as (bz & g9 & H9 & H).
  apply bind_ok in H as (bz' & g10 & H10 & H).
  apply bind_ok in H as ([] & g11 & H11 & H). apply lift_ok in H11 as [H11 ->].
  injection H as <- <-.
  destruct (ensure_column_run GROWTH 50 200 df0 g) as (? & ? & E1 & X1 & _).
  destruct (ensure_column_run VALUATION 1 50 df1 g1) as (? & ? & E2 & X2 & _).
  destruct (ensure_column_run IMPACT 20 90 df2 g2) as (? & ? & E3 & X3 & _).
  rewrite H1 in E1. rewrite H2 in E2. rewrite H3 in E3.
  injection E1 as <- <-. injection E2 as <- <-. injection E3 as <- <-.
  destruct (uniform_run (Some 0) (Some 1) (len df3) g7) as (? & ? & U1 & L1).
  destruct (uniform_run (Some 0) (Some 1) (len df3) g8) as (? & ? & U2 & L2).
  rewrite H8 in U1. rewrite H9 in U2. injection U1 as <- <-. injection U2 as <- <-.
  exists df0, df3, valuation, impact, bx, bz, bz'.
  eauto 10 using frame_extends_trans.
Qed.

(** Frame [f] of the figure: the base positions and the rippled [z]. *)
Lemma ripple_bubbles_figure_frame df valuation impact bubble_x bubble_y bubble_z f :
  (f < 60)%nat ->
  exists sc,
    fig_frames (ripple_bubbles_figure df valuation impact bubble_x bubble_y bubble_z)
      !! f = Some [TScatter3d sc]
    /\ sc_x sc = bubble_x /\ sc_y sc = bubble_y
    /\ sc_z sc = (fun i => Some (0.5 + 0.4 * sin (2 * PI * INR f / INR 60 + INR i * 0.2)))
                   <$> (rows df).*1.
Proof.
  intros Hf. eexists. unfold ripple_bubbles_figure. cbn [fig_frames].
  rewrite list_lookup_fmap, lookup_seq_lt by done. cbn [fmap option_fmap option_map].
  split; [reflexivity|]. cbn [sc_x sc_y sc_z]. split; [done|]. split; [done|].
  unfold frame_bubble_z. rewrite <- list_fmap_compose. done.
Qed.

End RippleLemmas.

(** C8 (as the code has it). On a successful run the ripple layout has 60
    frames; frame [f] repeats the base [x] and [y] and sets the [z] of the
    record with index label [i] to [0.5 + 0.4 sin(2 pi f / 60 + 0.2 i)]
    (the label is the record's position in the input; up to the cap of 800
    records the labels are [0 .. n-1]). Two different frames have the same
    [x] and [y], and their [z] arrays differ as soon as the frame holds
    two records whose labels are at most 15 apart, which every input of 2
    to 800 records does. *)
Theorem ripple_frames_move_z_only `{L : Library}
    (data : list dict) (g g' : rng) (fig : Figure) :
  ripple_bubbles_body data g = (Ok fig, g') ->
  create_ripple_bubbles_visualization data g = (fig, g')
  /\ exists (labels : list nat) (bubble_x bubble_y : list float),
       labels = (if decide (800 < length data)%nat
                 then sample_locs (length data) 800
                 else seq 0 (length data))
       /\ length bubble_x = length labels /\ length bubble_y = length labels
       /\ length (fig_frames fig) = 60%nat
       /\ (exists base, fig_data fig = [TScatter3d base]
                        /\ sc_x base = bubble_x /\ sc_y base = bubble_y)
       /\ (forall f, (f < 60)%nat ->
             exists sc,
               fig_frames fig !! f = Some [TScatter3d sc]
               /\ sc_x sc = bubble_x /\ sc_y sc = bubble_y
               /\ sc_z sc
                  = (fun i => Some (0.5 + 0.4 * sin (2 * PI * INR f / INR 60
                                                      + INR i * 0.2)))
                      <$> labels)
       /\ (forall f1 f2 i j,
             (f1 < 60)%nat -> (f2 < 60)%nat -> f1 <> f2 ->
             i ∈ labels -> j ∈ labels -> (i < j <= i + 15)%nat ->
             frame_z fig f1 <> frame_z fig f2).
Proof.
  intros Hrun. split.
  { unfold create_ripple_bubbles_visualization, Eng.guarded. by rewrite Hrun. }
  apply ripple_bubbles_body_ok in Hrun
    as (Hne & df0 & df & valuation & impact & bx & by_ & bz & Hdf0 & Hext & Hbx
        & Hby & ->).
  apply downsample_from_records in Hdf0 as (_ & Hlabels & _).
  rewrite <- (frame_extends_labels _ _ Hext) in Hlabels.
  exists (rows df).*1, bx, by_.
  split; [done|]. rewrite length_fmap. split; [done|]. split; [done|].
  split.
  { unfold ripple_bubbles_figure. cbn [fig_frames].
    by rewrite length_fmap, length_seq. }
  split; [by eexists|].
  split; [intros f Hf; by apply ripple_bubbles_figure_frame|].
  intros f1 f2 i j Hf1 Hf2 Hne12 Hi Hj Hij Heq.
  destruct (ripple_bubbles_figure_frame df valuation impact bx by_ bz f1 Hf1)
    as (sc1 & Hsc1 & _ & _ & Hz1).
  destruct (ripple_bubbles_figure_frame df valuation impact bx by_ bz f2 Hf2)
    as (sc2 & Hsc2 & _ & _ & Hz2).
  unfold frame_z in Heq. rewrite Hsc1, Hsc2, Hz1, Hz2 in Heq.
  injection Heq as Heq. clear Hz1 Hz2 Hlabels.
  revert Hi Hj Heq. generalize ((rows df).*1). intros labels Hi Hj Heq.
  assert (Hpoint : forall l, l ∈ labels -> ripple_z 60 f1 l = ripple_z 60 f2 l).
  { intros l Hl. apply list_elem_of_lookup in Hl as [k Hk].
    apply (f_equal (.!! k)) in Heq. rewrite !list_lookup_fmap, Hk in Heq.
    simpl in Heq. by injection Heq. }
  eapply (ripple_z_separates f1 f2 i j); eauto.
Qed.

Lemma ripple_frames_move_z_only_witness :
  exists fig g',
    ripple_bubbles_body (L := Scripted.library 3) wave_example [] = (Ok fig, g')
    /\ create_ripple_bubbles_visualization (L := Scripted.library 3) wave_example []
       = (fig, g').
Proof.
  eexists _, _.
  eassert (Hrun : ripple_bubbles_body (L := Scripted.library 3) wave_example []
                  = (Ok _, _)).
  { assert (Hdf : downsample (L := Scripted.library 3) 800 (from_records wave_example)
                  = Ok (from_records wave_example)) by reflexivity.
    assert (Hne : wave_example <> []) by done.
    rewrite (ripple_bubbles_body_present (L := Scripted.library 3) _ _ _ Hne Hdf
               eq_refl eq_refl eq_refl).
    reflexivity. }
  split; [exact Hrun|].
  exact (proj1 (ripple_frames_move_z_only (L := Scripted.library 3) _ _ _ _ Hrun)).
Defined.

(** C8 (as stated) fails on a single record: frames 0 and 30 have sine
    arguments 0 and pi, which differ modulo 2 pi, and the same [z] = 0.5
    for the only record. *)
Lemma ripple_single_record_frames_agree :
  ~ (forall (L : Library) (data : list dict) (g g' : rng) (fig : Figure)
            (f1 f2 : nat),
       ripple_bubbles_body data g = (Ok fig, g') ->
       (f1 < 60)%nat -> (f2 < 60)%nat -> f1 <> f2 ->
       (forall k : Z, 2 * PI * INR f1 / INR 60 - 2 * PI * INR f2 / INR 60
                      <> 2 * PI * IZR k) ->
       frame_z fig f1 <> frame_z fig f2).
Proof.
  intros Hclaim.
  assert (Hrun : exists fig g',
            ripple_bubbles_body (L := Scripted.library 3) single_example []
            = (Ok fig, g')
            /\ frame_z fig 0 = Some [Some (ripple_z 60 0 0)]
            /\ frame_z fig 30 = Some [Some (ripple_z 60 30 0)]).
  { eexists _, _. split.
    - assert (Hdf : downsample (L := Scripted.library 3) 800
                      (from_records single_example)
                    = Ok (from_records single_example)) by reflexivity.
      assert (Hne : single_example <> []) by done.
      rewrite (ripple_bubbles_body_present (L := Scripted.library 3) _ _ _ Hne Hdf
                 eq_refl eq_refl eq_refl).
      reflexivity.
    - split; reflexivity. }
  destruct Hrun as (fig & g' & Hrun & Hz0 & Hz30).
  apply (Hclaim _ _ _ _ _ 0%nat 30%nat Hrun); [lia|lia|lia| |].
  - intros k Hk. rewrite INR_60 in Hk.
    replace (INR 0) with 0 in Hk by (rewrite INR_IZR_INZ; reflexivity).
    replace (INR 30) with 30 in Hk by (rewrite INR_IZR_INZ; reflexivity).
    pose proof PI_RGT_0 as Hpi.
    assert (Hodd : IZR (2 * k + 1) = 0).
    { rewrite plus_IZR, mult_IZR. nra. }
    apply eq_IZR in Hodd. lia.
  - rewrite Hz0, Hz30. do 3 f_equal. unfold ripple_z. rewrite INR_60.
    replace (INR 0) with 0 by (rewrite INR_IZR_INZ; reflexivity).
    replace (INR 30) with 30 by (rewrite INR_IZR_INZ; reflexivity).
    replace (2 * PI * 0 / 60 + 0 * 0.2) with 0 by lra.
    replace (2 * PI * 30 / 60 + 0 * 0.2) with PI by lra.
    by rewrite sin_0, sin_PI.
Qed.

(** ** C10: the geolocation spiral never reads the growth rate *)


Section EraseGrowth.
Context {L : Library}.















End EraseGrowth.



(** * Further properties of the sources and of the engines *)

(** ** The generator: shape of the records, prefixes *)

Section GeneratorShape.
Context {RS : PyRandom}.

Lemma choice_elem_of xs s : xs <> [] -> (Gen.choice xs s).1 ∈ xs.
Proof.
  intros Hne. unfold Gen.choice.
  pose proof (py_randbelow_lt (length xs) s) as Hk.
  destruct (py_randbelow (length xs) s) as [k s']. simpl in *.
  apply list_elem_of_In, nth_In, Hk. destruct xs; [done|simpl; lia].
Qed.

Lemma randint_range a b s :
  (a <= b)%nat -> (a <= (Gen.randint a b s).1 <= b)%nat.
Proof.
  intros Hab. unfold Gen.randint.
  pose proof (py_randbelow_lt (b - a + 1) s ltac:(lia)) as Hk.
  destruct (py_randbelow (b - a + 1) s) as [k s']. simpl in *. lia.
Qed.

Lemma sector_bases_range sector s :
  let '(v, a, g) := (sector_bases sector s).1 in
  0.5 <= v < 300 /\ 20 <= a < 95 /\ 50 <= g < 2000.
Proof.
  unfold sector_bases.
  repeat case_decide;
    unfold mbind, mret, gen_bind, gen_ret, Gen.bind, Gen.ret;
    repeat match goal with
           | |- context [Gen.uniform ?a ?b ?s0] =>
               let H := fresh "H" in
               pose proof (uniform_range_strict a b s0 ltac:(lra)) as H;
               destruct (Gen.uniform a b s0) as [? ?]; simpl in H
           end; simpl; lra.
Qed.

Lemma adjust_status_range status v :
  0.5 <= v < 300 -> 0.5 <= adjust_status status v < 300.
Proof.
  intros Hv. unfold adjust_status.
  repeat case_decide; unfold Rmax, Rmin; repeat destruct (Rle_dec _ _); lra.
Qed.

Lemma generate_record_shape i s : generated_record i (generate_record i s).1.
Proof.
  unfold generate_record, mbind, mret, gen_bind, gen_ret, Gen.bind, Gen.ret.
  pose proof (choice_elem_of sectors s ltac:(done)) as Hsector.
  destruct (Gen.choice sectors s) as [sector s1].
  pose proof (choice_elem_of countries s1 ltac:(done)) as Hcountry.
  destruct (Gen.choice countries s1) as [country s2].
  pose proof (choice_elem_of statuses s2 ltac:(done)) as Hstatus.
  destruct (Gen.choice statuses s2) as [status s3].
  pose proof (sector_bases_range sector s3) as Hb.
  destruct (sector_bases sector s3) as [[[v a] gb] s4]. simpl in Hb.
  destruct Hb as (Hv & Ha & Hg).
  pose proof (adjust_status_range status v Hv) as Hadj.
  pose proof (uniform_range_strict 0.8 1.2 s4 ltac:(lra)) as Hc.
  destruct (Gen.uniform 0.8 1.2 s4) as [c s5].
  pose proof (uniform_range_strict (-10) 10 s5 ltac:(lra)) as Hj.
  destruct (Gen.uniform (-10) 10 s5) as [jit s6].
  pose proof (randint_range 2010 2024 s6 ltac:(lia)) as Hy.
  destruct (Gen.randint 2010 2024 s6) as [year s7].
  pose proof (uniform_range_strict (-180) 180 s7 ltac:(lra)) as Hlon.
  destruct (Gen.uniform (-180) 180 s7) as [lon s8].
  pose proof (uniform_range_strict (-90) 90 s8 ltac:(lra)) as Hlat.
  destruct (Gen.uniform (-90) 90 s8) as [lat s9]. simpl in *.
  exists sector, country, status, (adjust_status status v * c),
         (Rmin 95 (Rmax 1 (a + jit))), (gb * c), year, lon, lat.
  split; [reflexivity|].
  repeat (split; [assumption|]).
  split; [nra|]. split.
  { unfold Rmax, Rmin; repeat destruct (Rle_dec _ _); lra. }
  split; [nra|]. done.
Qed.

Lemma generate_loop_Forall2 (P : nat -> dict -> Prop) :
  (forall i s, P i (generate_record i s).1) ->
  forall n i s, Forall2 P (seq i n) (generate_loop n i s).1.
Proof.
  intros HP. induction n as [|n IH]; intros i s; simpl.
  - constructor.
  - unfold mbind, mret, gen_bind, gen_ret, Gen.bind, Gen.ret.
    pose proof (HP i s) as Hr.
    destruct (generate_record i s) as [r s1].
    pose proof (IH (S i) s1) as Hrs.
    destruct (generate_loop n (S i) s1) as [rs s2]. simpl in *.
    by constructor.
Qed.

(** The loop is sequential: [n + k] iterations are [n] iterations
    followed by [k] more from the state and the index reached. *)
Lemma generate_loop_app n k i s :
  generate_loop (n + k) i s
  = ((generate_loop n i s).1
       ++ (generate_loop k (i + n) (generate_loop n i s).2).1,
     (generate_loop k (i + n) (generate_loop n i s).2).2).
Proof.
  revert i s. induction n as [|n IH]; intros i s.
  - simpl. rewrite Nat.add_0_r. by destruct (generate_loop k i s).
  - cbn [Nat.add generate_loop].
    unfold mbind, mret, gen_bind, gen_ret, Gen.bind, Gen.ret.
    destruct (generate_record i s) as [r s1].
    rewrite IH. replace (i + S n)%nat with (S i + n)%nat by lia.
    destruct (generate_loop n (S i) s1) as [rs s2]. simpl.
    by destruct (generate_loop k (S i + n) s2).
Qed.

End GeneratorShape.

(** X1. Whatever the random source draws, record [i] of
    [generate_large_realistic_dataset(count)] has exactly the ten keys of
    the dict literal; its company is ["<sector> Startup <i+1>"]; sector,
    country and status come from the three catalogs; the valuation lies in
    [[0.4, 360)], the AI impact score in [[10, 95]] (the lower clamp at 1
    is never the active one), the growth rate in [[40, 2400)], the
    founding year in 2010..2024 and the coordinates in
    [[-180, 180) x [-90, 90)]. *)
Theorem generated_records_shape `{RS : PyRandom} (count : nat) (s : pystate) :
  Forall2 generated_record (seq 0 count) (generate_large_realistic_dataset count s).1.
Proof. apply generate_loop_Forall2, generate_record_shape. Qed.

(** X2. From one state of the random source, the records of a shorter run
    are the first records of every longer run: [count + more] records are
    the [count] records followed by the records that [more] further
    iterations give from the state, and with the numbering, reached. *)
Theorem generator_prefix_stable `{RS : PyRandom} (count more : nat) (s : pystate) :
  let small := generate_large_realistic_dataset count s in
  let large := generate_large_realistic_dataset (count + more) s in
  firstn count large.1 = small.1
  /\ skipn count large.1 = (generate_loop more count small.2).1
  /\ large.2 = (generate_loop more count small.2).2.
Proof.
  intros small large.
  assert (Hlen : length small.1 = count) by apply generate_loop_length.
  unfold large, generate_large_realistic_dataset. rewrite generate_loop_app.
  fold (generate_large_realistic_dataset count s). fold small. cbn [fst snd Nat.add].
  rewrite take_app_length', drop_app_length' by done. done.
Qed.

(** ** The simulated sources *)

Section SourceLemmas.
Context {RS : PyRandom}.

Lemma for_enumerate_Forall2 {A B} (P : nat * A -> B -> Prop)
    (body : nat -> A -> Gen.M B) :
  (forall i x s, P (i, x) (body i x s).1) ->
  forall xs i s,
    Forall2 P (imap (fun j x => ((i + j)%nat, x)) xs) (for_enumerate body i xs s).1.
Proof.
  intros HP. induction xs as [|x xs IH]; intros i s; simpl.
  - constructor.
  - unfold mbind, mret, gen_bind, gen_ret, Gen.bind, Gen.ret.
    pose proof (HP i x s) as Hr.
    destruct (body i x s) as [r s1].
    pose proof (IH (S i) s1) as Hrs.
    destruct (for_enumerate body (S i) xs s1) as [rs s2]. simpl in *.
    constructor; [by rewrite Nat.add_0_r|].
    erewrite imap_ext; [exact Hrs|]. intros j y _. simpl. f_equal. lia.
Qed.

Lemma for_enumerate_try_Forall2 {A B} (P : nat * A -> B -> Prop)
    (body : nat -> A -> Gen.M (result B)) xs :
  (forall i x s, x ∈ xs -> exists b, (body i x s).1 = Ok b /\ P (i, x) b) ->
  forall i s,
    Forall2 P (imap (fun j x => ((i + j)%nat, x)) xs) (for_enumerate_try body i xs s).1.
Proof.
  induction xs as [|x xs IH]; intros HP i s; simpl.
  - constructor.
  - unfold mbind, mret, gen_bind, gen_ret, Gen.bind, Gen.ret.
    destruct (HP i x s ltac:(left)) as (b & Hb & Hr).
    destruct (body i x s) as [r s1]. simpl in Hb. subst r.
    pose proof (IH (fun i x s Hx => HP i x s ltac:(by right)) (S i) s1) as Hrs.
    destruct (for_enumerate_try body (S i) xs s1) as [rs s2]. simpl in *.
    constructor; [by rewrite Nat.add_0_r|].
    erewrite imap_ext; [exact Hrs|]. intros j y _. simpl. f_equal. lia.
Qed.

Lemma INR_Z_to_nat z : (0 <= z)%Z -> INR (Z.to_nat z) = IZR z.
Proof. intros Hz. by rewrite INR_IZR_INZ, Z2Nat.id. Qed.

Lemma random_record_shape i company s :
  random_data_record (i, company) (random_record i company s).1.
Proof.
  unfold random_record, mbind, mret, gen_bind, gen_ret, Gen.bind, Gen.ret.
  pose proof (uniform_range_strict 1 100 s ltac:(lra)) as Hv.
  destruct (Gen.uniform 1 100 s) as [v s1].
  pose proof (randint_range 50 95 s1 ltac:(lia)) as Ha.
  destruct (Gen.randint 50 95 s1) as [a s2].
  pose proof (randint_range 80 500 s2 ltac:(lia)) as Hg.
  destruct (Gen.randint 80 500 s2) as [g s3].
  pose proof (uniform_range_strict (-180) 180 s3 ltac:(lra)) as Hlon.
  destruct (Gen.uniform (-180) 180 s3) as [lon s4].
  pose proof (uniform_range_strict (-90) 90 s4 ltac:(lra)) as Hlat.
  destruct (Gen.uniform (-90) 90 s4) as [lat s5]. simpl in *.
  exists v, a, g, lon, lat. done.
Qed.

Lemma market_record_shape i symbol s :
  market_data_record (i, symbol) (market_record i symbol s).1.
Proof.
  unfold market_record, mbind, mret, gen_bind, gen_ret, Gen.bind, Gen.ret.
  pose proof (uniform_range_strict 10 1000 s ltac:(lra)) as Hp.
  destruct (Gen.uniform 10 1000 s) as [p s1].
  pose proof (uniform_range_strict (-10) 10 s1 ltac:(lra)) as Hc.
  destruct (Gen.uniform (-10) 10 s1) as [c s2].
  pose proof (randint_range (Z.to_nat 100000) (Z.to_nat 10000000) s2 ltac:(lia)) as Hvol.
  destruct (Gen.randint (Z.to_nat 100000) (Z.to_nat 10000000) s2) as [vol s3].
  pose proof (randint_range 40 95 s3 ltac:(lia)) as Ha.
  destruct (Gen.randint 40 95 s3) as [a s4].
  pose proof (uniform_range_strict (-180) 180 s4 ltac:(lra)) as Hlon.
  destruct (Gen.uniform (-180) 180 s4) as [lon s5].
  pose proof (uniform_range_strict (-90) 90 s5 ltac:(lra)) as Hlat.
  destruct (Gen.uniform (-90) 90 s5) as [lat s6]. cbn [fst snd] in *.
  exists p, (c * 10 + 100), vol, a, lon, lat.
  split; [reflexivity|]. split; [lra|]. split; [done|]. split; [lra|].
  split; [|done].
  rewrite <- (INR_Z_to_nat 100000), <- (INR_Z_to_nat 10000000) by lia.
  split; apply le_INR; lia.
Qed.

Lemma py_int_floor x :
  0 <= x -> IZR (py_int x) <= x < IZR (py_int x) + 1.
Proof.
  intros Hx. unfold py_int. destruct (Rle_dec 0 x) as [_|]; [|done].
  pose proof (base_Int_part x). lra.
Qed.

Lemma py_int_between x (lo hi : Z) :
  0 <= x -> IZR lo <= x < IZR hi -> (lo <= py_int x < hi)%Z.
Proof.
  intros Hx [Hlo Hhi]. pose proof (py_int_floor x Hx) as [Hle Hlt].
  split.
  - apply Z.lt_succ_r, lt_IZR. rewrite succ_IZR. lra.
  - apply lt_IZR. lra.
Qed.

Lemma weather_record_shape i city name country s :
  split_on ","%char city = [name; country] ->
  contains ","%char city = true ->
  city = name +:+ "," +:+ country -> contains ","%char name = false ->
  exists r, (weather_record i city s).1 = Ok r /\ weather_station_record (i, city) r.
Proof.
  intros Hsplit Hcomma Hcity Hname.
  unfold weather_record, mbind, mret, gen_bind, gen_ret, Gen.bind, Gen.ret.
  pose proof (uniform_range_strict (-20) 45 s ltac:(lra)) as Ht.
  destruct (Gen.uniform (-20) 45 s) as [t s1].
  pose proof (uniform_range_strict 20 100 s1 ltac:(lra)) as Hh.
  destruct (Gen.uniform 20 100 s1) as [h s2].
  pose proof (uniform_range_strict 980 1030 s2 ltac:(lra)) as Hp.
  destruct (Gen.uniform 980 1030 s2) as [p s3].
  pose proof (uniform_range_strict (-180) 180 s3 ltac:(lra)) as Hlon.
  destruct (Gen.uniform (-180) 180 s3) as [lon s4].
  pose proof (uniform_range_strict (-90) 90 s4 ltac:(lra)) as Hlat.
  destruct (Gen.uniform (-90) 90 s4) as [lat s5]. cbn [fst snd] in *.
  rewrite Hsplit, Hcomma. cbn [index lookup list_lookup mbind result_bind].
  eexists. split; [reflexivity|].
  exists name, country, t, h, p, lon, lat. cbn [fst snd].
  split; [done|]. split; [done|]. split; [done|].
  split; [lra|].
  pose proof (py_int_between h 20 100 ltac:(lra) ltac:(lra)).
  split; [lia|]. split; [apply py_int_floor; lra|]. split; [lra|]. done.
Qed.

Lemma cities_split :
  Forall (fun city => exists name country,
            split_on ","%char city = [name; country]
            /\ contains ","%char city = true
            /\ city = name +:+ "," +:+ country
            /\ contains ","%char name = false) cities.
Proof. repeat constructor; eexists _, _; repeat split; reflexivity. Qed.

End SourceLemmas.

(** X3. [get_random_data] returns ten records, one per company of its
    catalog and in catalog order; record [i] has exactly the eight keys
    of the dict literal, the city ["City_<i+1>"], a valuation in
    [[1, 100)], an integer impact score in 50..95 and an integer growth
    rate in 80..500. *)
Theorem get_random_data_records `{RS : PyRandom} (s : pystate) :
  Forall2 random_data_record (enumerate companies) (get_random_data s).1.
Proof.
  apply (for_enumerate_Forall2 random_data_record random_record random_record_shape
           companies 0 s).
Qed.

(** X4. [get_market_data] returns thirty records, one per symbol and in
    catalog order (the slice [[:50]] keeps them all); record [i] is named
    after its symbol, sits in ["Market_<i>"] (numbered from 0), and its
    valuation is a tenth of the price it carries, so it lies in
    [[1, 100)]; the growth rate lies in [[0, 200)], the impact score in
    40..95 and the volume in 100000..10000000. *)
Theorem get_market_data_records `{RS : PyRandom} (s : pystate) :
  Forall2 market_data_record (enumerate symbols) (get_market_data s).1.
Proof.
  apply (for_enumerate_Forall2 market_data_record market_record market_record_shape
           symbols 0 s).
Qed.

(** X5. [get_weather_stations_data] returns fifteen records, one per
    catalog entry and in catalog order: no iteration raises, so no station
    is skipped. Each entry splits at its comma into the city and the
    country (never ['Unknown']); the valuation [temp / 10 + 5] lies in
    [[3, 9.5)], the impact score is the humidity truncated to an integer
    of 20..99, and the growth rate [pressure / 10] lies in [[98, 103]]. *)
Theorem get_weather_stations_data_records `{RS : PyRandom} (s : pystate) :
  Forall2 weather_station_record (enumerate cities) (get_weather_stations_data s).1.
Proof.
  refine (for_enumerate_try_Forall2 weather_station_record weather_record cities
            _ 0%nat s).
  intros i city s0 Hcity.
  pose proof cities_split as Hall. rewrite Forall_forall in Hall.
  destruct (Hall city Hcity) as (name & country & H1 & H2 & H3 & H4).
  by eapply weather_record_shape.
Qed.

(** ** The live source *)

Section RealTimeLemmas.
Context {RS : PyRandom} {NW : Network}.

Lemma for_enumerate_length {A B} (body : nat -> A -> Gen.M B) xs i s :
  length (for_enumerate body i xs s).1 = length xs.
Proof.
  pose proof (for_enumerate_Forall2 (fun _ _ => True) body
                ltac:(done) xs i s) as H.
  apply Forall2_length in H. by rewrite length_imap in H.
Qed.

Lemma get_market_data_length s : length (get_market_data s).1 = 30%nat.
Proof. unfold get_market_data. by rewrite for_enumerate_length. Qed.

Lemma get_weather_stations_data_length s :
  length (get_weather_stations_data s).1 = 15%nat.
Proof.
  assert (Hok : forall i city s0, city ∈ cities ->
            exists r, (weather_record i city s0).1 = Ok r /\ True).
  { intros i city s0 Hcity.
    pose proof cities_split as Hall. rewrite Forall_forall in Hall.
    destruct (Hall city Hcity) as (name & country & H1 & H2 & H3 & H4).
    destruct (weather_record_shape i city name country s0 H1 H2 H3 H4) as (r & Hr & _).
    eauto. }
  pose proof (for_enumerate_try_Forall2 (fun _ _ => True) weather_record cities
                Hok 0%nat s) as H.
  apply Forall2_length in H. by rewrite length_imap in H.
Qed.

Lemma extend_if_length datasets fetched k :
  (length datasets <= length (extend_if datasets fetched k) <= length datasets + k)%nat.
Proof.
  unfold extend_if. destruct fetched as [[|r rs]|]; try lia.
  rewrite length_app, length_take. lia.
Qed.

Lemma extend_if_prefix datasets fetched k :
  firstn (length datasets) (extend_if datasets fetched k) = datasets.
Proof.
  unfold extend_if. destruct fetched as [[|r rs]|].
  - by rewrite firstn_all.
  - by rewrite take_app_length.
  - by rewrite firstn_all.
Qed.

Lemma extend_if_nothing datasets fetched k :
  brought_nothing fetched -> extend_if datasets fetched k = datasets.
Proof. by intros [->| ->]. Qed.

Lemma extend_if_all datasets fetched k :
  (length fetched <= k)%nat -> extend_if datasets (Some fetched) k = datasets ++ fetched.
Proof.
  intros Hk. unfold extend_if. destruct fetched as [|r rs]; [by rewrite app_nil_r|].
  by rewrite firstn_all2.
Qed.

End RealTimeLemmas.

(** X6. Whatever the servers answer, [get_real_time_data] never returns
    a small dataset: either it returns what the sources brought, which
    then starts with the thirty market records and has between 101 and
    1545 records (30 + 500 + 15 + 200 + 500 + 300), or it returns the
    5000 records of the generator. *)
Theorem get_real_time_data_size `{RS : PyRandom} `{NW : !Network} (s : pystate) :
  let data := (get_real_time_data s).1 in
  (firstn 30 data = (get_market_data s).1 /\ (100 < length data <= 1545)%nat)
  \/ ((exists s', get_real_time_data s = generate_large_realistic_dataset 5000 s')
      /\ length data = 5000%nat).
Proof.
  unfold get_real_time_data. generalize 5000%nat. intros size.
  assert (Hbound : exists bound, bound = 1545%nat) by by eexists.
  destruct Hbound as [bound Hbound]. rewrite <- Hbound.
  unfold mbind, mret, gen_bind, gen_ret, Gen.bind, Gen.ret.
  pose proof (get_market_data_length s) as Hm.
  destruct (get_market_data s) as [market s1]. cbn [fst] in *.
  destruct (get_crypto_data s1) as [crypto s2].
  pose proof (get_weather_stations_data_length s2) as Hw.
  destruct (get_weather_stations_data s2) as [weather s3]. cbn [fst] in *.
  destruct (get_earthquake_data s3) as [quake s4].
  destruct (get_nyc_open_data s4) as [nyc s5].
  destruct (get_github_activity_data s5) as [github s6].
  rewrite (extend_if_all [] market) by lia. cbn [app].
  set (d1 := extend_if market crypto 500).
  set (d2 := extend_if d1 (Some weather) 300).
  set (d3 := extend_if d2 quake 200).
  set (d4 := extend_if d3 nyc 500).
  set (d5 := extend_if d4 github 300).
  pose proof (extend_if_length market crypto 500) as L1.
  assert (L2 : (length d2 <= length d1 + 15)%nat).
  { unfold d2. rewrite extend_if_all by lia. rewrite length_app. lia. }
  pose proof (extend_if_length d2 quake 200) as L3.
  pose proof (extend_if_length d3 nyc 500) as L4.
  pose proof (extend_if_length d4 github 300) as L5.
  fold d1 in L1. fold d3 in L3, L4. fold d4 in L4, L5. fold d5 in L5.
  case_decide as Hlen.
  - left. cbn [fst]. split; [|lia].
    assert (Hp : forall big small : list dict,
               firstn (length market) small = market ->
               firstn (length small) big = small ->
               firstn (length market) big = market).
    { intros big small H1 H2.
      assert (Hle : (length market <= length small)%nat).
      { pose proof (f_equal length H1) as Hl. rewrite length_take in Hl. lia. }
      rewrite <- H2 in H1. rewrite take_take in H1.
      by rewrite Nat.min_l in H1. }
    rewrite <- Hm.
    eapply Hp; [|apply extend_if_prefix].
    eapply Hp; [|apply extend_if_prefix].
    eapply Hp; [|apply extend_if_prefix].
    eapply Hp; [|apply extend_if_prefix].
    apply extend_if_prefix.
  - right. split; [by eexists|]. apply generate_loop_length.
Qed.

(** With nothing brought by the servers the collection is the 45
    simulated records, and the generator takes over. *)
Lemma get_real_time_data_synthetic `{RS : PyRandom} `{NW : !Network} (s : pystate) :
  offline NW ->
  let s1 := (get_market_data s).2 in
  let s2 := (get_crypto_data s1).2 in
  let s3 := (get_weather_stations_data s2).2 in
  let s4 := (get_earthquake_data s3).2 in
  let s5 := (get_nyc_open_data s4).2 in
  let s6 := (get_github_activity_data s5).2 in
  get_real_time_data s = generate_large_realistic_dataset 5000 s6.
Proof.
  intros Hoff. cbv zeta.
  unfold get_real_time_data. generalize 5000%nat. intros size.
  unfold mbind, mret, gen_bind, gen_ret, Gen.bind, Gen.ret.
  pose proof (get_market_data_length s) as Hm.
  destruct (get_market_data s) as [market s1]. cbn [fst snd] in *.
  destruct (Hoff s1) as (Hc & _).
  destruct (get_crypto_data s1) as [crypto s2]. cbn [fst snd] in *.
  pose proof (get_weather_stations_data_length s2) as Hw.
  destruct (get_weather_stations_data s2) as [weather s3]. cbn [fst snd] in *.
  destruct (Hoff s3) as (_ & Hq & _).
  destruct (get_earthquake_data s3) as [quake s4]. cbn [fst snd] in *.
  destruct (Hoff s4) as (_ & _ & Hn & _).
  destruct (get_nyc_open_data s4) as [nyc s5]. cbn [fst snd] in *.
  destruct (Hoff s5) as (_ & _ & _ & Hg).
  destruct (get_github_activity_data s5) as [github s6]. cbn [fst snd] in *.
  rewrite (extend_if_all [] market) by lia. cbn [app].
  rewrite (extend_if_nothing market crypto) by done.
  rewrite (extend_if_all market weather) by lia.
  rewrite !extend_if_nothing by done.
  rewrite decide_False; [done|]. rewrite length_app. lia.
Qed.

(** X7. Without a network the live source is purely synthetic: when the
    four server-backed sources bring nothing, the 45 simulated market and
    weather records are below the threshold of 100 and are discarded, and
    the result is [generate_large_realistic_dataset(5000)] run from the
    state in which the six sources leave the random module. *)
Theorem get_real_time_data_offline `{RS : PyRandom} `{NW : !Network} (s : pystate) :
  offline NW ->
  let s1 := (get_market_data s).2 in
  let s2 := (get_crypto_data s1).2 in
  let s3 := (get_weather_stations_data s2).2 in
  let s4 := (get_earthquake_data s3).2 in
  let s5 := (get_nyc_open_data s4).2 in
  let s6 := (get_github_activity_data s5).2 in
  get_real_time_data s = generate_large_realistic_dataset 5000 s6.
Proof. intros Hoff. exact (get_real_time_data_synthetic s Hoff). Qed.

Lemma get_real_time_data_offline_witness :
  let s : Scripted.s_pystate := ([], []) in
  offline unreachable_network
  /\ get_real_time_data (RS := Scripted.random) (NW := unreachable_network) s
     = generate_large_realistic_dataset (RS := Scripted.random) 5000
         (get_weather_stations_data (RS := Scripted.random)
            (get_market_data (RS := Scripted.random) s).2).2.
Proof.
  intros s.
  assert (Hoff : offline unreachable_network).
  { intros s0. repeat split; by right. }
  split; [exact Hoff|].
  exact (get_real_time_data_offline (NW := unreachable_network) s Hoff).
Defined.

(** ** Down-sampling and the fallback fill *)

Section SamplingProperties.
Context {L : Library}.

Lemma downsample_len cap data df :
  downsample cap (from_records data) = Ok df -> len df = Nat.min (length data) cap.
Proof.
  intros Hdf. destruct (decide (cap < length data)%nat) as [Hcap|Hcap].
  - destruct (downsample_large cap (from_records data)) as (df' & Hdf' & Hlen).
    { by rewrite len_from_records. }
    rewrite Hdf in Hdf'. injection Hdf' as <-. lia.
  - rewrite downsample_small in Hdf by (rewrite len_from_records; lia).
    injection Hdf as <-. rewrite len_from_records. lia.
Qed.

Lemma uniform_between lo hi n g :
  lo < hi ->
  exists xs, (Eng.uniform (Some lo) (Some hi) n g).1 = Ok (Some <$> xs)
             /\ (Eng.uniform (Some lo) (Some hi) n g).2 = (np_random_sample n g).2
             /\ length xs = n /\ Forall (fun x => lo <= x < hi) xs.
Proof.
  intros Hlt. unfold Eng.uniform.
  pose proof (np_random_sample_length n g) as Hlen.
  pose proof (np_random_sample_range n g) as Hrange.
  destruct (np_random_sample n g) as [us g']. cbn [fst snd] in *.
  exists ((fun u => lo + (hi - lo) * u) <$> us).
  split; [by rewrite <- list_fmap_compose|]. split; [done|].
  split; [by rewrite length_fmap|].
  apply Forall_fmap. eapply Forall_impl; [exact Hrange|]. intros u Hu. simpl. nra.
Qed.

End SamplingProperties.

(** X8. The sample-to-cap of every engine never fails and never
    duplicates or invents a record: from [n] records it keeps
    [min(n, cap)] rows under the columns of the input, the index labels of
    the rows are pairwise different, and each row is the input record
    that its label names. *)
Theorem downsample_without_replacement `{L : Library} (cap : nat) (data : list dict) :
  exists df,
    downsample cap (from_records data) = Ok df
    /\ len df = Nat.min (length data) cap
    /\ columns df = columns (from_records data)
    /\ NoDup (rows df).*1
    /\ Forall (fun row => data !! row.1 = Some row.2) (rows df).
Proof.
  destruct (downsample_ok cap (from_records data)) as [df Hdf].
  exists df. split; [done|]. split; [by apply downsample_len|].
  destruct (downsample_from_records _ _ _ Hdf) as (Hcols & Hlabels & Hrows).
  split; [done|]. split; [|done].
  rewrite Hlabels. case_decide.
  - apply sample_locs_NoDup. lia.
  - apply NoDup_seq.
Qed.

(** The fill of a missing column, row by row. *)
Lemma ensure_column_fills_run `{L : Library}
    (k : string) (lo hi : R) (df : DataFrame) (g : rng) :
  lo < hi -> has_column k df = false ->
  exists df',
    ensure_column k lo hi df g = (Ok df', (np_random_sample (len df) g).2)
    /\ columns df' = {[ k ]} ∪ columns df
    /\ Forall2 (filled_row k lo hi) (rows df) (rows df').
Proof.
  intros Hlt Hk. unfold ensure_column. rewrite Hk, bind_run.
  destruct (uniform_between lo hi (len df) g Hlt) as (xs & Hxs & Hg & Hlen & Hrange).
  destruct (Eng.uniform (Some lo) (Some hi) (len df) g) as [r g']. cbn [fst snd] in *.
  subst r g'. eexists. split; [reflexivity|]. split; [done|].
  unfold assign. cbn [rows]. unfold len in Hlen. clear Hk.
  revert xs Hlen Hrange. induction (rows df) as [|row rs IH]; intros xs Hlen Hrange.
  { destruct xs; [constructor|done]. }
  destruct xs as [|x xs]; [done|].
  apply Forall_cons in Hrange as [Hx Hrange]. rewrite fmap_cons. cbn [zip_with].
  constructor; [|apply IH; [simpl in Hlen; lia|done]].
  split; [done|]. split.
  - exists x. cbn [snd]. by rewrite lookup_insert_eq.
  - intros key Hkey. cbn [snd]. by rewrite lookup_insert_ne.
Qed.

(** X9. The fallback fill of a missing column [k] with bounds [lo < hi]
    draws [len(df)] numbers from numpy's global generator, advances it by
    exactly that draw, and returns the frame with the one column added:
    every row keeps its label and all its other cells, and gets a number
    of [[lo, hi)] in column [k]. *)
Theorem ensure_column_fills `{L : Library}
    (k : string) (lo hi : R) (df : DataFrame) (g : rng) :
  lo < hi -> has_column k df = false ->
  exists df',
    ensure_column k lo hi df g = (Ok df', (np_random_sample (len df) g).2)
    /\ columns df' = {[ k ]} ∪ columns df
    /\ Forall2 (filled_row k lo hi) (rows df) (rows df').
Proof. intros Hlt Hk. exact (ensure_column_fills_run k lo hi df g Hlt Hk). Qed.

Lemma ensure_column_fills_witness :
  let df := from_records no_impact_example in
  20 < 90 /\ has_column IMPACT df = false
  /\ exists df',
       ensure_column (L := Scripted.library 3) IMPACT 20 90 df [4; 0; 9]%nat
       = (Ok df', [])
       /\ Forall2 (filled_row IMPACT 20 90) (rows df) (rows df').
Proof.
  intros df.
  assert (Hlt : 20 < 90) by lra.
  assert (Hk : has_column IMPACT df = false) by reflexivity.
  split; [exact Hlt|]. split; [exact Hk|].
  destruct (ensure_column_fills (L := Scripted.library 3) IMPACT 20 90 df
              [4; 0; 9]%nat Hlt Hk) as (df' & Hrun & _ & Hrows).
  exists df'. split; [exact Hrun|exact Hrows].
Defined.

(** ** The spiral tunnel on numeric records *)

Section SeriesLemmas.

Lemma foldr_Rmin_lower x l y : y ∈ x :: l -> foldr Rmin x l <= y.
Proof.
  induction l as [|z l IH]; simpl.
  - intros ->%list_elem_of_singleton. lra.
  - intros Hy. pose proof (Rmin_l z (foldr Rmin x l)). pose proof (Rmin_r z (foldr Rmin x l)).
    apply elem_of_cons in Hy as [->|Hy]; [|apply elem_of_cons in Hy as [->|Hy]].
    + etrans; [eassumption|]. apply IH. left.
    + done.
    + etrans; [eassumption|]. apply IH. by right.
Qed.

Lemma foldr_Rmax_upper x l y : y ∈ x :: l -> y <= foldr Rmax x l.
Proof.
  induction l as [|z l IH]; simpl.
  - intros ->%list_elem_of_singleton. lra.
  - intros Hy. pose proof (Rmax_l z (foldr Rmax x l)). pose proof (Rmax_r z (foldr Rmax x l)).
    apply elem_of_cons in Hy as [->|Hy]; [|apply elem_of_cons in Hy as [->|Hy]].
    + etrans; [|eassumption]. apply IH. left.
    + done.
    + etrans; [|eassumption]. apply IH. by right.
Qed.

Lemma elem_of_dropna s x : Some x ∈ s -> x ∈ dropna s.
Proof. intros H. unfold dropna. apply list_elem_of_omap. by exists (Some x). Qed.

Lemma series_min_le s x : Some x ∈ s -> exists m, series_min s = Some m /\ m <= x.
Proof.
  intros H%elem_of_dropna. unfold series_min.
  destruct (dropna s) as [|y l]; [by apply not_elem_of_nil in H|].
  eexists. split; [done|]. by apply foldr_Rmin_lower.
Qed.

Lemma series_max_ge s x : Some x ∈ s -> exists m, series_max s = Some m /\ x <= m.
Proof.
  intros H%elem_of_dropna. unfold series_max.
  destruct (dropna s) as [|y l]; [by apply not_elem_of_nil in H|].
  eexists. split; [done|]. by apply foldr_Rmax_upper.
Qed.

(** A cell of a column, normalised by the column's range, lies in [[0, 1)]. *)
Lemma normalized_range s x :
  Some x ∈ s ->
  exists v,
    fdiv (fsub (Some x) (series_min s))
         (fadd (fsub (series_max s) (series_min s)) (Some EPSILON)) = Some v
    /\ 0 <= v < 1.
Proof.
  intros Hx. destruct (series_min_le s x Hx) as (m & -> & Hm).
  destruct (series_max_ge s x Hx) as (M & -> & HM).
  pose proof EPSILON_pos as He. eexists. split; [reflexivity|].
  assert (Hd : 0 < M - m + EPSILON) by lra.
  split.
  - apply Rmult_le_pos; [lra|]. left. by apply Rinv_0_lt_compat.
  - apply Rmult_lt_reg_r with (M - m + EPSILON); [done|].
    unfold Rdiv. rewrite Rmult_assoc, Rinv_l by lra. lra.
Qed.

Lemma tunnel_radius_range growth x :
  Some x ∈ growth ->
  exists r, tunnel_radius growth (Some x) = Some r /\ 40 <= r < 60.
Proof.
  intros Hx. unfold tunnel_radius.
  destruct (normalized_range growth x Hx) as (v & -> & Hv).
  eexists. split; [reflexivity|]. lra.
Qed.

(** On a constant column the normalised cell is 0. *)
Lemma tunnel_radius_flat growth c :
  Some c ∈ growth -> Forall (fun gk => gk = Some c) growth ->
  tunnel_radius growth (Some c) = Some 40.
Proof.
  intros Hc Hall. unfold tunnel_radius.
  destruct (series_min_le growth c Hc) as (m & Hmin & Hm).
  destruct (series_max_ge growth c Hc) as (M & Hmax & HM).
  assert (Hin : forall y, y ∈ dropna growth -> y = c).
  { intros y Hy. unfold dropna in Hy. apply list_elem_of_omap in Hy as (a & Ha & Hy).
    rewrite Forall_forall in Hall. rewrite (Hall a Ha) in Hy. by injection Hy. }
  assert (Hmc : m = c).
  { apply Rle_antisym; [done|]. unfold series_min in Hmin.
    destruct (dropna growth) as [|y l] eqn:Hd; [done|]. injection Hmin as <-.
    clear -Hin. assert (Hy : y = c) by (apply Hin; left). subst y.
    induction l as [|z l IH]; simpl; [lra|].
    assert (z = c) as -> by (apply Hin; right; left).
    apply Rmin_glb; [lra|]. apply IH. intros y Hy. apply Hin.
    apply elem_of_cons in Hy as [->|Hy]; [left|right; by right]. }
  assert (HMc : M = c).
  { apply Rle_antisym; [|done]. unfold series_max in Hmax.
    destruct (dropna growth) as [|y l] eqn:Hd; [done|]. injection Hmax as <-.
    clear -Hin. assert (Hy : y = c) by (apply Hin; left). subst y.
    induction l as [|z l IH]; simpl; [lra|].
    assert (z = c) as -> by (apply Hin; right; left).
    apply Rmax_lub; [lra|]. apply IH. intros y Hy. apply Hin.
    apply elem_of_cons in Hy as [->|Hy]; [left|right; by right]. }
  rewrite Hmin, Hmax. subst m M. simpl. f_equal.
  pose proof EPSILON_pos. field. lra.
Qed.

End SeriesLemmas.

Section SpiralTunnelProperties.
Context {L : Library}.

(** The run of the engine on records that carry the three numbers. *)
Lemma spiral_tunnel_numeric data g :
  data <> [] -> Forall numeric_record data ->
  exists df xs sc,
    downsample 1000 (from_records data) = Ok df
    /\ Forall (fun row => numeric_record row.2) (rows df)
    /\ numeric_column GROWTH df = Ok (Some <$> xs)
    /\ create_spiral_tunnel_visualization data g
       = (spiral_tunnel_figure df (Some <$> xs), g)
    /\ fig_data (spiral_tunnel_figure df (Some <$> xs)) = [TScatter3d sc]
    /\ len df = Nat.min (length data) 1000
    /\ length (sc_x sc) = len df /\ length (sc_y sc) = len df
    /\ length (sc_z sc) = len df
    /\ forall k, (k < len df)%nat ->
         exists x theta h,
           xs !! k = Some x
           /\ linspace 0 (6 * 2 * PI) (len df) !! k = Some theta
           /\ 0 <= theta <= 12 * PI /\ 0 <= h <= 100
           /\ sc_x sc !! k
              = Some (fmul (tunnel_radius (Some <$> xs) (Some x)) (Some (cos theta)))
           /\ sc_y sc !! k
              = Some (fmul (tunnel_radius (Some <$> xs) (Some x)) (Some (sin theta)))
           /\ sc_z sc !! k = Some (Some h).
Proof.
  intros Hne Hnum.
  destruct (downsample_ok 1000 (from_records data)) as [df Hdf].
  destruct (numeric_data_frame _ _ _ Hne Hnum Hdf) as (Hg & Hv & Hi & Hrows).
  destruct (numeric_column_all_numbers GROWTH df) as (xs & Hgrowth & Hxs).
  { eapply Forall_impl; [exact Hrows|]. by intros row (Hx & _). }
  destruct (spiral_tunnel_figure_points _ _ Hgrowth)
    as (sc & Hsc & Hx & Hy & Hz & Hpoints).
  exists df, xs, sc. split; [done|]. split; [done|]. split; [done|]. split.
  { unfold create_spiral_tunnel_visualization, Eng.guarded.
    by rewrite (spiral_tunnel_body_present _ _ _ Hne Hdf Hg Hv Hi), Hgrowth. }
  split; [done|]. split; [by apply downsample_len|].
  split; [done|]. split; [done|].
  split; [by rewrite Hz, length_fmap, length_linspace|].
  intros k Hk.
  destruct (lookup_lt_is_Some_2 (rows df) k Hk) as [row Hrow].
  destruct (Hpoints k row Hrow) as (gk & theta & h & Hgk & Htheta & Hh & Hxk & Hyk & Hzk & _).
  destruct (numeric_column_lookup _ _ _ _ _ Hgrowth Hrow) as (gk' & Hlook & Hgk').
  rewrite Hgk in Hgk'. injection Hgk' as <-.
  rewrite list_lookup_fmap in Hlook.
  destruct (xs !! k) as [x|] eqn:Hxk'; [|done]. injection Hlook as <-.
  exists x, theta, h. split; [done|]. split; [done|].
  pose proof PI_RGT_0 as Hpi.
  pose proof (linspace_between 0 (6 * 2 * PI) (len df) theta ltac:(lra)
                ltac:(by eapply list_elem_of_lookup_2)).
  pose proof (linspace_between 0 100 (len df) h ltac:(lra)
                ltac:(by eapply list_elem_of_lookup_2)).
  split; [lra|]. done.
Qed.

End SpiralTunnelProperties.

(** X10. On records that carry the three numbers the spiral tunnel never
    shows the error scene and leaves numpy's global generator as it found
    it: the figure is one trace of [min(n, 1000)] points, and every point
    is [(r cos theta, r sin theta, h)] with a radius [40 <= r <= 60], an
    angle within the six turns and a height within [[0, 100]]. *)
Theorem spiral_tunnel_geometry `{L : Library} (data : list dict) (g : rng) :
  data <> [] -> Forall numeric_record data ->
  exists fig sc,
    create_spiral_tunnel_visualization data g = (fig, g)
    /\ fig_data fig = [TScatter3d sc]
    /\ length (sc_x sc) = Nat.min (length data) 1000
    /\ length (sc_y sc) = Nat.min (length data) 1000
    /\ length (sc_z sc) = Nat.min (length data) 1000
    /\ Forall tunnel_wall_point (zip (zip (sc_x sc) (sc_y sc)) (sc_z sc)).
Proof.
  intros Hne Hnum.
  destruct (spiral_tunnel_numeric data g Hne Hnum)
    as (df & xs & sc & _ & _ & _ & Hrun & Hsc & Hlen & Hx & Hy & Hz & Hpoints).
  eexists _, sc. split; [exact Hrun|]. split; [exact Hsc|].
  rewrite <- Hlen. split; [done|]. split; [done|]. split; [done|].
  apply Forall_lookup. intros k [[x y] z] Hk.
  apply lookup_zip_with_Some in Hk as (xy & z' & [= <- <-] & Hxy & Hzk).
  apply lookup_zip_with_Some in Hxy as (x' & y' & [= <- <-] & Hxk & Hyk).
  assert (Hlt : (k < len df)%nat) by (apply lookup_lt_Some in Hxk; lia).
  destruct (Hpoints k Hlt) as (v & theta & h & Hv & _ & Htheta & Hh & Hxk' & Hyk' & Hzk').
  destruct (tunnel_radius_range (Some <$> xs) v) as (r & Hr & Hrange).
  { apply list_elem_of_fmap. exists v. split; [done|]. by eapply list_elem_of_lookup_2. }
  rewrite Hr in Hxk', Hyk'. exists r, theta, h.
  split; [|split; [lra|done]]. rewrite Hxk in Hxk'. rewrite Hyk in Hyk'. rewrite Hzk in Hzk'.
  injection Hxk' as ->. injection Hyk' as ->. by injection Hzk' as ->.
Qed.

Lemma spiral_tunnel_geometry_witness :
  wave_example <> [] /\ Forall numeric_record wave_example
  /\ exists fig sc,
       create_spiral_tunnel_visualization (L := Scripted.library 3) wave_example []
       = (fig, [])
       /\ fig_data fig = [TScatter3d sc]
       /\ Forall tunnel_wall_point (zip (zip (sc_x sc) (sc_y sc)) (sc_z sc)).
Proof.
  assert (Hne : wave_example <> []) by done.
  assert (Hnum : Forall numeric_record wave_example).
  { repeat constructor; eexists; unfold GROWTH, VALUATION, IMPACT; by simplify_map_eq. }
  split; [exact Hne|]. split; [exact Hnum|].
  destruct (spiral_tunnel_geometry (L := Scripted.library 3) wave_example [] Hne Hnum)
    as (fig & sc & Hrun & Hsc & _ & _ & _ & Hpoints).
  exists fig, sc. split; [exact Hrun|]. split; [exact Hsc|exact Hpoints].
Defined.

(** X11. When every record has the same growth rate (a single record
    included) the guarded normalisation gives 0 for all of them and the
    tunnel is a helix of radius exactly 40:
    [x = 40 cos theta], [y = 40 sin theta] over
    [theta = linspace(0, 12 pi, min(n, 1000))]. *)
Theorem spiral_tunnel_flat_growth `{L : Library} (data : list dict) (g : rng) (c : R) :
  data <> [] -> Forall numeric_record data ->
  Forall (fun r => r !! GROWTH = Some (VNum c)) data ->
  exists fig sc,
    create_spiral_tunnel_visualization data g = (fig, g)
    /\ fig_data fig = [TScatter3d sc]
    /\ let theta := linspace 0 (6 * 2 * PI) (Nat.min (length data) 1000) in
       sc_x sc = (fun t => Some (40 * cos t)) <$> theta
       /\ sc_y sc = (fun t => Some (40 * sin t)) <$> theta.
Proof.
  intros Hne Hnum Hflat.
  destruct (spiral_tunnel_numeric data g Hne Hnum)
    as (df & xs & sc & Hdf & _ & Hgrowth & Hrun & Hsc & Hlen & Hx & Hy & Hz & Hpoints).
  eexists _, sc. split; [exact Hrun|]. split; [exact Hsc|].
  rewrite <- Hlen. cbv zeta.
  assert (Hxs : Forall (fun x => x = c) xs).
  { apply Forall_lookup. intros k x Hk.
    assert (Hlt : (k < len df)%nat).
    { apply lookup_lt_Some in Hk.
      pose proof (numeric_column_length _ _ _ Hgrowth) as Hl.
      rewrite length_fmap in Hl. lia. }
    destruct (lookup_lt_is_Some_2 (rows df) k Hlt) as [row Hrow].
    destruct (numeric_column_lookup _ _ _ _ _ Hgrowth Hrow) as (gk & Hlook & Hgk).
    rewrite list_lookup_fmap, Hk in Hlook. injection Hlook as <-.
    apply downsample_from_records in Hdf as (_ & _ & Hrows).
    rewrite Forall_forall in Hrows. rewrite Forall_forall in Hflat.
    pose proof (Hrows row ltac:(by eapply list_elem_of_lookup_2)) as Hrec.
    pose proof (Hflat row.2 ltac:(by eapply list_elem_of_lookup_2)) as Hcell.
    rewrite Hcell in Hgk. by injection Hgk. }
  assert (Hpoint : forall k, (k < len df)%nat ->
            exists theta, linspace 0 (6 * 2 * PI) (len df) !! k = Some theta
                          /\ sc_x sc !! k = Some (Some (40 * cos theta))
                          /\ sc_y sc !! k = Some (Some (40 * sin theta))).
  { intros k Hk.
    destruct (Hpoints k Hk) as (x & theta & h & Hxk & Htheta & _ & _ & Hxk' & Hyk' & _).
    rewrite Forall_lookup in Hxs. pose proof (Hxs k x Hxk) as ->.
    rewrite (tunnel_radius_flat (Some <$> xs) c) in Hxk', Hyk'.
    - by exists theta.
    - apply list_elem_of_fmap. exists c. split; [done|]. by eapply list_elem_of_lookup_2.
    - apply Forall_fmap, Forall_lookup. intros j y Hj. simpl. f_equal. by eapply Hxs.
    - apply list_elem_of_fmap. exists c. split; [done|]. by eapply list_elem_of_lookup_2.
    - apply Forall_fmap, Forall_lookup. intros j y Hj. simpl. f_equal. by eapply Hxs. }
  split; apply list_eq; intros k; rewrite list_lookup_fmap;
    (destruct (decide (k < len df)%nat) as [Hk|Hk];
     [destruct (Hpoint k Hk) as (theta & -> & Hxk & Hyk); done
     |rewrite !lookup_ge_None_2; [done|rewrite length_linspace; lia|lia]]).
Qed.

Lemma spiral_tunnel_flat_growth_witness :
  flat_growth_example <> [] /\ Forall numeric_record flat_growth_example
  /\ Forall (fun r => r !! GROWTH = Some (VNum 120)) flat_growth_example
  /\ exists fig sc,
       create_spiral_tunnel_visualization (L := Scripted.library 3)
         flat_growth_example [] = (fig, [])
       /\ fig_data fig = [TScatter3d sc]
       /\ sc_x sc = (fun t => Some (40 * cos t)) <$> linspace 0 (6 * 2 * PI) 3.
Proof.
  assert (Hne : flat_growth_example <> []) by done.
  assert (Hnum : Forall numeric_record flat_growth_example).
  { repeat constructor; eexists; unfold GROWTH, VALUATION, IMPACT; by simplify_map_eq. }
  assert (Hflat : Forall (fun r => r !! GROWTH = Some (VNum 120)) flat_growth_example).
  { repeat constructor. }
  split; [exact Hne|]. split; [exact Hnum|]. split; [exact Hflat|].
  destruct (spiral_tunnel_flat_growth (L := Scripted.library 3) flat_growth_example []
              120 Hne Hnum Hflat) as (fig & sc & Hrun & Hsc & Hx & _).
  exists fig, sc. split; [exact Hrun|]. split; [exact Hsc|exact Hx].
Defined.

(** ** A text where a number is expected *)

Section TextCells.
Context {L : Library}.

(** A text cell makes the arithmetic on its column raise. *)
Lemma numeric_column_text k df row s :
  row ∈ rows df -> row.2 !! k = Some (VStr s) -> numeric_column k df = Raise.
Proof.
  intros Hrow Hcell. destruct (numeric_column k df) as [xs|] eqn:Hcol; [|done].
  apply list_elem_of_lookup in Hrow as [i Hi].
  destruct (numeric_column_lookup _ _ _ _ _ Hcol Hi) as (x & _ & Hx).
  by rewrite Hcell in Hx.
Qed.

Lemma frame_extends_cell df df' k row :
  frame_extends df df' -> k ∈ columns df -> row ∈ rows df ->
  exists row', row' ∈ rows df' /\ row'.2 !! k = row.2 !! k.
Proof.
  intros [_ Hrows] Hk Hrow. apply list_elem_of_lookup in Hrow as [i Hi].
  destruct (Forall2_lookup_l _ _ _ _ _ Hrows Hi) as (row' & Hi' & _ & Hcells).
  exists row'. split; [by eapply list_elem_of_lookup_2|]. by apply Hcells.
Qed.

(** The frame of an engine whose input, within the cap, holds a text in
    column [k]: the arithmetic on that column raises whatever was filled. *)
Lemma text_cell_raises cap data df0 df k :
  (length data <= cap)%nat ->
  (exists r s, r ∈ data /\ r !! k = Some (VStr s)) ->
  downsample cap (from_records data) = Ok df0 -> frame_extends df0 df ->
  numeric_column k df = Raise.
Proof.
  intros Hcap (r & s & Hr & Hcell) Hdf0 Hext.
  rewrite downsample_small in Hdf0 by (by rewrite len_from_records).
  injection Hdf0 as <-.
  apply list_elem_of_lookup in Hr as [i Hi].
  destruct (frame_extends_cell (from_records data) df k (i, r) Hext) as (row' & Hrow' & Hk).
  - apply elem_of_columns_from_records. exists r.
    split; [by eapply list_elem_of_lookup_2|]. by rewrite Hcell.
  - eapply list_elem_of_lookup_2. rewrite rows_from_records_lookup, Hi. done.
  - eapply numeric_column_text; [exact Hrow'|]. rewrite Hk. exact Hcell.
Qed.

(** What each of the four growth-driven engines has computed when it
    returns normally: the growth column of its frame, as numbers. *)
Lemma wave_surface_body_growth data g fig g' :
  wave_surface_body data g = (Ok fig, g') ->
  exists df0 df growth,
    downsample 1500 (from_records data) = Ok df0 /\ frame_extends df0 df
    /\ numeric_column GROWTH df = Ok growth.
Proof.
  unfold wave_surface_body. destruct data as [|r data]; [done|]. intros H.
  apply bind_ok in H as (df0 & g0 & H0 & H). apply lift_ok in H0 as [H0 ->].
  apply bind_ok in H as (df1 & g1 & H1 & H).
  apply bind_ok in H as (df2 & g2 & H2 & H).
  apply bind_ok in H as (df3 & g3 & H3 & H).
  apply bind_ok in H as (growth & g4 & H4 & H). apply lift_ok in H4 as [H4 ->].
  destruct (ensure_column_run GROWTH 50 200 df0 g) as (? & ? & E1 & X1 & _).
  destruct (ensure_column_run VALUATION 1 50 df1 g1) as (? & ? & E2 & X2 & _).
  destruct (ensure_column_run IMPACT 20 90 df2 g2) as (? & ? & E3 & X3 & _).
  rewrite H1 in E1. rewrite H2 in E2. rewrite H3 in E3.
  injection E1 as <- <-. injection E2 as <- <-. injection E3 as <- <-.
  exists df0, df3, growth. eauto 10 using frame_extends_trans.
Qed.

Lemma ripple_bubbles_body_growth data g fig g' :
  ripple_bubbles_body data g = (Ok fig, g') ->
  exists df0 df growth,
    downsample 800 (from_records data) = Ok df0 /\ frame_extends df0 df
    /\ numeric_column GROWTH df = Ok growth.
Proof.
  unfold ripple_bubbles_body. destruct data as [|r data]; [done|]. intros H.
  apply bind_ok in H as (df0 & g0 & H0 & H). apply lift_ok in H0 as [H0 ->].
  apply bind_ok in H as (df1 & g1 & H1 & H).
  apply bind_ok in H as (df2 & g2 & H2 & H).
  apply bind_ok in H as (df3 & g3 & H3 & H).
  apply bind_ok in H as (valuation & g4 & H4 & H). apply lift_ok in H4 as [H4 ->].
  apply bind_ok in H as (growth & g5 & H5 & H). apply lift_ok in H5 as [H5 ->].
  destruct (ensure_column_run GROWTH 50 200 df0 g) as (? & ? & E1 & X1 & _).
  destruct (ensure_column_run VALUATION 1 50 df1 g1) as (? & ? & E2 & X2 & _).
  destruct (ensure_column_run IMPACT 20 90 df2 g2) as (? & ? & E3 & X3 & _).
  rewrite H1 in E1. rewrite H2 in E2. rewrite H3 in E3.
  injection E1 as <- <-. injection E2 as <- <-. injection E3 as <- <-.
  exists df0, df3, growth. eauto 10 using frame_extends_trans.
Qed.

Lemma undulating_wave_body_growth data g fig g' :
  undulating_wave_body data g = (Ok fig, g') ->
  exists df0 df growth,
    downsample 1200 (from_records data) = Ok df0 /\ frame_extends df0 df
    /\ numeric_column GROWTH df = Ok growth.
Proof.
  unfold undulating_wave_body. destruct data as [|r data]; [done|]. intros H.
  apply bind_ok in H as (df0 & g0 & H0 & H). apply lift_ok in H0 as [H0 ->].
  apply bind_ok in H as (df1 & g1 & H1 & H).
  apply bind_ok in H as (df2 & g2 & H2 & H).
  apply bind_ok in H as (df3 & g3 & H3 & H).
  apply bind_ok in H as (valuation & g4 & H4 & H). apply lift_ok in H4 as [H4 ->].
  apply bind_ok in H as (growth & g5 & H5 & H). apply lift_ok in H5 as [H5 ->].
  destruct (ensure_column_run GROWTH 50 200 df0 g) as (? & ? & E1 & X1 & _).
  destruct (ensure_column_run VALUATION 1 50 df1 g1) as (? & ? & E2 & X2 & _).
  destruct (ensure_column_run IMPACT 20 90 df2 g2) as (? & ? & E3 & X3 & _).
  rewrite H1 in E1. rewrite H2 in E2. rewrite H3 in E3.
  injection E1 as <- <-. injection E2 as <- <-. injection E3 as <- <-.
  exists df0, df3, growth. eauto 10 using frame_extends_trans.
Qed.

Lemma error_figure_single_origin_point title : single_origin_point (error_figure title).
Proof. by eexists. Qed.

End TextCells.

(** X12. A growth rate that is a text, in any record of an input of at
    most 800 records (so that every engine keeps all of them), turns the
    figure of each of the four engines that compute with the growth rate
    (wave surface, spiral tunnel, ripple bubbles, undulating wave) into
    its error scene, whatever the other records hold and whatever columns
    had to be filled. *)
Theorem text_growth_error_scene `{L : Library} (data : list dict) (g : rng) :
  (length data <= 800)%nat ->
  (exists r s, r ∈ data /\ r !! GROWTH = Some (VStr s)) ->
  [create_wave_surface_visualization data g; create_spiral_tunnel_visualization data g;
   create_ripple_bubbles_visualization data g;
   create_undulating_wave_visualization data g].*1
  = [error_figure "Error in Wave Surface Visualization";
     error_figure "Error in Spiral Tunnel Visualization";
     error_figure "Error in Ripple Bubbles Visualization";
     error_figure "Error in Undulating Wave Visualization"].
Proof.
  intros Hlen Htext.
  assert (Hwave : (wave_surface_body data g).1 = Raise).
  { destruct (wave_surface_body data g) as [[fig|] g'] eqn:Hrun; [|done].
    apply wave_surface_body_growth in Hrun as (df0 & df & growth & Hdf0 & Hext & Hcol).
    by rewrite (text_cell_raises 1500 data df0 df GROWTH) in Hcol by (done || lia). }
  assert (Htunnel : (spiral_tunnel_body data g).1 = Raise).
  { destruct (spiral_tunnel_body data g) as [[fig|] g'] eqn:Hrun; [|done].
    apply spiral_tunnel_body_ok in Hrun as (_ & df0 & df & growth & Hdf0 & Hext & Hcol & _).
    by rewrite (text_cell_raises 1000 data df0 df GROWTH) in Hcol by (done || lia). }
  assert (Hripple : (ripple_bubbles_body data g).1 = Raise).
  { destruct (ripple_bubbles_body data g) as [[fig|] g'] eqn:Hrun; [|done].
    apply ripple_bubbles_body_growth in Hrun as (df0 & df & growth & Hdf0 & Hext & Hcol).
    by rewrite (text_cell_raises 800 data df0 df GROWTH) in Hcol by (done || lia). }
  assert (Hundulating : (undulating_wave_body data g).1 = Raise).
  { destruct (undulating_wave_body data g) as [[fig|] g'] eqn:Hrun; [|done].
    apply undulating_wave_body_growth in Hrun as (df0 & df & growth & Hdf0 & Hext & Hcol).
    by rewrite (text_cell_raises 1200 data df0 df GROWTH) in Hcol by (done || lia). }
  unfold create_wave_surface_visualization, create_spiral_tunnel_visualization,
    create_ripple_bubbles_visualization, create_undulating_wave_visualization,
    Eng.guarded.
  destruct (wave_surface_body data g) as [[?|] ?]; [done|].
  destruct (spiral_tunnel_body data g) as [[?|] ?]; [done|].
  destruct (ripple_bubbles_body data g) as [[?|] ?]; [done|].
  destruct (undulating_wave_body data g) as [[?|] ?]; [done|].
  reflexivity.
Qed.

Lemma text_growth_error_scene_witness :
  (length text_growth_example <= 800)%nat
  /\ (exists r s, r ∈ text_growth_example /\ r !! GROWTH = Some (VStr s))
  /\ (fun create : list dict -> Scripted.s_rng -> Figure * Scripted.s_rng =>
        (create text_growth_example []).1)
       <$> [create_wave_surface_visualization (L := Scripted.library 3);
            create_spiral_tunnel_visualization; create_ripple_bubbles_visualization;
            create_undulating_wave_visualization]
     = [error_figure "Error in Wave Surface Visualization";
        error_figure "Error in Spiral Tunnel Visualization";
        error_figure "Error in Ripple Bubbles Visualization";
        error_figure "Error in Undulating Wave Visualization"].
Proof.
  assert (Hlen : (length text_growth_example <= 800)%nat) by (simpl; lia).
  assert (Htext : exists r s, r ∈ text_growth_example /\ r !! GROWTH = Some (VStr s)).
  { eexists _, "fast". split; [left|]. reflexivity. }
  split; [exact Hlen|]. split; [exact Htext|].
  exact (text_growth_error_scene (L := Scripted.library 3) text_growth_example []
           Hlen Htext).
Defined.

(** ** Ripple bubbles and undulating wave on numeric records; the generator afterwards *)

Section NumericFrames.
Context {L : Library}.

(** The frame of an engine on records that carry the three numbers. *)
Lemma numeric_frame cap data :
  data <> [] -> Forall numeric_record data ->
  exists df growth valuation impact,
    downsample cap (from_records data) = Ok df
    /\ has_column GROWTH df = true /\ has_column VALUATION df = true
    /\ has_column IMPACT df = true
    /\ numeric_column GROWTH df = Ok (Some <$> growth)
    /\ numeric_column VALUATION df = Ok (Some <$> valuation)
    /\ numeric_column IMPACT df = Ok (Some <$> impact)
    /\ len df = Nat.min (length data) cap
    /\ length growth = len df /\ length valuation = len df /\ length impact = len df.
Proof.
  intros Hne Hnum.
  destruct (downsample_ok cap (from_records data)) as [df Hdf].
  destruct (numeric_data_frame _ _ _ Hne Hnum Hdf) as (Hg & Hv & Hi & Hrows).
  destruct (numeric_column_all_numbers GROWTH df) as (gs & Hgs & Hlg).
  { eapply Forall_impl; [exact Hrows|]. by intros row (Hx & _). }
  destruct (numeric_column_all_numbers VALUATION df) as (vs & Hvs & Hlv).
  { eapply Forall_impl; [exact Hrows|]. by intros row (_ & Hx & _). }
  destruct (numeric_column_all_numbers IMPACT df) as (ims & Hims & Hli).
  { eapply Forall_impl; [exact Hrows|]. by intros row (_ & _ & Hx). }
  exists df, gs, vs, ims. pose proof (downsample_len _ _ _ Hdf). eauto 15.
Qed.

Lemma uniform_within lo hi n g :
  lo <= hi ->
  exists xs, Eng.uniform (Some lo) (Some hi) n g
             = (Ok (Some <$> xs), (np_random_sample n g).2)
             /\ length xs = n /\ Forall (fun x => lo <= x <= hi) xs
             /\ (lo < hi -> Forall (fun x => lo <= x < hi) xs).
Proof.
  intros Hle. unfold Eng.uniform.
  pose proof (np_random_sample_length n g) as Hlen.
  pose proof (np_random_sample_range n g) as Hrange.
  destruct (np_random_sample n g) as [us g']. cbn [fst snd] in *.
  exists ((fun u => lo + (hi - lo) * u) <$> us).
  split; [by rewrite <- list_fmap_compose|].
  split; [by rewrite length_fmap|]. split; [|intros Hlt].
  - apply Forall_fmap. eapply Forall_impl; [exact Hrange|]. intros u Hu. simpl. nra.
  - apply Forall_fmap. eapply Forall_impl; [exact Hrange|]. intros u Hu. simpl. nra.
Qed.

Lemma uniform_formula lo hi n g :
  Eng.uniform (Some lo) (Some hi) n g
  = (Ok ((fun u => Some (lo + (hi - lo) * u)) <$> (np_random_sample n g).1),
     (np_random_sample n g).2).
Proof. unfold Eng.uniform. by destruct (np_random_sample n g). Qed.

Lemma validate_marker_size_numbers sizes :
  Forall is_Some sizes -> validate_marker_size sizes = Ok tt.
Proof.
  intros Hall. unfold validate_marker_size.
  replace (forallb _ sizes) with true; [done|]. symmetry.
  apply forallb_forall. intros a Ha%list_elem_of_In.
  rewrite Forall_forall in Hall. by destruct (Hall a Ha) as [x ->].
Qed.

Lemma ripple_bubble_size_within valuation :
  Forall (within 6 30) (ripple_bubble_size (Some <$> valuation)).
Proof.
  unfold ripple_bubble_size. rewrite <- list_fmap_compose.
  apply Forall_fmap, Forall_forall. intros v _. simpl. eexists. split; [reflexivity|].
  unfold Rmin, Rmax. repeat destruct (Rle_dec _ _); lra.
Qed.

Lemma within_is_Some lo hi a : within lo hi a -> is_Some a.
Proof. intros (x & -> & _). by eexists. Qed.

Lemma ripple_z_within f i : within 0.1 0.9 (Some (ripple_z 60 f i)).
Proof.
  eexists. split; [reflexivity|]. unfold ripple_z.
  pose proof (SIN_bound (2 * PI * INR f / INR 60 + INR i * 0.2)). lra.
Qed.

(** The run of the ripple engine on numeric records. *)
Lemma ripple_bubbles_numeric data g :
  data <> [] -> Forall numeric_record data ->
  exists df valuation impact bubble_x bubble_y bubble_z,
    len df = Nat.min (length data) 800
    /\ create_ripple_bubbles_visualization data g
       = (ripple_bubbles_figure df (Some <$> valuation) (Some <$> impact)
            (Some <$> bubble_x) (Some <$> bubble_y) (Some <$> bubble_z),
          after_draws 3 (len df) (np_seed 42))
    /\ length valuation = len df
    /\ length bubble_x = len df /\ length bubble_y = len df /\ length bubble_z = len df
    /\ Forall (fun x => 0 <= x < 1) bubble_x /\ Forall (fun x => 0 <= x < 1) bubble_y
    /\ Forall (fun x => 0 <= x < 1) bubble_z.
Proof.
  intros Hne Hnum.
  destruct (numeric_frame 800 data Hne Hnum)
    as (df & gs & vs & ims & Hdf & Hg & Hv & Hi & Hgs & Hvs & Hims & Hlen & Hlg & Hlv & Hli).
  unfold create_ripple_bubbles_visualization, Eng.guarded.
  rewrite (ripple_bubbles_body_present _ _ _ Hne Hdf Hg Hv Hi), Hvs, Hgs, Hims.
  destruct (uniform_within 0 1 (len df) (np_seed 42) ltac:(lra))
    as (bx & Hbx & Hlx & _ & Hrx).
  destruct (uniform_within 0 1 (len df) (np_random_sample (len df) (np_seed 42)).2
              ltac:(lra)) as (by_ & Hby & Hly & _ & Hry).
  destruct (uniform_within 0 1 (len df)
              (np_random_sample (len df)
                 (np_random_sample (len df) (np_seed 42)).2).2 ltac:(lra))
    as (bz & Hbz & Hlz & _ & Hrz).
  exists df, vs, ims, bx, by_, bz.
  rewrite bind_run, Hbx, bind_run, Hby, bind_run, Hbz, bind_lift.
  rewrite validate_marker_size_numbers.
  2:{ eapply Forall_impl; [apply ripple_bubble_size_within|].
      intros a. apply within_is_Some. }
  cbn [mret eng_ret Eng.ret after_draws].
  repeat (split; [done|]). split; [apply Hrx; lra|]. split; [apply Hry; lra|].
  apply Hrz; lra.
Qed.

Lemma wave_height_bounded x_min x_max y_min y_max x y :
  wave_height_ok (wave_height x_min x_max y_min y_max x y).
Proof.
  intros h Hh. unfold wave_height, flift in Hh.
  destruct (fmul _ _) as [a|]; [|done]. injection Hh as <-. apply SIN_bound.
Qed.

(** Every row of the surface has 50 nodes, each a sine or NaN. *)
Lemma undulating_surface_shape valuation growth :
  Forall (fun zrow => length zrow = 50%nat /\ Forall wave_height_ok zrow)
         (undulating_surface valuation growth).2.
Proof.
  change ((undulating_surface valuation growth).2)
    with (let x := flinspace (padded_range valuation).1 (padded_range valuation).2 50 in
          let y := flinspace (padded_range growth).1 (padded_range growth).2 50 in
          zip_with (zip_with (wave_height (series_min valuation) (series_max valuation)
                                          (series_min growth) (series_max growth)))
                   (meshgrid x y).1 (meshgrid x y).2).
  cbv zeta. unfold meshgrid. cbn [fst snd].
  apply Forall_lookup. intros i zrow Hi.
  apply lookup_zip_with_Some in Hi as (xrow & yrow & -> & Hx & Hy).
  rewrite list_lookup_fmap in Hx, Hy.
  destruct (flinspace (padded_range growth).1 (padded_range growth).2 50 !! i)
    as [yi|]; [|done].
  cbn [fmap option_fmap option_map] in Hx, Hy. injection Hx as <-. injection Hy as <-.
  rewrite length_zip_with, length_fmap, length_flinspace. split; [lia|].
  apply Forall_lookup. intros j z Hj.
  apply lookup_zip_with_Some in Hj as (a & b & -> & _ & _).
  apply wave_height_bounded.
Qed.

(** The padded range of a column of numbers contains the column. *)
Lemma padded_range_numbers xs :
  xs <> [] ->
  exists lo hi,
    padded_range (Some <$> xs) = (Some lo, Some hi)
    /\ lo <= hi /\ Forall (fun x => lo <= x <= hi) xs.
Proof.
  intros Hne. destruct xs as [|x0 xs]; [done|].
  unfold padded_range. rewrite series_min_Some, series_max_Some.
  eexists _, _. split; [reflexivity|].
  assert (Hall : Forall (fun x => foldr Rmin x0 xs <= x <= foldr Rmax x0 xs) (x0 :: xs)).
  { apply Forall_forall. intros x Hx. split.
    - by apply foldr_Rmin_lower.
    - by apply foldr_Rmax_upper. }
  pose proof (Forall_inv Hall) as H0. split; [lra|].
  eapply Forall_impl; [exact Hall|]. intros x Hx. simpl in Hx. lra.
Qed.

(** The run of the undulating wave engine on numeric records. *)
Lemma undulating_wave_numeric data g :
  data <> [] -> Forall numeric_record data ->
  exists df valuation growth lo_v hi_v lo_g hi_g,
    len df = Nat.min (length data) 1200
    /\ downsample 1200 (from_records data) = Ok df
    /\ numeric_column VALUATION df = Ok (Some <$> valuation)
    /\ numeric_column GROWTH df = Ok (Some <$> growth)
    /\ padded_range (Some <$> valuation) = (Some lo_v, Some hi_v)
    /\ padded_range (Some <$> growth) = (Some lo_g, Some hi_g)
    /\ lo_v <= hi_v /\ lo_g <= hi_g
    /\ Forall (fun x => lo_v <= x <= hi_v) valuation
    /\ Forall (fun x => lo_g <= x <= hi_g) growth
    /\ create_undulating_wave_visualization data g
       = (undulating_wave_figure df (Some <$> valuation) (Some <$> growth)
            ((fun u => Some (lo_v + (hi_v - lo_v) * u))
               <$> (np_random_sample (len df) (np_seed 42)).1)
            ((fun u => Some (lo_g + (hi_g - lo_g) * u))
               <$> (np_random_sample (len df)
                      (np_random_sample (len df) (np_seed 42)).2).1),
          after_draws 2 (len df) (np_seed 42)).
Proof.
  intros Hne Hnum.
  destruct (numeric_frame 1200 data Hne Hnum)
    as (df & gs & vs & ims & Hdf & Hg & Hv & Hi & Hgs & Hvs & Hims & Hlen & Hlg & Hlv & Hli).
  assert (Hpos : (0 < len df)%nat).
  { rewrite Hlen. destruct data; [done|]. simpl. lia. }
  destruct (padded_range_numbers vs) as (lo_v & hi_v & Hpv & Hle_v & Hin_v).
  { intros ->. simpl in Hlv. lia. }
  destruct (padded_range_numbers gs) as (lo_g & hi_g & Hpg & Hle_g & Hin_g).
  { intros ->. simpl in Hlg. lia. }
  exists df, vs, gs, lo_v, hi_v, lo_g, hi_g.
  repeat (split; [done|]).
  unfold create_undulating_wave_visualization, Eng.guarded.
  rewrite (undulating_wave_body_present _ _ _ Hne Hdf Hg Hv Hi), Hvs, Hgs.
  rewrite Hpv, Hpg. cbn [fst snd after_draws].
  by rewrite bind_run, uniform_formula, bind_run, uniform_formula.
Qed.

End NumericFrames.

(** X13. On records that carry the three numbers the ripple bubbles
    engine never shows the error scene: the base trace has
    [min(n, 800)] bubbles, each inside the half-open unit cube; the sizes
    are the valuations scaled by 0.7 and clipped, so every size lies in
    [[6, 30]] and none trips plotly's validation; and each of the 60
    frames repeats the base [x], [y] and sizes and holds [min(n, 800)]
    heights, all within [[0.1, 0.9]]. *)
Theorem ripple_bubbles_geometry `{L : Library} (data : list dict) (g : rng) :
  data <> [] -> Forall numeric_record data ->
  exists fig g' base sizes,
    create_ripple_bubbles_visualization data g = (fig, g')
    /\ fig_data fig = [TScatter3d base] /\ sc_size base = AttrArray sizes
    /\ length (sc_x base) = Nat.min (length data) 800
    /\ length (sc_y base) = Nat.min (length data) 800
    /\ length (sc_z base) = Nat.min (length data) 800
    /\ Forall unit_cube_point (zip (zip (sc_x base) (sc_y base)) (sc_z base))
    /\ length sizes = Nat.min (length data) 800 /\ Forall (within 6 30) sizes
    /\ length (fig_frames fig) = 60%nat
    /\ Forall (fun frame => exists sc,
                 frame = [TScatter3d sc]
                 /\ sc_x sc = sc_x base /\ sc_y sc = sc_y base
                 /\ sc_size sc = AttrArray sizes
                 /\ length (sc_z sc) = Nat.min (length data) 800
                 /\ Forall (within 0.1 0.9) (sc_z sc))
              (fig_frames fig).
Proof.
  intros Hne Hnum.
  destruct (ripple_bubbles_numeric data g Hne Hnum)
    as (df & vs & ims & bx & by_ & bz & Hlen & Hrun & Hlv & Hlx & Hly & Hlz
        & Hrx & Hry & Hrz).
  eexists _, _, _, _. split; [exact Hrun|]. rewrite <- Hlen.
  unfold ripple_bubbles_figure. cbn [fig_data fig_frames].
  split; [reflexivity|]. cbn [sc_x sc_y sc_z sc_size]. split; [reflexivity|].
  split; [by rewrite length_fmap|]. split; [by rewrite length_fmap|].
  split; [by rewrite length_fmap|]. split.
  { apply Forall_lookup. intros k [[x y] z] Hk.
    apply lookup_zip_with_Some in Hk as (xy & z' & [= <- <-] & Hxy & Hzk).
    apply lookup_zip_with_Some in Hxy as (x' & y' & [= <- <-] & Hxk & Hyk).
    rewrite list_lookup_fmap in Hxk, Hyk, Hzk.
    destruct (bx !! k) as [x0|] eqn:Hx0; [|done].
    destruct (by_ !! k) as [y0|] eqn:Hy0; [|done].
    destruct (bz !! k) as [z0|] eqn:Hz0; [|done].
    injection Hxk as <-. injection Hyk as <-. injection Hzk as <-.
    exists x0, y0, z0. split; [done|].
    rewrite Forall_lookup in Hrx. rewrite Forall_lookup in Hry.
    rewrite Forall_lookup in Hrz.
    split; [by eapply Hrx|]. split; [by eapply Hry|by eapply Hrz]. }
  split; [unfold ripple_bubble_size; by rewrite !length_fmap|].
  split; [apply ripple_bubble_size_within|].
  split; [by rewrite length_fmap, length_seq|].
  apply Forall_fmap, Forall_forall. intros f _. cbn.
  eexists. split; [reflexivity|]. cbn [sc_x sc_y sc_z sc_size].
  split; [done|]. split; [done|]. split; [done|].
  unfold frame_bubble_z. rewrite length_fmap. split; [done|].
  apply Forall_fmap, Forall_forall. intros row _. apply ripple_z_within.
Qed.

Lemma ripple_bubbles_geometry_witness :
  wave_example <> [] /\ Forall numeric_record wave_example
  /\ exists fig g' base,
       create_ripple_bubbles_visualization (L := Scripted.library 3) wave_example []
       = (fig, g')
       /\ fig_data fig = [TScatter3d base]
       /\ Forall unit_cube_point (zip (zip (sc_x base) (sc_y base)) (sc_z base)).
Proof.
  assert (Hne : wave_example <> []) by done.
  assert (Hnum : Forall numeric_record wave_example).
  { repeat constructor; eexists; unfold GROWTH, VALUATION, IMPACT; by simplify_map_eq. }
  split; [exact Hne|]. split; [exact Hnum|].
  destruct (ripple_bubbles_geometry (L := Scripted.library 3) wave_example [] Hne Hnum)
    as (fig & g' & base & sizes & Hrun & Hbase & _ & _ & _ & _ & Hcube & _).
  exists fig, g', base. split; [exact Hrun|]. split; [exact Hbase|exact Hcube].
Defined.

(** X14. On records that carry the three numbers the undulating wave
    engine never shows the error scene. The surface is sampled on
    50 x 50 nodes over the padded ranges [[lo_v, hi_v]] of the valuations
    and [[lo_g, hi_g]] of the growth rates of the records kept, which
    contain every such record; each height, of the surface and of the
    markers, is a sine, so it lies in [[-1, 1]] unless it is NaN. The
    [min(n, 1200)] markers are not placed at the records' own values: their
    [x] and [y] are the two draws that follow [np.random.seed(42)],
    scaled to the padded ranges. *)
Theorem undulating_wave_geometry `{L : Library} (data : list dict) (g : rng) :
  data <> [] -> Forall numeric_record data ->
  let n := Nat.min (length data) 1200 in
  exists fig g' surf markers df lo_v hi_v lo_g hi_g,
    create_undulating_wave_visualization data g = (fig, g')
    /\ fig_data fig = [TSurface surf; TScatter3d markers]
    /\ downsample 1200 (from_records data) = Ok df
    /\ Forall (fun row => exists v gr,
                 row.2 !! VALUATION = Some (VNum v) /\ lo_v <= v <= hi_v
                 /\ row.2 !! GROWTH = Some (VNum gr) /\ lo_g <= gr <= hi_g)
              (rows df)
    /\ su_x surf = Arr1 (Some <$> linspace lo_v hi_v 50)
    /\ su_y surf = Arr1 (Some <$> linspace lo_g hi_g 50)
    /\ length (su_z surf) = 50%nat
    /\ Forall (fun zrow => length zrow = 50%nat /\ Forall wave_height_ok zrow) (su_z surf)
    /\ sc_x markers
       = (fun u => Some (lo_v + (hi_v - lo_v) * u)) <$> (np_random_sample n (np_seed 42)).1
    /\ sc_y markers
       = (fun u => Some (lo_g + (hi_g - lo_g) * u))
           <$> (np_random_sample n (np_random_sample n (np_seed 42)).2).1
    /\ Forall (within lo_v hi_v) (sc_x markers)
    /\ Forall (within lo_g hi_g) (sc_y markers)
    /\ length (sc_z markers) = n /\ Forall wave_height_ok (sc_z markers).
Proof.
  intros Hne Hnum n.
  destruct (undulating_wave_numeric data g Hne Hnum)
    as (df & vs & gs & lo_v & hi_v & lo_g & hi_g & Hlen & Hdf & Hvs & Hgs & Hpv & Hpg
        & Hle_v & Hle_g & Hin_v & Hin_g & Hrun).
  unfold n. rewrite <- Hlen. clear n.
  unfold undulating_wave_figure in Hrun.
  pose proof (undulating_surface_length (Some <$> vs) (Some <$> gs)) as Hrows.
  pose proof (undulating_surface_shape (Some <$> vs) (Some <$> gs)) as Hshape.
  assert (Hx : (undulating_surface (Some <$> vs) (Some <$> gs)).1.1
               = Some <$> linspace lo_v hi_v 50).
  { unfold undulating_surface. by rewrite Hpv. }
  assert (Hy : (undulating_surface (Some <$> vs) (Some <$> gs)).1.2
               = Some <$> linspace lo_g hi_g 50).
  { unfold undulating_surface. by rewrite Hpg. }
  destruct (undulating_surface (Some <$> vs) (Some <$> gs)) as [[x y] z].
  cbn [fst snd] in *. subst x y.
  eexists _, _, _, _, df, lo_v, hi_v, lo_g, hi_g. split; [exact Hrun|].
  split; [reflexivity|]. cbn [su_x su_y su_z sc_x sc_y sc_z].
  split; [done|]. split.
  { apply Forall_lookup. intros i row Hrow.
    destruct (numeric_column_lookup _ _ _ _ _ Hvs Hrow) as (xv & Hxv & Hcv).
    destruct (numeric_column_lookup _ _ _ _ _ Hgs Hrow) as (xg & Hxg & Hcg).
    rewrite list_lookup_fmap in Hxv, Hxg.
    destruct (vs !! i) as [v|] eqn:Hv; [|done]. injection Hxv as <-.
    destruct (gs !! i) as [gr|] eqn:Hg; [|done]. injection Hxg as <-.
    exists v, gr. rewrite Forall_lookup in Hin_v. rewrite Forall_lookup in Hin_g.
    destruct (row.2 !! VALUATION) as [[?|?]|]; try done. injection Hcv as ->.
    destruct (row.2 !! GROWTH) as [[?|?]|]; try done. injection Hcg as ->.
    split; [done|]. split; [by eapply Hin_v|]. split; [done|]. by eapply Hin_g. }
  split; [done|]. split; [done|]. split; [done|]. split; [done|].
  split; [done|]. split; [done|].
  pose proof (np_random_sample_range (len df) (np_seed 42)) as Hr1.
  pose proof (np_random_sample_range (len df)
                (np_random_sample (len df) (np_seed 42)).2) as Hr2.
  pose proof (np_random_sample_length (len df) (np_seed 42)) as Hl1.
  pose proof (np_random_sample_length (len df)
                (np_random_sample (len df) (np_seed 42)).2) as Hl2.
  split.
  { apply Forall_fmap. eapply Forall_impl; [exact Hr1|]. intros u Hu.
    eexists. split; [reflexivity|]. nra. }
  split.
  { apply Forall_fmap. eapply Forall_impl; [exact Hr2|]. intros u Hu.
    eexists. split; [reflexivity|]. nra. }
  split.
  { rewrite length_zip_with, !length_fmap. lia. }
  apply Forall_lookup. intros i h Hi.
  apply lookup_zip_with_Some in Hi as (a & b & -> & _ & _).
  apply wave_height_bounded.
Qed.

Lemma undulating_wave_geometry_witness :
  undulating_example <> [] /\ Forall numeric_record undulating_example
  /\ exists fig g' surf markers,
       create_undulating_wave_visualization (L := Scripted.library 3)
         undulating_example [] = (fig, g')
       /\ fig_data fig = [TSurface surf; TScatter3d markers]
       /\ length (su_z surf) = 50%nat
       /\ Forall wave_height_ok (sc_z markers).
Proof.
  assert (Hne : undulating_example <> []) by done.
  assert (Hnum : Forall numeric_record undulating_example).
  { repeat constructor; eexists; unfold GROWTH, VALUATION, IMPACT; by simplify_map_eq. }
  split; [exact Hne|]. split; [exact Hnum|].
  destruct (undulating_wave_geometry (L := Scripted.library 3) undulating_example []
              Hne Hnum)
    as (fig & g' & surf & markers & df & lo_v & hi_v & lo_g & hi_g & Hrun & Hfig & _ & _
        & _ & _ & Hlen & _ & _ & _ & _ & _ & _ & Hz).
  exists fig, g', surf, markers. split; [exact Hrun|]. split; [exact Hfig|].
  split; [exact Hlen|exact Hz].
Defined.

(** X15. What rendering does to numpy's global generator, on records
    that carry the three numbers: the spiral tunnel, the wave surface and
    the geolocation spiral leave it as they found it; the ripple bubbles
    and the undulating wave reseed it and leave it where three,
    respectively two, draws of [min(n, cap)] numbers after
    [np.random.seed(42)] end, whatever its state was before. *)
Theorem generator_state_after_rendering `{L : Library} (data : list dict) (g : rng) :
  data <> [] -> Forall numeric_record data ->
  (create_spiral_tunnel_visualization data g).2 = g
  /\ (create_wave_surface_visualization data g).2 = g
  /\ (create_geolocation_visualization data g).2 = g
  /\ (create_ripple_bubbles_visualization data g).2
     = after_draws 3 (Nat.min (length data) 800) (np_seed 42)
  /\ (create_undulating_wave_visualization data g).2
     = after_draws 2 (Nat.min (length data) 1200) (np_seed 42).
Proof.
  intros Hne Hnum. split; [|split; [|split; [|split]]].
  - destruct (numeric_frame 1000 data Hne Hnum)
      as (df & gs & vs & ims & Hdf & Hg & Hv & Hi & Hgs & _).
    unfold create_spiral_tunnel_visualization, Eng.guarded.
    by rewrite (spiral_tunnel_body_present _ _ _ Hne Hdf Hg Hv Hi), Hgs.
  - destruct (numeric_frame 1500 data Hne Hnum)
      as (df & gs & vs & ims & Hdf & Hg & Hv & Hi & Hgs & Hvs & Hims & _).
    unfold create_wave_surface_visualization, Eng.guarded.
    rewrite (wave_surface_body_present _ _ _ Hne Hdf Hg Hv Hi), Hgs, Hvs, Hims.
    destruct (griddata_cubic _ _ _); [|done].
    by destruct (validate_marker_size _).
  - destruct (numeric_frame 2000 data Hne Hnum)
      as (df & gs & vs & ims & Hdf & Hg & Hv & Hi & _).
    unfold create_geolocation_visualization, Eng.guarded.
    rewrite (geolocation_body_present _ _ _ Hne Hdf Hv Hi).
    destruct (sort_values VALUATION df) as [df_sorted|]; [|done].
    destruct (numeric_column VALUATION df_sorted); [|done].
    destruct (numeric_column IMPACT df_sorted); [|done].
    by destruct (validate_marker_size _).
  - destruct (ripple_bubbles_numeric data g Hne Hnum)
      as (df & vs & ims & bx & by_ & bz & Hlen & Hrun & _).
    by rewrite Hrun, Hlen.
  - destruct (undulating_wave_numeric data g Hne Hnum)
      as (df & vs & gs & lo_v & hi_v & lo_g & hi_g & Hlen & _ & _ & _ & _ & _
          & _ & _ & _ & _ & Hrun).
    by rewrite Hrun, Hlen.
Qed.

Lemma generator_state_after_rendering_witness :
  wave_example <> [] /\ Forall numeric_record wave_example
  /\ (create_spiral_tunnel_visualization (L := Scripted.library 3)
        wave_example [5%nat]).2 = [5%nat]
  /\ (create_ripple_bubbles_visualization (L := Scripted.library 3)
        wave_example [5%nat]).2
     = after_draws (L := Scripted.library 3) 3 2 (Scripted.s_np_seed 42).
Proof.
  assert (Hne : wave_example <> []) by done.
  assert (Hnum : Forall numeric_record wave_example).
  { repeat constructor; eexists; unfold GROWTH, VALUATION, IMPACT; by simplify_map_eq. }
  split; [exact Hne|]. split; [exact Hnum|].
  destruct (generator_state_after_rendering (L := Scripted.library 3) wave_example
              [5%nat] Hne Hnum) as (Htunnel & _ & _ & Hripple & _).
  split; [exact Htunnel|exact Hripple].
Defined.

(** ** The geolocation spiral on numeric records *)

Section GeolocationProperties.
Context {L : Library}.

(** Rows taken at a permutation of all positions are a permutation of
    the rows. *)
Lemma take_permutation locs df df' :
  locs ≡ₚ seq 0 (len df) -> take locs df = Ok df' -> rows df' ≡ₚ rows df.
Proof.
  intros Hperm Htake. apply take_rows in Htake as [_ Hrows].
  assert (Hsome : Some <$> rows df' = (rows df !!.) <$> locs).
  { clear Hperm. induction Hrows as [|l row locs rs Hl _ IH]; [done|].
    rewrite !fmap_cons, IH. by rewrite Hl. }
  assert (Hall : (rows df !!.) <$> seq 0 (len df) = Some <$> rows df).
  { apply list_eq. intros i. rewrite !list_lookup_fmap.
    destruct (decide (i < len df)%nat) as [Hi|Hi].
    - rewrite lookup_seq_lt by done. simpl.
      by destruct (lookup_lt_is_Some_2 (rows df) i Hi) as [row ->].
    - rewrite lookup_seq_ge by lia. by rewrite lookup_ge_None_2 by (unfold len in Hi; lia). }
  assert (H : Some <$> rows df' ≡ₚ Some <$> rows df).
  { by rewrite Hsome, Hperm, Hall. }
  apply (omap_Permutation (fun a : option (nat * dict) => a)) in H.
  assert (Hid : forall l : list (nat * dict),
             omap (fun a : option (nat * dict) => a) (Some <$> l) = l).
  { induction l as [|x l IH]; csimpl; [done|]. by rewrite IH. }
  by rewrite !Hid in H.
Qed.

Lemma sort_values_numeric k df xs :
  numeric_column k df = Ok xs ->
  exists df_sorted,
    sort_values k df = Ok df_sorted
    /\ columns df_sorted = columns df
    /\ len df_sorted = len df
    /\ (rows df_sorted).*2 ≡ₚ (rows df).*2.
Proof.
  intros Hxs. unfold sort_values. rewrite Hxs. cbn [mbind result_bind].
  pose proof (argsort_perm xs) as Hperm.
  rewrite (numeric_column_length _ _ _ Hxs) in Hperm.
  destruct (take_ok (argsort xs) df) as (rs & Htake & Hlen).
  { rewrite Hperm. apply Forall_forall. intros i Hi%elem_of_seq. lia. }
  pose proof (take_permutation _ _ _ Hperm Htake) as Hrows.
  rewrite Htake. cbn [fmap result_fmap]. eexists. split; [reflexivity|].
  cbn [rows] in Hrows. unfold reset_index, len. cbn [columns rows].
  split; [done|]. split.
  - rewrite length_imap, Hlen, Hperm, length_seq. done.
  - rewrite <- Hrows.
    assert (Heq : (imap (fun i (row : nat * dict) => (i, row.2)) rs).*2 = rs.*2).
    { apply list_eq. intros i.
      rewrite !list_lookup_fmap, list_lookup_imap. by destruct (rs !! i). }
    by rewrite Heq.
Qed.

Lemma spiral_radius_range n k : (k < n)%nat -> 2 <= spiral_radius n k < 4.4.
Proof.
  intros Hk. unfold spiral_radius.
  assert (Hn : 0 < INR n) by (apply lt_0_INR; lia).
  assert (Hkn : INR k < INR n) by (by apply lt_INR).
  pose proof (pos_INR k) as Hk0.
  assert (Hq : 0 <= INR k / INR n < 1).
  { split.
    - apply Rmult_le_pos; [done|]. left. by apply Rinv_0_lt_compat.
    - apply Rmult_lt_reg_r with (INR n); [done|].
      unfold Rdiv. rewrite Rmult_assoc, Rinv_l by lra. lra. }
  unfold Rdiv in *. nra.
Qed.

(** The top view of a spiral of [n] samples. *)
Lemma spiral_top_view n :
  Forall spiral_point
    (zip (imap (fun i angle => Some (spiral_radius n i * cos angle)) (linspace 0 (6 * PI) n))
         (imap (fun i angle => Some (spiral_radius n i * sin angle)) (linspace 0 (6 * PI) n))).
Proof.
  apply Forall_lookup. intros k [x y] Hk.
  apply lookup_zip_with_Some in Hk as (x' & y' & [= <- <-] & Hx & Hy).
  rewrite list_lookup_imap in Hx, Hy.
  destruct (linspace 0 (6 * PI) n !! k) as [t|] eqn:Ht; [|done].
  injection Hx as <-. injection Hy as <-.
  assert (Hlt : (k < n)%nat).
  { apply lookup_lt_Some in Ht. by rewrite length_linspace in Ht. }
  exists (spiral_radius n k), t. split; [done|].
  split; [by apply spiral_radius_range|].
  pose proof PI_RGT_0. apply (linspace_between 0 (6 * PI) n); [lra|].
  by eapply list_elem_of_lookup_2.
Qed.

Lemma geolocation_bubble_sizes_within valuation :
  Forall (within 8 40) (geolocation_bubble_sizes (Some <$> valuation)).
Proof.
  unfold geolocation_bubble_sizes. rewrite <- list_fmap_compose.
  apply Forall_fmap, Forall_forall. intros v _. simpl. eexists. split; [reflexivity|].
  unfold Rmin, Rmax. repeat destruct (Rle_dec _ _); lra.
Qed.

(** The run of the geolocation engine on numeric records. *)
Lemma geolocation_numeric_sorted data g :
  data <> [] -> Forall numeric_record data ->
  exists df keys df_sorted valuation impact,
    downsample 2000 (from_records data) = Ok df
    /\ len df = Nat.min (length data) 2000
    /\ numeric_column VALUATION df = Ok (Some <$> keys)
    /\ sort_values VALUATION df = Ok df_sorted
    /\ len df_sorted = len df
    /\ (rows df_sorted).*2 ≡ₚ (rows df).*2
    /\ numeric_column VALUATION df_sorted = Ok (Some <$> valuation)
    /\ length valuation = len df /\ length impact = len df
    /\ create_geolocation_visualization data g
       = (geolocation_figure df_sorted (Some <$> valuation) (Some <$> impact), g).
Proof.
  intros Hne Hnum.
  destruct (numeric_frame 2000 data Hne Hnum)
    as (df & gs & vs & ims & Hdf & Hg & Hv & Hi & Hgs & Hvs & Hims & Hlen & _).
  destruct (numeric_data_frame _ _ _ Hne Hnum Hdf) as (_ & _ & _ & Hrows).
  destruct (sort_values_numeric VALUATION df _ Hvs)
    as (df_sorted & Hsort & Hcols & Hlen' & Hperm).
  assert (Hrows' : Forall (fun row => numeric_record row.2) (rows df_sorted)).
  { assert (H1 : Forall numeric_record (rows df).*2) by (by apply Forall_fmap).
    rewrite <- Hperm in H1. rewrite Forall_fmap in H1. exact H1. }
  destruct (numeric_column_all_numbers VALUATION df_sorted) as (vs' & Hvs' & Hlv).
  { eapply Forall_impl; [exact Hrows'|]. by intros row (_ & Hx & _). }
  destruct (numeric_column_all_numbers IMPACT df_sorted) as (ims' & Hims' & Hli).
  { eapply Forall_impl; [exact Hrows'|]. by intros row (_ & _ & Hx). }
  exists df, vs, df_sorted, vs', ims'.
  split; [done|]. split; [done|]. split; [done|]. split; [done|]. split; [done|].
  split; [done|]. split; [done|]. split; [lia|]. split; [lia|].
  unfold create_geolocation_visualization, Eng.guarded.
  rewrite (geolocation_body_present _ _ _ Hne Hdf Hv Hi), Hsort, Hvs', Hims'.
  rewrite validate_marker_size_numbers; [done|].
  eapply Forall_impl; [apply geolocation_bubble_sizes_within|].
  intros a. apply within_is_Some.
Qed.

Lemma geolocation_numeric data g :
  data <> [] -> Forall numeric_record data ->
  exists df df_sorted valuation impact,
    downsample 2000 (from_records data) = Ok df
    /\ len df = Nat.min (length data) 2000
    /\ len df_sorted = len df
    /\ (rows df_sorted).*2 ≡ₚ (rows df).*2
    /\ numeric_column VALUATION df_sorted = Ok (Some <$> valuation)
    /\ length valuation = len df /\ length impact = len df
    /\ create_geolocation_visualization data g
       = (geolocation_figure df_sorted (Some <$> valuation) (Some <$> impact), g).
Proof.
  intros Hne Hnum.
  destruct (geolocation_numeric_sorted data g Hne Hnum)
    as (df & keys & df_sorted & vs & ims & Hdf & Hlen & _ & _ & Hrest).
  exists df, df_sorted, vs, ims. by split.
Qed.

End GeolocationProperties.

(** X16. On records that carry the three numbers the geolocation spiral
    never shows the error scene and leaves numpy's global generator as it
    found it. The sort loses and duplicates nothing: the valuations of
    the [min(n, 2000)] bubbles are a permutation of the valuation column
    of the records kept. Seen from above every bubble lies on the
    expanding spiral, at a radius in [[2, 4.4)] and an angle within three
    turns; bubble [i] has height [0.5 i + 0.1 v] and size
    [clip(1.2 v + 8, 8, 40)] for its valuation [v], so every size lies in
    [[8, 40]]; the guide curve has 200 samples on the same spiral, at
    heights within [[0, n / 2]]. *)
Theorem geolocation_spiral_geometry `{L : Library} (data : list dict) (g : rng) :
  data <> [] -> Forall numeric_record data ->
  let n := Nat.min (length data) 2000 in
  exists fig bubbles guide sizes df valuation,
    create_geolocation_visualization data g = (fig, g)
    /\ fig_data fig = [TScatter3d bubbles; TScatter3d guide]
    /\ sc_size bubbles = AttrArray sizes
    /\ downsample 2000 (from_records data) = Ok df
    /\ (fun v => Some (VNum v)) <$> valuation ≡ₚ column VALUATION df
    /\ length valuation = n
    /\ length (sc_x bubbles) = n /\ length (sc_y bubbles) = n
    /\ Forall spiral_point (zip (sc_x bubbles) (sc_y bubbles))
    /\ sc_z bubbles = imap (fun i v => Some (0.5 * INR i + v * 0.1)) valuation
    /\ sizes = (fun v => Some (Rmin (Rmax (v * 1.2 + 8) 8) 40)) <$> valuation
    /\ Forall (within 8 40) sizes
    /\ length (sc_x guide) = 200%nat /\ length (sc_y guide) = 200%nat
    /\ length (sc_z guide) = 200%nat
    /\ Forall spiral_point (zip (sc_x guide) (sc_y guide))
    /\ Forall (within 0 (0.5 * INR n)) (sc_z guide).
Proof.
  intros Hne Hnum n.
  destruct (geolocation_numeric data g Hne Hnum)
    as (df & df_sorted & vs & ims & Hdf & Hlen & Hlen' & Hperm & Hvs & Hlv & Hli & Hrun).
  unfold n. rewrite <- Hlen. clear n.
  eexists _, _, _, _, df, vs. split; [exact Hrun|].
  unfold geolocation_figure. cbn [fig_data].
  split; [reflexivity|]. cbn [sc_x sc_y sc_z sc_size]. split; [reflexivity|].
  split; [done|]. split.
  { unfold column. 
    assert (Hcells : (fun v => Some (VNum v)) <$> vs
                     = (fun r : dict => r !! VALUATION) <$> (rows df_sorted).*2).
    { apply list_eq. intros i. rewrite !list_lookup_fmap.
      destruct (rows df_sorted !! i) as [row|] eqn:Hrow; simpl.
      - destruct (numeric_column_lookup _ _ _ _ _ Hvs Hrow) as (x & Hx & Hc).
        rewrite list_lookup_fmap in Hx.
        destruct (vs !! i) as [v|]; [|done]. injection Hx as <-. simpl.
        destruct (row.2 !! VALUATION) as [[?|?]|]; try done. by injection Hc as ->.
      - apply lookup_ge_None in Hrow. fold (len df_sorted) in Hrow.
        rewrite lookup_ge_None_2 by lia. done. }
    rewrite Hcells, Hperm. by rewrite <- list_fmap_compose. }
  split; [done|].
  rewrite !length_imap, !length_linspace.
  split; [lia|]. split; [lia|].
  split; [rewrite Hlen'; apply spiral_top_view|].
  split.
  { apply list_eq. intros i. rewrite !list_lookup_imap, list_lookup_fmap.
    destruct (vs !! i) as [v|]; simpl; [|done]. done. }
  split.
  { unfold geolocation_bubble_sizes. rewrite <- list_fmap_compose. done. }
  split; [apply geolocation_bubble_sizes_within|].
  split; [done|]. split; [done|]. split; [done|].
  split; [apply spiral_top_view|].
  apply Forall_lookup. intros i z Hi. rewrite list_lookup_imap in Hi.
  destruct (linspace 0 (6 * PI) 200 !! i) as [t|] eqn:Ht; [|done].
  injection Hi as <-.
  assert (Hlt : (i < 200)%nat).
  { apply lookup_lt_Some in Ht. by rewrite length_linspace in Ht. }
  eexists. split; [reflexivity|].
  assert (Hi200 : 0 <= INR i <= 200).
  { split; [apply pos_INR|].
    replace 200 with (INR 200) by (rewrite INR_IZR_INZ; reflexivity).
    apply le_INR. lia. }
  rewrite Hlen'. pose proof (pos_INR (len df)) as Hn. split.
  - apply Rmult_le_pos; [|done]. lra.
  - replace (0.5 * INR i / 200 * INR (len df))
      with (0.5 * INR (len df) * (INR i / 200)) by lra.
    assert (0 <= INR i / 200 <= 1) by lra. nra.
Qed.

Lemma geolocation_spiral_geometry_witness :
  wave_example <> [] /\ Forall numeric_record wave_example
  /\ exists fig bubbles guide,
       create_geolocation_visualization (L := Scripted.library 3) wave_example []
       = (fig, [])
       /\ fig_data fig = [TScatter3d bubbles; TScatter3d guide]
       /\ Forall spiral_point (zip (sc_x bubbles) (sc_y bubbles)).
Proof.
  assert (Hne : wave_example <> []) by done.
  assert (Hnum : Forall numeric_record wave_example).
  { repeat constructor; eexists; unfold GROWTH, VALUATION, IMPACT; by simplify_map_eq. }
  split; [exact Hne|]. split; [exact Hnum|].
  destruct (geolocation_spiral_geometry (L := Scripted.library 3) wave_example []
              Hne Hnum)
    as (fig & bubbles & guide & sizes & df & vs & Hrun & Hfig & _ & _ & _ & _ & _ & _
        & Hspiral & _).
  exists fig, bubbles, guide. split; [exact Hrun|]. split; [exact Hfig|exact Hspiral].
Defined.

(** ** The wave surface on numeric records *)

Section WaveSurfaceProperties.
Context {L : Library}.

Lemma wave_marker_size_range growth :
  Forall (within 8 20) (wave_marker_size (Some <$> growth)).
Proof.
  unfold wave_marker_size, normalize. rewrite <- !list_fmap_compose.
  apply Forall_fmap, Forall_forall. intros x Hx. unfold compose.
  destruct (normalized_range (Some <$> growth) x) as (v & Hv & Hrange).
  { apply list_elem_of_fmap. eauto. }
  rewrite Hv. eexists. split; [reflexivity|]. lra.
Qed.

End WaveSurfaceProperties.

(** X17. On records that carry the three numbers the wave surface fails
    only if the interpolation does. When [griddata] raises, the figure is
    the error scene; when it returns a grid, the figure has a surface of
    100 rows of 100 nodes and one marker per record kept, placed at the
    record's own growth rate, valuation and impact score plus 0.5,
    coloured by the impact score, with a size [8 + 12 * growth_norm] that
    lies in [[8, 20]]. Either way numpy's global generator is left as it
    was found. *)
Theorem wave_surface_markers `{L : Library} (data : list dict) (g : rng) :
  data <> [] -> Forall numeric_record data ->
  exists df growth valuation impact,
    downsample 1500 (from_records data) = Ok df
    /\ len df = Nat.min (length data) 1500
    /\ numeric_column GROWTH df = Ok (Some <$> growth)
    /\ numeric_column VALUATION df = Ok (Some <$> valuation)
    /\ numeric_column IMPACT df = Ok (Some <$> impact)
    /\ match griddata_cubic (zip (Some <$> growth) (Some <$> valuation)) (Some <$> impact)
               (wave_surface_grid (Some <$> growth) (Some <$> valuation)) with
       | Raise =>
           create_wave_surface_visualization data g
           = (error_figure "Error in Wave Surface Visualization", g)
       | Ok ZI =>
           exists fig surf markers sizes,
             create_wave_surface_visualization data g = (fig, g)
             /\ fig_data fig = [TSurface surf; TScatter3d markers]
             /\ sc_size markers = AttrArray sizes
             /\ length (su_z surf) = 100%nat
             /\ Forall (fun zrow => length zrow = 100%nat) (su_z surf)
             /\ sc_x markers = Some <$> growth
             /\ sc_y markers = Some <$> valuation
             /\ sc_z markers = (fun a => Some (a + 0.5)) <$> impact
             /\ sc_color markers = AttrArray (Some <$> impact)
             /\ length sizes = Nat.min (length data) 1500
             /\ Forall (within 8 20) sizes
       end.
Proof.
  intros Hne Hnum.
  destruct (numeric_frame 1500 data Hne Hnum)
    as (df & gs & vs & ims & Hdf & Hg & Hv & Hi & Hgs & Hvs & Hims & Hlen & Hlg & Hlv & Hli).
  exists df, gs, vs, ims. repeat (split; [done|]).
  unfold create_wave_surface_visualization, Eng.guarded.
  rewrite (wave_surface_body_present _ _ _ Hne Hdf Hg Hv Hi), Hgs, Hvs, Hims.
  destruct (griddata_cubic _ _ _) as [ZI|] eqn:Hgrid; [|done].
  rewrite validate_marker_size_numbers.
  2:{ eapply Forall_impl; [apply wave_marker_size_range|].
      intros a (x & -> & _). by eexists. }
  assert (Hshape : Forall2 (fun zrow xrow : list float => length zrow = length xrow)
                     ZI (wave_surface_grid (Some <$> gs) (Some <$> vs)).1).
  { destruct (wave_surface_grid (Some <$> gs) (Some <$> vs)) as [XI YI] eqn:HXY.
    by eapply griddata_cubic_shape. }
  destruct (wave_surface_figure_surface df (Some <$> gs) (Some <$> vs) (Some <$> ims)
              ZI Hshape) as (surf & markers & Hfig & Hrows & Hcols & _).
  exists (wave_surface_figure df (Some <$> gs) (Some <$> vs) (Some <$> ims) ZI),
         surf, markers, (wave_marker_size (Some <$> gs)).
  split; [done|]. split; [done|].
  unfold wave_surface_figure in Hfig.
  destruct (wave_surface_grid (Some <$> gs) (Some <$> vs)) as [XI YI].
  cbn [fig_data] in Hfig. injection Hfig as <- <-.
  cbn [sc_x sc_y sc_z sc_size sc_color su_z] in *.
  split; [done|]. split; [done|]. split; [done|]. split; [done|]. split; [done|].
  split; [by rewrite <- list_fmap_compose|]. split; [done|].
  split.
  { unfold wave_marker_size. rewrite length_fmap, length_normalize, length_fmap. lia. }
  apply wave_marker_size_range.
Qed.

Lemma wave_surface_markers_witness :
  flat_growth_example <> [] /\ Forall numeric_record flat_growth_example
  /\ exists df growth,
       downsample (L := Scripted.library 3) 1500 (from_records flat_growth_example)
       = Ok df
       /\ len df = 3%nat
       /\ numeric_column GROWTH df = Ok (Some <$> growth).
Proof.
  assert (Hne : flat_growth_example <> []) by done.
  assert (Hnum : Forall numeric_record flat_growth_example).
  { repeat constructor; eexists; unfold GROWTH, VALUATION, IMPACT; by simplify_map_eq. }
  split; [exact Hne|]. split; [exact Hnum|].
  destruct (wave_surface_markers (L := Scripted.library 3) flat_growth_example []
              Hne Hnum)
    as (df & gs & vs & ims & Hdf & Hlen & Hgs & _).
  exists df, gs. split; [exact Hdf|]. split; [exact Hlen|exact Hgs].
Defined.

(** ** One incomplete record *)

Section MissingCells.
Context {L : Library}.

(** A missing cell is a NaN of its column. *)
Lemma numeric_column_missing k df xs row :
  numeric_column k df = Ok xs -> row ∈ rows df -> row.2 !! k = None -> NaN ∈ xs.
Proof.
  intros Hxs Hrow Hcell. apply list_elem_of_lookup in Hrow as [i Hi].
  destruct (numeric_column_lookup _ _ _ _ _ Hxs Hi) as (x & Hx & Hc).
  rewrite Hcell in Hc. injection Hc as <-. by eapply list_elem_of_lookup_2.
Qed.

Lemma validate_marker_size_nan sizes : NaN ∈ sizes -> validate_marker_size sizes = Raise.
Proof.
  intros Hnan. unfold validate_marker_size.
  destruct (forallb _ sizes) eqn:Hall; [|done].
  rewrite forallb_forall in Hall. by specialize (Hall NaN ltac:(by apply list_elem_of_In)).
Qed.

(** The frame of an engine whose input, within the cap, is ragged in
    column [k] has a missing cell in that column. *)
Lemma ragged_frame cap data df0 df k :
  (length data <= cap)%nat -> ragged k data ->
  downsample cap (from_records data) = Ok df0 -> frame_extends df0 df ->
  exists row, row ∈ rows df /\ row.2 !! k = None.
Proof.
  intros Hcap [(r0 & Hr0 & Hsome) (r & Hr & Hcell)] Hdf0 Hext.
  rewrite downsample_small in Hdf0 by (by rewrite len_from_records).
  injection Hdf0 as <-.
  apply list_elem_of_lookup in Hr as [i Hi].
  destruct (frame_extends_cell (from_records data) df k (i, r) Hext) as (row' & Hrow' & Hk).
  - apply elem_of_columns_from_records. eauto.
  - eapply list_elem_of_lookup_2. rewrite rows_from_records_lookup, Hi. done.
  - exists row'. split; [done|]. by rewrite Hk.
Qed.

Lemma wave_surface_body_sizes data g fig g' :
  wave_surface_body data g = (Ok fig, g') ->
  exists df0 df growth,
    downsample 1500 (from_records data) = Ok df0 /\ frame_extends df0 df
    /\ numeric_column GROWTH df = Ok growth
    /\ validate_marker_size (wave_marker_size growth) = Ok tt.
Proof.
  unfold wave_surface_body. destruct data as [|r data]; [done|]. intros H.
  apply bind_ok in H as (df0 & g0 & H0 & H). apply lift_ok in H0 as [H0 ->].
  apply bind_ok in H as (df1 & g1 & H1 & H).
  apply bind_ok in H as (df2 & g2 & H2 & H).
  apply bind_ok in H as (df3 & g3 & H3 & H).
  apply bind_ok in H as (growth & g4 & H4 & H). apply lift_ok in H4 as [H4 ->].
  apply bind_ok in H as (valuation & g5 & H5 & H). apply lift_ok in H5 as [H5 ->].
  apply bind_ok in H as (impact & g6 & H6 & H). apply lift_ok in H6 as [H6 ->].
  apply bind_ok in H as (ZI & g7 & H7 & H). apply lift_ok in H7 as [H7 ->].
  apply bind_ok in H as ([] & g8 & H8 & H). apply lift_ok in H8 as [H8 ->].
  destruct (ensure_column_run GROWTH 50 200 df0 g) as (? & ? & E1 & X1 & _).
  destruct (ensure_column_run VALUATION 1 50 df1 g1) as (? & ? & E2 & X2 & _).
  destruct (ensure_column_run IMPACT 20 90 df2 g2) as (? & ? & E3 & X3 & _).
  rewrite H1 in E1. rewrite H2 in E2. rewrite H3 in E3.
  injection E1 as <- <-. injection E2 as <- <-. injection E3 as <- <-.
  exists df0, df3, growth. eauto 10 using frame_extends_trans.
Qed.

Lemma ripple_bubbles_body_sizes data g fig g' :
  ripple_bubbles_body data g = (Ok fig, g') ->
  exists df0 df valuation,
    downsample 800 (from_records data) = Ok df0 /\ frame_extends df0 df
    /\ numeric_column VALUATION df = Ok valuation
    /\ validate_marker_size (ripple_bubble_size valuation) = Ok tt.
Proof.
  unfold ripple_bubbles_body. destruct data as [|r data]; [done|]. intros H.
  apply bind_ok in H as (df0 & g0 & H0 & H). apply lift_ok in H0 as [H0 ->].
  apply bind_ok in H as (df1 & g1 & H1 & H).
  apply bind_ok in H as (df2 & g2 & H2 & H).
  apply bind_ok in H as (df3 & g3 & H3 & H).
  apply bind_ok in H as (valuation & g4 & H4 & H). apply lift_ok in H4 as [H4 ->].
  apply bind_ok in H as (growth & g5 & H5 & H). apply lift_ok in H5 as [H5 ->].
  apply bind_ok in H as (impact & g6 & H6 & H). apply lift_ok in H6 as [H6 ->].
  apply bind_ok in H as ([] & g7 & H7 & H).
  apply bind_ok in H as (bx & g8 & H8 & H).
  apply bind_ok in H as (bz & g9 & H9 & H).
  apply bind_ok in H as (bz' & g10 & H10 & H).
  apply bind_ok in H as ([] & g11 & H11 & H). apply lift_ok in H11 as [H11 ->].
  destruct (ensure_column_run GROWTH 50 200 df0 g) as (? & ? & E1 & X1 & _).
  destruct (ensure_column_run VALUATION 1 50 df1 g1) as (? & ? & E2 & X2 & _).
  destruct (ensure_column_run IMPACT 20 90 df2 g2) as (? & ? & E3 & X3 & _).
  rewrite H1 in E1. rewrite H2 in E2. rewrite H3 in E3.
  injection E1 as <- <-. injection E2 as <- <-. injection E3 as <- <-.
  exists df0, df3, valuation. eauto 10 using frame_extends_trans.
Qed.

Lemma geolocation_body_sizes data g fig g' :
  geolocation_body data g = (Ok fig, g') ->
  exists df0 df df_sorted keys valuation,
    downsample 2000 (from_records data) = Ok df0 /\ frame_extends df0 df
    /\ numeric_column VALUATION df = Ok keys
    /\ sort_values VALUATION df = Ok df_sorted
    /\ numeric_column VALUATION df_sorted = Ok valuation
    /\ validate_marker_size (geolocation_bubble_sizes valuation) = Ok tt.
Proof.
  unfold geolocation_body. destruct data as [|r data]; [done|]. intros H.
  apply bind_ok in H as (df0 & g0 & H0 & H). apply lift_ok in H0 as [H0 ->].
  apply bind_ok in H as (df1 & g1 & H1 & H).
  apply bind_ok in H as (df2 & g2 & H2 & H).
  apply bind_ok in H as (df_sorted & g3 & H3 & H). apply lift_ok in H3 as [H3 ->].
  apply bind_ok in H as (valuation & g4 & H4 & H). apply lift_ok in H4 as [H4 ->].
  apply bind_ok in H as (impact & g5 & H5 & H). apply lift_ok in H5 as [H5 ->].
  apply bind_ok in H as ([] & g6 & H6 & H). apply lift_ok in H6 as [H6 ->].
  destruct (ensure_column_run VALUATION 1 50 df0 g) as (? & ? & E1 & X1 & _).
  destruct (ensure_column_run IMPACT 20 90 df1 g1) as (? & ? & E2 & X2 & _).
  rewrite H1 in E1. rewrite H2 in E2.
  injection E1 as <- <-. injection E2 as <- <-.
  assert (Hkeys : exists keys, numeric_column VALUATION df2 = Ok keys).
  { unfold sort_values in H3. destruct (numeric_column VALUATION df2); [by eexists|done]. }
  destruct Hkeys as [keys Hkeys].
  exists df0, df2, df_sorted, keys, valuation. eauto 10 using frame_extends_trans.
Qed.

Lemma elem_of_snd_rows (rows1 rows2 : list (nat * dict)) row :
  rows1.*2 ≡ₚ rows2.*2 -> row ∈ rows2 -> exists row', row' ∈ rows1 /\ row'.2 = row.2.
Proof.
  intros Hperm Hrow.
  assert (Hin : row.2 ∈ rows1.*2).
  { rewrite Hperm. apply list_elem_of_fmap. eauto. }
  apply list_elem_of_fmap in Hin as (row' & Heq & Hrow'). eauto.
Qed.

End MissingCells.

(** X18. One incomplete record blanks the figure. In an input of at most
    800 records, when the growth rate is given for some record and
    missing for another, the wave surface returns its error scene; when
    the valuation is given for some record and missing for another, the
    ripple bubbles and the geolocation spiral return theirs. The missing
    cell is a NaN of its column, the marker size computed from it is NaN,
    and plotly rejects a NaN in [marker.size]; the fallback fill does not
    help, because it only fills a column that no record has. *)
Theorem incomplete_record_error_scene `{L : Library} (data : list dict) (g : rng) :
  (length data <= 800)%nat ->
  (ragged GROWTH data ->
   (create_wave_surface_visualization data g).1
   = error_figure "Error in Wave Surface Visualization")
  /\ (ragged VALUATION data ->
      (create_ripple_bubbles_visualization data g).1
      = error_figure "Error in Ripple Bubbles Visualization"
      /\ (create_geolocation_visualization data g).1
         = error_figure "Error in Spiraling Tsunami Visualization").
Proof.
  intros Hlen. split; [intros Hragged|intros Hragged; split].
  - unfold create_wave_surface_visualization, Eng.guarded.
    destruct (wave_surface_body data g) as [[fig|] g'] eqn:Hrun; [|done]. exfalso.
    apply wave_surface_body_sizes in Hrun as (df0 & df & growth & Hdf0 & Hext & Hcol & Hok).
    destruct (ragged_frame 1500 data df0 df GROWTH ltac:(lia) Hragged Hdf0 Hext)
      as (row & Hrow & Hcell).
    pose proof (numeric_column_missing _ _ _ _ Hcol Hrow Hcell) as Hnan.
    rewrite validate_marker_size_nan in Hok; [done|].
    unfold wave_marker_size, normalize. rewrite <- list_fmap_compose.
    apply list_elem_of_fmap. exists NaN. split; [reflexivity|done].
  - unfold create_ripple_bubbles_visualization, Eng.guarded.
    destruct (ripple_bubbles_body data g) as [[fig|] g'] eqn:Hrun; [|done]. exfalso.
    apply ripple_bubbles_body_sizes in Hrun
      as (df0 & df & valuation & Hdf0 & Hext & Hcol & Hok).
    destruct (ragged_frame 800 data df0 df VALUATION ltac:(lia) Hragged Hdf0 Hext)
      as (row & Hrow & Hcell).
    pose proof (numeric_column_missing _ _ _ _ Hcol Hrow Hcell) as Hnan.
    rewrite validate_marker_size_nan in Hok; [done|].
    unfold ripple_bubble_size. apply list_elem_of_fmap. exists NaN. split; [reflexivity|done].
  - unfold create_geolocation_visualization, Eng.guarded.
    destruct (geolocation_body data g) as [[fig|] g'] eqn:Hrun; [|done]. exfalso.
    apply geolocation_body_sizes in Hrun
      as (df0 & df & df_sorted & keys & valuation & Hdf0 & Hext & Hkeys & Hsort & Hcol & Hok).
    destruct (ragged_frame 2000 data df0 df VALUATION ltac:(lia) Hragged Hdf0 Hext)
      as (row & Hrow & Hcell).
    destruct (sort_values_numeric VALUATION df keys Hkeys)
      as (df_sorted' & Hsort' & _ & _ & Hperm).
    rewrite Hsort in Hsort'. injection Hsort' as <-.
    destruct (elem_of_snd_rows _ _ row Hperm Hrow) as (row' & Hrow' & Heq).
    pose proof (numeric_column_missing _ _ _ row' Hcol Hrow' ltac:(by rewrite Heq)) as Hnan.
    rewrite validate_marker_size_nan in Hok; [done|].
    unfold geolocation_bubble_sizes. apply list_elem_of_fmap. exists NaN.
    split; [reflexivity|done].
Qed.

Lemma incomplete_record_error_scene_witness :
  (length ragged_example <= 800)%nat
  /\ ragged GROWTH ragged_example /\ ragged VALUATION ragged_example
  /\ (create_wave_surface_visualization (L := Scripted.library 0) ragged_example []).1
     = error_figure "Error in Wave Surface Visualization"
  /\ (create_geolocation_visualization (L := Scripted.library 0) ragged_example []).1
     = error_figure "Error in Spiraling Tsunami Visualization".
Proof.
  assert (Hlen : (length ragged_example <= 800)%nat) by (simpl; lia).
  assert (Hg : ragged GROWTH ragged_example).
  { split.
    - exists {[ GROWTH := VNum 100; VALUATION := VNum 10; IMPACT := VNum 50 ]}.
      split; [left|]. by exists (VNum 100).
    - exists {[ IMPACT := VNum 75 ]}. split; [right; left|reflexivity]. }
  assert (Hv : ragged VALUATION ragged_example).
  { split.
    - exists {[ GROWTH := VNum 100; VALUATION := VNum 10; IMPACT := VNum 50 ]}.
      split; [left|]. by exists (VNum 10).
    - exists {[ IMPACT := VNum 75 ]}. split; [right; left|reflexivity]. }
  split; [exact Hlen|]. split; [exact Hg|]. split; [exact Hv|].
  destruct (incomplete_record_error_scene (L := Scripted.library 0) ragged_example []
              Hlen) as [Hwave Hrest].
  split; [exact (Hwave Hg)|exact (proj2 (Hrest Hv))].
Defined.

(** ** From the sources to the figures *)

Section SourcesIntoEngines.
Context {RS : PyRandom}.

Lemma generated_record_numeric i r : generated_record i r -> numeric_record r.
Proof.
  intros (sector & country & status & v & a & gr & y & lon & lat & -> & _).
  unfold numeric_record, COMPANY, VALUATION, IMPACT, GROWTH, STATUS.
  repeat split; eexists; by simplify_map_eq.
Qed.

Lemma random_data_record_numeric e r : random_data_record e r -> numeric_record r.
Proof.
  intros (v & a & gr & lon & lat & -> & _).
  unfold numeric_record, COMPANY, VALUATION, IMPACT, GROWTH.
  repeat split; eexists; by simplify_map_eq.
Qed.

Lemma market_data_record_numeric e r : market_data_record e r -> numeric_record r.
Proof.
  intros (p & gr & vol & a & lon & lat & -> & _).
  unfold numeric_record, COMPANY, VALUATION, IMPACT, GROWTH.
  repeat split; eexists; by simplify_map_eq.
Qed.

Lemma weather_station_record_numeric e r : weather_station_record e r -> numeric_record r.
Proof.
  intros (name & country & t & h & p & lon & lat & _ & _ & -> & _).
  unfold numeric_record, COMPANY, VALUATION, IMPACT, GROWTH.
  repeat split; eexists; by simplify_map_eq.
Qed.

Lemma Forall2_Forall_r {A B} (P : A -> B -> Prop) (Q : B -> Prop) l k :
  (forall a b, P a b -> Q b) -> Forall2 P l k -> Forall Q k.
Proof. intros HPQ. induction 1; constructor; eauto. Qed.

Lemma get_random_data_numeric s :
  length (get_random_data s).1 = 10%nat /\ Forall numeric_record (get_random_data s).1.
Proof.
  pose proof (for_enumerate_Forall2 random_data_record random_record
                random_record_shape companies 0 s) as H.
  split.
  - apply Forall2_length in H. by rewrite length_imap in H.
  - eapply Forall2_Forall_r; [|exact H]. apply random_data_record_numeric.
Qed.

Lemma get_market_data_numeric s :
  length (get_market_data s).1 = 30%nat /\ Forall numeric_record (get_market_data s).1.
Proof.
  pose proof (for_enumerate_Forall2 market_data_record market_record
                market_record_shape symbols 0 s) as H.
  split.
  - apply get_market_data_length.
  - eapply Forall2_Forall_r; [|exact H]. apply market_data_record_numeric.
Qed.

Lemma get_weather_stations_data_numeric s :
  length (get_weather_stations_data s).1 = 15%nat
  /\ Forall numeric_record (get_weather_stations_data s).1.
Proof.
  split; [apply get_weather_stations_data_length|].
  assert (Hok : forall i city s0, city ∈ cities ->
            exists r, (weather_record i city s0).1 = Ok r
                      /\ weather_station_record (i, city) r).
  { intros i city s0 Hcity.
    pose proof cities_split as Hall. rewrite Forall_forall in Hall.
    destruct (Hall city Hcity) as (name & country & H1 & H2 & H3 & H4).
    by eapply weather_record_shape. }
  pose proof (for_enumerate_try_Forall2 weather_station_record weather_record cities
                Hok 0%nat s) as H.
  eapply Forall2_Forall_r; [|exact H]. apply weather_station_record_numeric.
Qed.

End SourcesIntoEngines.

Section Rendering.
Context {L : Library}.

(** What the four engines that need no interpolation show for records
    that carry the three numbers. *)
Lemma numeric_data_renders data g :
  data <> [] -> Forall numeric_record data ->
  scatter_points (create_spiral_tunnel_visualization data g).1
  = [Nat.min (length data) 1000]
  /\ scatter_points (create_ripple_bubbles_visualization data g).1
     = [Nat.min (length data) 800]
  /\ scatter_points (create_undulating_wave_visualization data g).1
     = [Nat.min (length data) 1200]
  /\ scatter_points (create_geolocation_visualization data g).1
     = [Nat.min (length data) 2000; 200%nat].
Proof.
  intros Hne Hnum. split; [|split; [|split]].
  - destruct (spiral_tunnel_numeric data g Hne Hnum)
      as (df & xs & sc & _ & _ & _ & Hrun & Hsc & Hlen & Hx & _).
    rewrite Hrun. unfold scatter_points. cbn [fst]. rewrite Hsc. csimpl.
    by rewrite Hx, Hlen.
  - destruct (ripple_bubbles_numeric data g Hne Hnum)
      as (df & vs & ims & bx & by_ & bz & Hlen & Hrun & _ & Hlx & _).
    rewrite Hrun. unfold scatter_points, ripple_bubbles_figure. cbn [fst fig_data].
    csimpl. by rewrite length_fmap, Hlx, Hlen.
  - destruct (undulating_wave_numeric data g Hne Hnum)
      as (df & vs & gs & lo_v & hi_v & lo_g & hi_g & Hlen & _ & _ & _ & _ & _
          & _ & _ & _ & _ & Hrun).
    rewrite Hrun. unfold scatter_points, undulating_wave_figure. cbn [fst].
    destruct (undulating_surface (Some <$> vs) (Some <$> gs)) as [[x y] z].
    cbn [fig_data]. csimpl.
    by rewrite length_fmap, np_random_sample_length, Hlen.
  - destruct (geolocation_numeric data g Hne Hnum)
      as (df & df_sorted & vs & ims & _ & Hlen & Hlen' & _ & _ & _ & _ & Hrun).
    rewrite Hrun. unfold scatter_points, geolocation_figure. cbn [fst fig_data].
    csimpl. by rewrite !length_imap, !length_linspace, Hlen', Hlen.
Qed.

End Rendering.

(** X19. Each simulated source feeds the engines a dataset they render in
    full: for the 10 records of [get_random_data], the 30 of
    [get_market_data] and the 15 of [get_weather_stations_data], whatever
    the random draws, the spiral tunnel, the ripple bubbles, the
    undulating wave and the geolocation spiral each show exactly one
    point per record (the geolocation spiral besides its 200-sample guide
    curve), and none shows the error scene. *)
Theorem simulated_sources_render `{RS : PyRandom} `{L : Library}
    (s : pystate) (g : rng) :
  Forall (fun '(source, n) =>
            let data : list dict := (source s).1 in
            length data = n
            /\ scatter_points (create_spiral_tunnel_visualization data g).1 = [n]
            /\ scatter_points (create_ripple_bubbles_visualization data g).1 = [n]
            /\ scatter_points (create_undulating_wave_visualization data g).1 = [n]
            /\ scatter_points (create_geolocation_visualization data g).1
               = [n; 200%nat])
    [(get_random_data, 10%nat); (get_market_data, 30%nat);
     (get_weather_stations_data, 15%nat)].
Proof.
  assert (Hany : forall data n,
            length data = n -> (0 < n <= 800)%nat -> Forall numeric_record data ->
            length data = n
            /\ scatter_points (create_spiral_tunnel_visualization data g).1 = [n]
            /\ scatter_points (create_ripple_bubbles_visualization data g).1 = [n]
            /\ scatter_points (create_undulating_wave_visualization data g).1 = [n]
            /\ scatter_points (create_geolocation_visualization data g).1
               = [n; 200%nat]).
  { intros data n Hlen Hn Hnum.
    assert (Hne : data <> []) by (intros ->; simpl in Hlen; lia).
    destruct (numeric_data_renders data g Hne Hnum) as (H1 & H2 & H3 & H4).
    rewrite Hlen in H1, H2, H3, H4.
    rewrite Nat.min_l in H1, H2, H3, H4 by lia. done. }
  destruct (get_random_data_numeric s) as [Hl1 Hn1].
  destruct (get_market_data_numeric s) as [Hl2 Hn2].
  destruct (get_weather_stations_data_numeric s) as [Hl3 Hn3].
  repeat apply Forall_cons_2; [..|apply Forall_nil_2]; apply Hany; (done || lia).
Qed.

(** X20. The live source without a network, end to end: the 5000
    generated records are down-sampled by each engine to its cap, so the
    spiral tunnel shows 1000 points, the ripple bubbles 800, the
    undulating wave 1200 markers and the geolocation spiral 2000 bubbles
    and its 200-sample guide curve. *)
Theorem offline_live_data_renders `{RS : PyRandom} `{NW : !Network} `{L : Library}
    (s : pystate) (g : rng) :
  offline NW ->
  let data := (get_real_time_data s).1 in
  length data = 5000%nat
  /\ scatter_points (create_spiral_tunnel_visualization data g).1 = [1000%nat]
  /\ scatter_points (create_ripple_bubbles_visualization data g).1 = [800%nat]
  /\ scatter_points (create_undulating_wave_visualization data g).1 = [1200%nat]
  /\ scatter_points (create_geolocation_visualization data g).1 = [2000%nat; 200%nat].
Proof.
  intros Hoff data.
  assert (Hdata : exists s', data = (generate_large_realistic_dataset 5000 s').1).
  { eexists. unfold data. by rewrite (get_real_time_data_synthetic s Hoff). }
  destruct Hdata as [s' Hdata]. clearbody data.
  assert (Hlen : length data = 5000%nat) by (subst; apply generate_loop_length).
  assert (Hnum : Forall numeric_record data).
  { subst. apply generate_loop_Forall. intros i s0. apply generate_record_numeric. }
  clear Hdata.
  assert (Hne : data <> []) by (intros ->; discriminate Hlen).
  destruct (numeric_data_renders data g Hne Hnum) as (H1 & H2 & H3 & H4).
  rewrite Hlen in H1, H2, H3, H4.
  split; [done|]. split; [exact H1|]. split; [exact H2|]. split; [exact H3|exact H4].
Qed.

Lemma offline_live_data_renders_witness :
  let s : Scripted.s_pystate := ([], []) in
  let data := (get_real_time_data (RS := Scripted.random) (NW := unreachable_network) s).1 in
  offline unreachable_network
  /\ length data = 5000%nat
  /\ scatter_points (create_spiral_tunnel_visualization (L := Scripted.library 3)
                       data []).1 = [1000%nat].
Proof.
  intros s data.
  assert (Hoff : offline unreachable_network).
  { intros s0. repeat split; by right. }
  split; [exact Hoff|].
  destruct (offline_live_data_renders (NW := unreachable_network)
              (L := Scripted.library 3) s [] Hoff) as (Hlen & Htunnel & _).
  split; [exact Hlen|exact Htunnel].
Defined.

(** ** The order of the bubbles on the geolocation spiral *)

Section ScriptedSort.

Lemma key_le_total a b :
  Scripted.key_le a b = false -> Scripted.key_le b a = true.
Proof.
  unfold Scripted.key_le. destruct a as [x|], b as [y|]; try done.
  destruct (Rle_dec x y); [done|]. intros _. destruct (Rle_dec y x); [done|lra].
Qed.

Lemma key_le_trans a b c :
  Scripted.key_le a b = true -> Scripted.key_le b c = true -> Scripted.key_le a c = true.
Proof.
  unfold Scripted.key_le. destruct a as [x|], b as [y|], c as [z|]; try done.
  destruct (Rle_dec x y); [|done]. destruct (Rle_dec y z); [|done].
  destruct (Rle_dec x z); [done|lra].
Qed.

Lemma insert_key_sorted p l :
  StronglySorted (fun p q => Scripted.key_le p.1 q.1 = true) l ->
  StronglySorted (fun p q => Scripted.key_le p.1 q.1 = true) (Scripted.insert_key p l).
Proof.
  induction 1 as [|q l Hsorted IH Hq]; simpl.
  - repeat constructor.
  - destruct (Scripted.key_le p.1 q.1) eqn:Hle.
    + constructor; [by constructor|]. constructor; [done|].
      eapply Forall_impl; [exact Hq|]. intros r Hr. simpl in *.
      by eapply key_le_trans.
    + constructor; [done|].
      rewrite Scripted.insert_key_perm. constructor; [|done].
      by apply key_le_total.
Qed.

Lemma insertion_sorted l :
  StronglySorted (fun p q => Scripted.key_le p.1 q.1 = true)
                 (foldr Scripted.insert_key [] l).
Proof. induction l; simpl; [constructor|by apply insert_key_sorted]. Qed.

Lemma insertion_entries (keys : list R) :
  Forall (fun p : float * nat => exists x, p.1 = Some x /\ keys !! p.2 = Some x)
         (foldr Scripted.insert_key [] (zip (Some <$> keys) (seq 0 (length (Some <$> keys))))).
Proof.
  assert (Hperm : forall l : list (float * nat), foldr Scripted.insert_key [] l ≡ₚ l).
  { induction l as [|p l IH]; simpl; [done|]. by rewrite Scripted.insert_key_perm, IH. }
  rewrite Hperm. apply Forall_lookup. intros i [a j] Hi.
  apply lookup_zip_with_Some in Hi as (a' & j' & [= <- <-] & Ha & Hj).
  rewrite list_lookup_fmap in Ha. destruct (keys !! i) as [x|] eqn:Hx; [|done].
  injection Ha as <-. apply lookup_seq in Hj as [-> _]. exists x. by split.
Qed.

Lemma scripted_argsort_sorts qhull_min : argsort_sorts (Scripted.library qhull_min).
Proof.
  intros keys. change (argsort (Some <$> keys)) with (Scripted.s_argsort (Some <$> keys)).
  unfold Scripted.s_argsort.
  pose proof (insertion_entries keys) as Hentries.
  pose proof (insertion_sorted (zip (Some <$> keys) (seq 0 (length (Some <$> keys)))))
    as Hsorted.
  induction Hsorted as [|p l Hsorted IH Hp].
  - constructor.
  - apply Forall_cons in Hentries as [(x & Hx & Hk) Hentries].
    rewrite fmap_cons. csimpl. rewrite Hk. csimpl.
    constructor; [by apply IH|].
    apply Forall_forall. intros y Hy.
    apply list_elem_of_omap in Hy as (j & Hj & Hy).
    apply list_elem_of_fmap in Hj as (q & -> & Hq).
    rewrite Forall_forall in Hp. specialize (Hp q Hq).
    rewrite Forall_forall in Hentries. destruct (Hentries q Hq) as (y' & Hy' & Hk').
    rewrite Hk' in Hy. injection Hy as ->.
    rewrite Hx, Hy' in Hp. unfold Scripted.key_le in Hp.
    by destruct (Rle_dec x y).
Qed.

End ScriptedSort.

Section GeolocationOrder.
Context {L : Library}.

(** The sorted frame's column is the column read in the order the sort
    returns. *)
Lemma sort_values_column k df keys df_sorted vs :
  numeric_column k df = Ok (Some <$> keys) ->
  sort_values k df = Ok df_sorted ->
  numeric_column k df_sorted = Ok (Some <$> vs) ->
  vs = omap (fun i => keys !! i) (argsort (Some <$> keys)).
Proof.
  intros Hkeys Hsort Hvs. unfold sort_values in Hsort. rewrite Hkeys in Hsort.
  cbn [mbind result_bind] in Hsort.
  destruct (take (argsort (Some <$> keys)) df) as [df'|] eqn:Htake; [|done].
  injection Hsort as <-.
  apply take_rows in Htake as [_ Hrows].
  assert (Hsome : Some <$> vs = (fun i => keys !! i) <$> argsort (Some <$> keys)).
  { apply list_eq. intros i. rewrite !list_lookup_fmap.
    destruct (argsort (Some <$> keys) !! i) as [l|] eqn:Hl; simpl.
    - destruct (Forall2_lookup_l _ _ _ _ _ Hrows Hl) as (row & Hrow & Hdf).
      destruct (numeric_column_lookup _ _ _ _ _ Hkeys Hdf) as (x & Hx & Hc).
      assert (Hrow' : rows (reset_index df') !! i = Some (i, row.2)).
      { unfold reset_index. cbn [rows]. by rewrite list_lookup_imap, Hrow. }
      destruct (numeric_column_lookup _ _ _ _ _ Hvs Hrow') as (x' & Hx' & Hc').
      cbn [snd] in Hc'. rewrite Hc in Hc'. injection Hc' as <-.
      rewrite list_lookup_fmap in Hx, Hx'.
      destruct (keys !! l) as [key|]; [|done]. injection Hx as <-.
      destruct (vs !! i) as [v|]; [|done]. by injection Hx' as ->.
    - apply lookup_ge_None in Hl.
      pose proof (numeric_column_length _ _ _ Hvs) as Hlen.
      rewrite length_fmap in Hlen. unfold len, reset_index in Hlen. cbn [rows] in Hlen.
      rewrite length_imap, <- (Forall2_length _ _ _ Hrows) in Hlen.
      by rewrite lookup_ge_None_2 by lia. }
  assert (Hid : forall l : list R, omap (fun a : option R => a) (Some <$> l) = l).
  { induction l as [|x l IH]; csimpl; [done|]. by rewrite IH. }
  rewrite <- (Hid vs), Hsome. clear.
  induction (argsort (Some <$> keys)) as [|i l IH]; csimpl; [done|].
  by rewrite IH.
Qed.

End GeolocationOrder.

(** X21. With a sort that orders a column of numbers, as the one behind
    [sort_values] does, the bubbles of the geolocation spiral are laid
    out by ascending valuation on records that carry the three numbers:
    the valuations, the sizes and the heights [0.5 i + 0.1 v] are all
    non-decreasing along the trace, so a bubble later on the spiral is
    never lower. *)
Theorem geolocation_bubbles_climb `{L : Library} (data : list dict) (g : rng) :
  argsort_sorts L -> data <> [] -> Forall numeric_record data ->
  exists fig bubbles guide valuation sizes,
    create_geolocation_visualization data g = (fig, g)
    /\ fig_data fig = [TScatter3d bubbles; TScatter3d guide]
    /\ sc_size bubbles = AttrArray (Some <$> sizes)
    /\ sc_z bubbles = imap (fun i v => Some (0.5 * INR i + v * 0.1)) valuation
    /\ StronglySorted Rle valuation
    /\ StronglySorted Rle sizes
    /\ never_descends (sc_z bubbles).
Proof.
  intros Hsorts Hne Hnum.
  destruct (geolocation_numeric_sorted data g Hne Hnum)
    as (df & keys & df_sorted & vs & ims & Hdf & Hlen & Hkeys & Hsort & Hlen' & Hperm
        & Hvs & Hlv & Hli & Hrun).
  assert (Hsorted : StronglySorted Rle vs).
  { rewrite (sort_values_column _ _ _ _ _ Hkeys Hsort Hvs). apply Hsorts. }
  eexists _, _, _, vs, ((fun v => Rmin (Rmax (v * 1.2 + 8) 8) 40) <$> vs).
  split; [exact Hrun|]. unfold geolocation_figure. cbn [fig_data].
  split; [reflexivity|]. cbn [sc_size sc_z].
  assert (Hz : imap (fun (i : nat) (v : float) => fadd (Some (0.5 * INR i)) (fmul v (Some 0.1)))
                 (Some <$> vs)
               = imap (fun i v => Some (0.5 * INR i + v * 0.1)) vs).
  { apply list_eq. intros i. rewrite !list_lookup_imap, list_lookup_fmap.
    by destruct (vs !! i). }
  rewrite Hz. split.
  { unfold geolocation_bubble_sizes. by rewrite <- !list_fmap_compose. }
  split; [done|]. split; [done|]. split.
  { eapply StronglySorted_fmap; [|exact Hsorted]. intros x y Hxy. simpl.
    unfold Rmin, Rmax. repeat destruct (Rle_dec _ _); lra. }
  intros i j zi zj Hij Hi Hj. rewrite list_lookup_imap in Hi, Hj.
  destruct (vs !! i) as [vi|] eqn:Hvi; [|done].
  destruct (vs !! j) as [vj|] eqn:Hvj; [|done].
  injection Hi as <-. injection Hj as <-.
  assert (Hle : vi <= vj).
  { clear -Hsorted Hij Hvi Hvj. revert i j Hij Hvi Hvj.
    induction Hsorted as [|v l Hsorted IH Hv]; intros i j Hij Hvi Hvj; [done|].
    destruct i as [|i].
    - injection Hvi as ->. destruct j as [|j]; [injection Hvj as ->; lra|].
      rewrite Forall_forall in Hv. apply Hv. by eapply list_elem_of_lookup_2.
    - destruct j as [|j]; [lia|]. apply (IH i j); [lia|done..]. }
  assert (Hgap : INR i <= INR j) by (by apply le_INR).
  lra.
Qed.

Lemma geolocation_bubbles_climb_witness :
  argsort_sorts (Scripted.library 3)
  /\ wave_example <> [] /\ Forall numeric_record wave_example
  /\ exists fig bubbles guide,
       create_geolocation_visualization (L := Scripted.library 3) wave_example []
       = (fig, [])
       /\ fig_data fig = [TScatter3d bubbles; TScatter3d guide]
       /\ never_descends (sc_z bubbles).
Proof.
  assert (Hsorts : argsort_sorts (Scripted.library 3)) by apply scripted_argsort_sorts.
  assert (Hne : wave_example <> []) by done.
  assert (Hnum : Forall numeric_record wave_example).
  { repeat constructor; eexists; unfold GROWTH, VALUATION, IMPACT; by simplify_map_eq. }
  split; [exact Hsorts|]. split; [exact Hne|]. split; [exact Hnum|].
  destruct (geolocation_bubbles_climb (L := Scripted.library 3) wave_example []
              Hsorts Hne Hnum)
    as (fig & bubbles & guide & vs & sizes & Hrun & Hfig & _ & _ & _ & _ & Hclimb).
  exists fig, bubbles, guide. split; [exact Hrun|]. split; [exact Hfig|exact Hclimb].
Defined.

(** ** The generator: patterns by sector *)

Section SectorPatterns.
Context {RS : PyRandom}.

Lemma sector_bases_by_sector sector s :
  let '(v, a, g) := (sector_bases sector s).1 in
  (sector = "AI/ML" -> 70 <= a < 95 /\ 200 <= g < 2000)
  /\ (sector = "Fintech" -> 40 <= a < 80 /\ 100 <= g < 800)
  /\ (sector = "Healthtech" \/ sector = "Biotech" -> 60 <= a < 90 /\ 80 <= g < 500)
  /\ (sector = "E-commerce" -> 30 <= a < 70 /\ 150 <= g < 1000)
  /\ (sector ∉ ["AI/ML"; "Fintech"; "Healthtech"; "Biotech"; "E-commerce"] ->
      20 <= a < 70 /\ 50 <= g < 400).
Proof.
  unfold sector_bases.
  repeat case_decide;
    unfold mbind, mret, gen_bind, gen_ret, Gen.bind, Gen.ret;
    repeat match goal with
           | |- context [Gen.uniform ?a ?b ?s0] =>
               let H := fresh "H" in
               pose proof (uniform_range_strict a b s0 ltac:(lra)) as H;
               destruct (Gen.uniform a b s0) as [? ?]; simpl in H
           end; cbn [fst snd];
    (split; [|split; [|split; [|split]]]); intros Hs;
    first [ split; lra
          | exfalso; rewrite ?not_elem_of_cons in Hs; intuition congruence ].
Qed.

Lemma generate_record_sector_pattern i s : sector_pattern (generate_record i s).1.
Proof.
  unfold generate_record, mbind, mret, gen_bind, gen_ret, Gen.bind, Gen.ret.
  destruct (Gen.choice sectors s) as [sector s1].
  destruct (Gen.choice countries s1) as [country s2].
  destruct (Gen.choice statuses s2) as [status s3].
  pose proof (sector_bases_by_sector sector s3) as Hb.
  destruct (sector_bases sector s3) as [[[v a] gb] s4]. cbn [fst snd] in Hb.
  destruct Hb as (Hai & Hfin & Hhealth & Hecom & Hother).
  pose proof (uniform_range_strict 0.8 1.2 s4 ltac:(lra)) as Hc.
  destruct (Gen.uniform 0.8 1.2 s4) as [c s5].
  pose proof (uniform_range_strict (-10) 10 s5 ltac:(lra)) as Hj.
  destruct (Gen.uniform (-10) 10 s5) as [jit s6].
  destruct (Gen.randint 2010 2024 s6) as [year s7].
  destruct (Gen.uniform (-180) 180 s7) as [lon s8].
  destruct (Gen.uniform (-90) 90 s8) as [lat s9]. cbn [fst snd] in *.
  exists sector, (Rmin 95 (Rmax 1 (a + jit))), (gb * c).
  unfold make_record, COMPANY, VALUATION, IMPACT, GROWTH, STATUS.
  split; [by simplify_map_eq|]. split; [by simplify_map_eq|].
  split; [by simplify_map_eq|].
  assert (Hclamp : forall lo hi, 1 <= lo <= 95 -> lo <= a + jit < hi ->
            lo <= Rmin 95 (Rmax 1 (a + jit)) <= 95
            /\ (hi <= 95 -> Rmin 95 (Rmax 1 (a + jit)) < hi)).
  { intros lo hi Hlo Hrange. unfold Rmin, Rmax.
    repeat destruct (Rle_dec _ _); split; try intros ?; lra. }
  split; [intros Hs; destruct (Hai Hs) as [Ha Hg];
          destruct (Hclamp 60 105 ltac:(lra) ltac:(lra)); split; [lra|nra]|].
  split; [intros Hs; destruct (Hfin Hs) as [Ha Hg];
          destruct (Hclamp 30 90 ltac:(lra) ltac:(lra)) as [? Hlt];
          specialize (Hlt ltac:(lra)); split; [lra|nra]|].
  split; [intros Hs; destruct (Hhealth Hs) as [Ha Hg];
          destruct (Hclamp 50 100 ltac:(lra) ltac:(lra)); split; [lra|nra]|].
  split; [intros Hs; destruct (Hecom Hs) as [Ha Hg];
          destruct (Hclamp 20 80 ltac:(lra) ltac:(lra)) as [? Hlt];
          specialize (Hlt ltac:(lra)); split; [lra|nra]|].
  intros Hs; destruct (Hother Hs) as [Ha Hg].
  destruct (Hclamp 10 80 ltac:(lra) ltac:(lra)) as [? Hlt].
  specialize (Hlt ltac:(lra)). split; [lra|nra].
Qed.

End SectorPatterns.

(** X22. The sector of a generated record conditions its impact score and
    its growth rate, whatever is drawn: AI/ML gives an impact score in
    [[60, 95]] and a growth rate in [[160, 2400)]; Fintech [[30, 90]] and
    [[80, 960)]; Healthtech and Biotech [[50, 95]] and [[64, 600)];
    E-commerce [[20, 80]] and [[120, 1200)]; every other sector
    [[10, 80]] and [[40, 480)]. *)
Theorem generated_sector_patterns `{RS : PyRandom} (count : nat) (s : pystate) :
  Forall sector_pattern (generate_large_realistic_dataset count s).1.
Proof. apply generate_loop_Forall, generate_record_sector_pattern. Qed.

(** ** Records without numbers *)

Section FallbackFill.
Context {L : Library}.

(** The trace built from a growth column of numbers. *)
Lemma spiral_tunnel_figure_geometry df xs :
  numeric_column GROWTH df = Ok (Some <$> xs) ->
  exists sc,
    fig_data (spiral_tunnel_figure df (Some <$> xs)) = [TScatter3d sc]
    /\ length (sc_x sc) = len df
    /\ Forall tunnel_point (zip (zip (sc_x sc) (sc_y sc)) (sc_z sc)).
Proof.
  intros Hgrowth.
  destruct (spiral_tunnel_figure_points _ _ Hgrowth)
    as (sc & Hsc & Hx & Hy & Hz & Hpoints).
  exists sc. split; [done|]. split; [done|].
  apply Forall_lookup. intros k [[x y] z] Hk.
  apply lookup_zip_with_Some in Hk as (xy & z' & [= <- <-] & Hxy & Hzk).
  apply lookup_zip_with_Some in Hxy as (x' & y' & [= <- <-] & Hxk & Hyk).
  assert (Hlt : (k < len df)%nat) by (apply lookup_lt_Some in Hxk; lia).
  destruct (lookup_lt_is_Some_2 (rows df) k Hlt) as [row Hrow].
  destruct (Hpoints k row Hrow)
    as (gk & theta & h & Hgk & Htheta & Hh & Hxk' & Hyk' & Hzk' & _).
  destruct (numeric_column_lookup _ _ _ _ _ Hgrowth Hrow) as (gk' & Hlook & Hgk').
  rewrite Hgk in Hgk'. injection Hgk' as <-. rewrite list_lookup_fmap in Hlook.
  destruct (xs !! k) as [v|] eqn:Hv; [|done]. injection Hlook as <-.
  destruct (tunnel_radius_range (Some <$> xs) v) as (r & Hr & Hrange).
  { apply list_elem_of_fmap. exists v. split; [done|]. by eapply list_elem_of_lookup_2. }
  rewrite Hr in Hxk', Hyk'. exists r, theta, h.
  rewrite Hxk in Hxk'. rewrite Hyk in Hyk'. rewrite Hzk in Hzk'.
  injection Hxk' as ->. injection Hyk' as ->. injection Hzk' as ->.
  split; [done|]. split; [done|].
  pose proof PI_RGT_0 as Hpi.
  pose proof (linspace_between 0 (6 * 2 * PI) (len df) theta ltac:(lra)
                ltac:(by eapply list_elem_of_lookup_2)).
  pose proof (linspace_between 0 100 (len df) h ltac:(lra)
                ltac:(by eapply list_elem_of_lookup_2)).
  split; [lra|done].
Qed.

Lemma filled_rows_len k lo hi df df' :
  Forall2 (filled_row k lo hi) (rows df) (rows df') -> len df' = len df.
Proof. intros H. unfold len. by rewrite (Forall2_length _ _ _ H). Qed.

(** Filling the three columns of a frame that has none of them. *)
Lemma ensure_three_fills df g :
  has_column GROWTH df = false -> has_column VALUATION df = false ->
  has_column IMPACT df = false ->
  exists df1 g1 df2 g2 df3,
    ensure_column GROWTH 50 200 df g = (Ok df1, g1)
    /\ ensure_column VALUATION 1 50 df1 g1 = (Ok df2, g2)
    /\ ensure_column IMPACT 20 90 df2 g2 = (Ok df3, after_draws 3 (len df) g)
    /\ len df3 = len df
    /\ Forall (fun row => exists x, row.2 !! GROWTH = Some (VNum x) /\ 50 <= x < 200)
              (rows df3).
Proof.
  intros Hg Hv Hi.
  destruct (ensure_column_fills_run GROWTH 50 200 df g ltac:(lra) Hg)
    as (df1 & Hrun1 & Hcols1 & Hrows1).
  pose proof (filled_rows_len _ _ _ _ _ Hrows1) as Hlen1.
  assert (Hv1 : has_column VALUATION df1 = false).
  { apply not_true_is_false. rewrite has_column_true, Hcols1. intros Hin.
    apply elem_of_union in Hin as [Hin%elem_of_singleton|Hin]; [done|].
    apply has_column_true in Hin. congruence. }
  destruct (ensure_column_fills_run VALUATION 1 50 df1 (np_random_sample (len df) g).2
              ltac:(lra) Hv1) as (df2 & Hrun2 & Hcols2 & Hrows2).
  pose proof (filled_rows_len _ _ _ _ _ Hrows2) as Hlen2.
  assert (Hi2 : has_column IMPACT df2 = false).
  { apply not_true_is_false. rewrite has_column_true, Hcols2, Hcols1. intros Hin.
    apply elem_of_union in Hin as [Hin%elem_of_singleton|Hin]; [done|].
    apply elem_of_union in Hin as [Hin%elem_of_singleton|Hin]; [done|].
    apply has_column_true in Hin. congruence. }
  destruct (ensure_column_fills_run IMPACT 20 90 df2
              (np_random_sample (len df1) (np_random_sample (len df) g).2).2
              ltac:(lra) Hi2) as (df3 & Hrun3 & Hcols3 & Hrows3).
  pose proof (filled_rows_len _ _ _ _ _ Hrows3) as Hlen3.
  eexists df1, _, df2, _, df3. split; [exact Hrun1|]. split; [exact Hrun2|].
  split; [rewrite Hrun3; cbn [after_draws]; by rewrite Hlen2, Hlen1|].
  split; [lia|].
  apply Forall_lookup. intros i row3 Hrow3.
  destruct (Forall2_lookup_r _ _ _ _ _ Hrows3 Hrow3) as (row2 & Hrow2 & _ & _ & Hkeep3).
  destruct (Forall2_lookup_r _ _ _ _ _ Hrows2 Hrow2) as (row1 & Hrow1 & _ & _ & Hkeep2).
  destruct (Forall2_lookup_r _ _ _ _ _ Hrows1 Hrow1) as (row0 & _ & _ & (x & Hx & Hrange) & _).
  exists x. split; [|done]. by rewrite Hkeep3, Hkeep2.
Qed.

End FallbackFill.

(** X23. Records that carry none of the three numbers are not rejected:
    the spiral tunnel fills the three columns with draws from numpy's
    global generator, which it leaves advanced by three draws of
    [min(n, 1000)] numbers, and shows a regular tunnel of [min(n, 1000)]
    points whose radii, within [[40, 60)], come from the invented growth
    rates. *)
Theorem spiral_tunnel_invents_numbers `{L : Library} (data : list dict) (g : rng) :
  data <> [] -> Forall bare_record data ->
  let n := Nat.min (length data) 1000 in
  exists fig sc,
    create_spiral_tunnel_visualization data g = (fig, after_draws 3 n g)
    /\ fig_data fig = [TScatter3d sc]
    /\ length (sc_x sc) = n
    /\ Forall tunnel_point (zip (zip (sc_x sc) (sc_y sc)) (sc_z sc)).
Proof.
  intros Hne Hbare n.
  destruct (downsample_ok 1000 (from_records data)) as [df0 Hdf0].
  pose proof (downsample_len _ _ _ Hdf0) as Hlen0. fold n in Hlen0.
  assert (Hno : forall k, (forall r, r ∈ data -> r !! k = None) ->
            has_column k df0 = false).
  { intros k Hk. apply not_true_is_false.
    rewrite (downsample_has_column _ _ _ _ Hdf0), has_column_true,
      elem_of_columns_from_records.
    intros (r & Hr & [v Hv]). by rewrite (Hk r Hr) in Hv. }
  rewrite Forall_forall in Hbare.
  destruct (ensure_three_fills df0 g)
    as (df1 & g1 & df2 & g2 & df & Hrun1 & Hrun2 & Hrun3 & Hlen & Hrows).
  { apply Hno. intros r Hr. apply (Hbare r Hr). }
  { apply Hno. intros r Hr. apply (Hbare r Hr). }
  { apply Hno. intros r Hr. apply (Hbare r Hr). }
  destruct (numeric_column_all_numbers GROWTH df) as (xs & Hxs & _).
  { eapply Forall_impl; [exact Hrows|]. intros row (x & Hx & _). eauto. }
  destruct (spiral_tunnel_figure_geometry df xs Hxs) as (sc & Hsc & Hx & Hpoints).
  exists (spiral_tunnel_figure df (Some <$> xs)), sc.
  split; [|split; [done|split; [lia|done]]].
  unfold create_spiral_tunnel_visualization, Eng.guarded, spiral_tunnel_body.
  destruct data as [|r data]; [done|].
  rewrite bind_lift, Hdf0, bind_run, Hrun1, bind_run, Hrun2, bind_run, Hrun3.
  rewrite bind_lift, Hxs. by rewrite Hlen0.
Qed.

Lemma spiral_tunnel_invents_numbers_witness :
  names_only_example <> [] /\ Forall bare_record names_only_example
  /\ exists fig sc,
       create_spiral_tunnel_visualization (L := Scripted.library 3)
         names_only_example [4; 0; 9; 2; 6; 1; 8]%nat = (fig, [8%nat])
       /\ fig_data fig = [TScatter3d sc]
       /\ length (sc_x sc) = 2%nat.
Proof.
  assert (Hne : names_only_example <> []) by done.
  assert (Hbare : Forall bare_record names_only_example).
  { repeat constructor. }
  split; [exact Hne|]. split; [exact Hbare|].
  destruct (spiral_tunnel_invents_numbers (L := Scripted.library 3) names_only_example
              [4; 0; 9; 2; 6; 1; 8]%nat Hne Hbare) as (fig & sc & Hrun & Hsc & Hlen & _).
  exists fig, sc. split; [exact Hrun|]. split; [exact Hsc|exact Hlen].
Defined.
